(** * Ledger-Logic: the accounting core of [authenticate/models.py] and
      [authenticate/views.py], embedded and verified.

    The development follows the two source files.  Model classes become
    records (one module per class, so that fields keep their names), the
    tables of the database become lists indexed by row identifier, the views
    become functions from a request and a site state to a new site state and
    a response.

    Conventions.
    - Money ([DecimalField(max_digits=10, decimal_places=2)]) is an integer
      number of hundredths.
    - A date is its day number ([date.toordinal()]); [timezone.now().date()]
      is the parameter [today] of whatever reads the clock.
    - A row identifier is the position of the row in its table.  No view
      deletes a row, so positions are stable and a new row is appended.
    - An unhandled exception ends the request; what was written before it
      stays written, except inside [transaction.atomic()]. *)

From Stdlib Require Import Ascii ZArith QArith Qcanon Lia.
From stdpp Require Import base strings list gmap pretty numbers.

Open Scope Z_scope.

(** ** Shared vocabulary *)

Definition Date := Z.
Definition money := Z.

(** [django.contrib.messages]: the flash messages queued by a view. *)
Inductive level := success | error.

Definition message : Type := level * string.

(** What a view hands back to the framework. *)
Inductive response :=
| redirect (to : string)
| render (template : string)
| server_error (exception : string).

(** Python truthiness of a value fetched with [request.POST.get]: [None]
    and the empty string are false. *)
Definition truthy (v : option string) : bool :=
  match v with
  | Some s => negb (String.eqb s "")
  | None => false
  end.

(** ** CustomUser ([models.py], lines 9-59) *)

Module CustomUser.

Record t := mk {
  username : string;
  password : string;
  is_active : bool;
  is_suspended : bool;
  failed_login_attempts : Z;
  suspension_start_date : option Date;
  suspension_end_date : option Date
}.

Definition set_is_suspended (b : bool) (u : t) : t :=
  mk (username u) (password u) (is_active u) b (failed_login_attempts u)
     (suspension_start_date u) (suspension_end_date u).

Definition set_failed_login_attempts (n : Z) (u : t) : t :=
  mk (username u) (password u) (is_active u) (is_suspended u) n
     (suspension_start_date u) (suspension_end_date u).

Definition set_suspension_dates (s e : option Date) (u : t) : t :=
  mk (username u) (password u) (is_active u) (is_suspended u)
     (failed_login_attempts u) s e.

(** The chained comparison [start <= today <= end]. *)
Definition within (s today e : Date) : bool := (s <=? today) && (today <=? e).

(** The body of [save] before [super().save()]: the fields as they will be
    written. *)
Definition clean (today : Date) (u : t) : t :=
  if negb (is_suspended u) then set_suspension_dates None None u
  else
    match suspension_start_date u, suspension_end_date u with
    | Some s, Some e => set_is_suspended (within s today e) u
    | _, _ => set_is_suspended false u
    end.

(** [save]: the instance is changed in place and then written to the row of
    the user; both the instance and the table are returned. *)
Definition save (today : Date) (u : t) (users : gmap string t)
  : t * gmap string t :=
  let u' := clean today u in (u', <[username u' := u']> users).

End CustomUser.

(** ** login_user ([views.py], lines 54-121) *)

Module Login.

Import CustomUser.

Record request := mk_request {
  method : string;
  post_username : option string;
  post_password : option string
}.

Record site := mk_site {
  users : gmap string CustomUser.t;
  session_user : option string;
  messages : list message
}.

(** [django.contrib.auth.authenticate] with the default model backend: the
    user of that name, when the password matches and the user is active. *)
Definition authenticate (us : gmap string CustomUser.t)
    (name pw : option string) : option CustomUser.t :=
  match name, pw with
  | Some n, Some p =>
      match us !! n with
      | Some u =>
          if String.eqb (password u) p && is_active u then Some u else None
      | None => None
      end
  | _, _ => None
  end.

(** [CustomUser.objects.get(username=username)]; [None] is
    [CustomUser.DoesNotExist]. *)
Definition get_user (us : gmap string CustomUser.t) (name : option string)
  : option CustomUser.t :=
  match name with
  | Some n => us !! n
  | None => None
  end.

(** Lines 77-88: the suspension window is re-read on a good password. *)
Definition refresh_suspension (today : Date) (user : CustomUser.t)
    (us : gmap string CustomUser.t) : CustomUser.t * gmap string CustomUser.t :=
  match suspension_start_date user, suspension_end_date user with
  | Some s, Some e =>
      let user1 :=
        if within s today e then set_is_suspended true user
        else if e <? today then
          set_suspension_dates None None (set_is_suspended false user)
        else user in
      save today user1 us
  | _, _ => (user, us)
  end.

Definition login_user (today : Date) (req : request) (st : site)
  : site * response :=
  if String.eqb (method req) "POST" then
    match authenticate (users st) (post_username req) (post_password req) with
    | Some user =>
        let '(user, us) := refresh_suspension today user (users st) in
        if negb (is_suspended user) then
          let '(_, us) := save today (set_failed_login_attempts 0 user) us in
          (mk_site us (Some (username user))
             (messages st ++ [(success, "You have successfully logged in!")]),
           redirect "home")
        else
          (mk_site us (session_user st)
             (messages st ++
              [(error, "Your account has been suspended. Reach out to an admin to unlock it.")]),
           redirect "login")
    | None =>
        match get_user (users st) (post_username req) with
        | Some user =>
            let user := set_failed_login_attempts (failed_login_attempts user + 1) user in
            if 5 <=? failed_login_attempts user then
              let user := set_failed_login_attempts 0 (set_is_suspended true user) in
              let '(_, us) := save today user (users st) in
              (mk_site us (session_user st)
                 (messages st ++
                  [(error, "You've attempted too many times. Your account has been suspended.")]),
               redirect "login")
            else
              let '(_, us) := save today user (users st) in
              (mk_site us (session_user st)
                 (messages st ++ [(error, "Invalid username or password.")]),
               redirect "login")
        | None =>
            (mk_site (users st) (session_user st)
               (messages st ++ [(error, "Invalid username or password.")]),
             redirect "login")
        end
    end
  else (st, render "authenticate/login.html").

End Login.

(** ** The ledger models ([models.py], lines 102-294)

    Only the columns that the modelled views read or write are kept:
    descriptions, comments, attachments, ordering keys, timestamps and the
    owning user of an account are left out. *)

Module ChartOfAccounts.

Record t := mk {
  account_name : string;
  account_number : nat;
  is_active : bool;
  normal_side : string;
  account_category : string;
  initial_balance : money;
  debit : money;
  credit : money;
  balance : money
}.

Definition set_is_active (b : bool) (a : t) : t :=
  mk (account_name a) (account_number a) b (normal_side a)
     (account_category a) (initial_balance a) (debit a) (credit a) (balance a).

Definition set_debit (x : money) (a : t) : t :=
  mk (account_name a) (account_number a) (is_active a) (normal_side a)
     (account_category a) (initial_balance a) x (credit a) (balance a).

Definition set_credit (x : money) (a : t) : t :=
  mk (account_name a) (account_number a) (is_active a) (normal_side a)
     (account_category a) (initial_balance a) (debit a) x (balance a).

Definition set_balance (x : money) (a : t) : t :=
  mk (account_name a) (account_number a) (is_active a) (normal_side a)
     (account_category a) (initial_balance a) (debit a) (credit a) x.

End ChartOfAccounts.

Module JournalEntry.

Record t := mk {
  date : Date;
  account : nat;
  debit : money;
  credit : money;
  status : string;
  group : option nat
}.

Definition set_status (s : string) (e : t) : t :=
  mk (date e) (account e) (debit e) (credit e) s (group e).

End JournalEntry.

Module GeneralLedger.

Record t := mk {
  account : nat;
  journal_entry : option nat;
  date_of_journal_entry : Date;
  description : string;
  debit : money;
  credit : money;
  balance : money
}.

End GeneralLedger.

(** [CoAEventLog] ([models.py], lines 135-159): one row for each logged
    change of the chart.  The action and the account are kept; the user,
    the time stamp and the two serialised snapshots are left out. *)
Module CoAEventLog.

Record t := mk {
  action : string;
  chart_of_account : nat
}.

End CoAEventLog.

(** The five tables.  A [JournalEntryGroup] row holds nothing but its
    creation time, so the table is the number of its rows. *)
Record db := mk_db {
  accounts : list ChartOfAccounts.t;
  groups : nat;
  entries : list JournalEntry.t;
  ledger : list GeneralLedger.t;
  event_log : list CoAEventLog.t
}.

Definition empty_db : db := mk_db [] 0%nat [] [] [].

Definition set_accounts (f : list ChartOfAccounts.t -> list ChartOfAccounts.t)
    (d : db) : db :=
  mk_db (f (accounts d)) (groups d) (entries d) (ledger d) (event_log d).

Definition set_groups (f : nat -> nat) (d : db) : db :=
  mk_db (accounts d) (f (groups d)) (entries d) (ledger d) (event_log d).

Definition set_entries (f : list JournalEntry.t -> list JournalEntry.t)
    (d : db) : db :=
  mk_db (accounts d) (groups d) (f (entries d)) (ledger d) (event_log d).

Definition set_ledger (f : list GeneralLedger.t -> list GeneralLedger.t)
    (d : db) : db :=
  mk_db (accounts d) (groups d) (entries d) (f (ledger d)) (event_log d).

Definition set_event_log (f : list CoAEventLog.t -> list CoAEventLog.t)
    (d : db) : db :=
  mk_db (accounts d) (groups d) (entries d) (ledger d) (f (event_log d)).

(** ** Requests as computations

    A view runs against a [world]: the database, the flash messages queued
    so far, and a fault plan.  The plan says, for each write still to come,
    whether the database refuses it (a lost connection, a value out of
    range, a lock timeout); an exhausted plan refuses nothing.  A view either
    returns or raises; the world it leaves is kept in both cases. *)

Inductive result (A : Type) :=
| ok (a : A)
| raised (exception : string).

Arguments ok {A} a.
Arguments raised {A} exception.

Record world := mk_world {
  plan : list bool;
  store : db;
  flash : list message
}.

Definition M (A : Type) : Type := world -> result A * world.

#[global] Instance M_ret : MRet M := fun A (a : A) w => (ok a, w).

#[global] Instance M_bind : MBind M := fun A B (k : A -> M B) (m : M A) w =>
  match m w with
  | (ok a, w') => k a w'
  | (raised e, w') => (raised e, w')
  end.

Definition raise {A} (e : string) : M A := fun w => (raised e, w).

Definition read {A} (f : db -> A) : M A := fun w => (ok (f (store w)), w).

(** One write statement sent to the database. *)
Definition write (f : db -> db) : M unit :=
  fun w =>
    match plan w with
    | true :: p => (raised "DatabaseError", mk_world p (store w) (flash w))
    | false :: p => (ok tt, mk_world p (f (store w)) (flash w))
    | [] => (ok tt, mk_world [] (f (store w)) (flash w))
    end.

(** [messages.error(request, text)] and [messages.success]. *)
Definition notify (l : level) (text : string) : M unit :=
  fun w => (ok tt, mk_world (plan w) (store w) (flash w ++ [(l, text)])).

(** [with transaction.atomic():] when the block raises, the database is put
    back as it was on entry and the exception goes on. *)
Definition atomic {A} (m : M A) : M A :=
  fun w =>
    match m w with
    | (ok a, w') => (ok a, w')
    | (raised e, w') => (raised e, mk_world (plan w') (store w) (flash w'))
    end.

(** [try: ... except E: ...] for one exception class. *)
Definition try_except {A} (m : M A) (E : string) (handler : M A) : M A :=
  fun w =>
    match m w with
    | (raised e, w') => if String.eqb e E then handler w' else (raised e, w')
    | r => r
    end.

(** [for x in xs: body]. *)
Fixpoint for_each {A} (xs : list A) (body : A -> M unit) : M unit :=
  match xs with
  | [] => mret tt
  | x :: rest => body x ;; for_each rest body
  end.

(** ** Row access *)

(** [instance.save()] on a row that was read from its table: an UPDATE of
    that row.  (Django inserts when the row is gone; no view deletes rows.) *)
Definition save_entry (pk : nat) (e : JournalEntry.t) : M unit :=
  write (set_entries (fun t => <[pk := e]> t)).

Definition save_account (pk : nat) (a : ChartOfAccounts.t) : M unit :=
  write (set_accounts (fun t => <[pk := a]> t)).

(** [CoAEventLog.objects.create(action=..., chart_of_account=account)]: an
    INSERT into the event log. *)
Definition create_event (action : string) (pk : nat) : M unit :=
  write (set_event_log (fun t => t ++ [CoAEventLog.mk action pk])).

(** Following the foreign key [entry.account]. *)
Definition related_account (pk : nat) : M ChartOfAccounts.t :=
  fun w =>
    match accounts (store w) !! pk with
    | Some a => (ok a, w)
    | None => (raised "ChartOfAccounts.DoesNotExist", w)
    end.

(** [JournalEntry.objects.filter(group_id=group_id)]: the matching rows with
    their identifiers, in table order.  A missing [group_id] selects the rows
    without a group. *)
Definition with_pk {A} (t : list A) : list (nat * A) := imap (fun i x => (i, x)) t.

Definition filter_group (group_id : option nat) (t : list JournalEntry.t)
  : list (nat * JournalEntry.t) :=
  List.filter (fun r => bool_decide (JournalEntry.group (snd r) = group_id))
    (with_pk t).

(** ** JournalEntry.approve ([models.py], lines 262-290)

    [self] is the instance in memory, [pk] its identifier.  The instance as
    the method leaves it is returned. *)
Definition approve (pk : nat) (self : JournalEntry.t) : M JournalEntry.t :=
  if String.eqb (JournalEntry.status self) "Pending" then
    atomic (
      let self := JournalEntry.set_status "Approved" self in
      save_entry pk self ;;
      account ← related_account (JournalEntry.account self);
      let account :=
        ChartOfAccounts.set_debit
          (ChartOfAccounts.debit account + JournalEntry.debit self) account in
      let account :=
        ChartOfAccounts.set_credit
          (ChartOfAccounts.credit account + JournalEntry.credit self) account in
      let account :=
        ChartOfAccounts.set_balance
          (ChartOfAccounts.initial_balance account
           + ChartOfAccounts.debit account - ChartOfAccounts.credit account)
          account in
      save_account (JournalEntry.account self) account ;;
      write (set_ledger (fun t => t ++ [
        GeneralLedger.mk (JournalEntry.account self) (Some pk)
          (JournalEntry.date self)
          ("Approved Journal Entry: " +:+ pretty pk)
          (JournalEntry.debit self) (JournalEntry.credit self)
          (ChartOfAccounts.balance account)])) ;;
      mret self)
  else mret self.

(** ** journal_entry_page ([views.py], lines 584-621) *)

(** [add_comment] ([views.py], lines 749-754) looks for the journal entry
    whose identifier is the group identifier and only queues a message. *)
Definition add_comment (group_id : option nat) : M unit :=
  found ← read (fun d =>
    match group_id with
    | Some g => bool_decide (is_Some (entries d !! g))
    | None => false
    end);
  if found : bool then mret tt else notify error "Journal Entry does not exist.".

Inductive button := approve_button | reject_button | no_button.

Record page_request := mk_page_request {
  page_method : string;
  pressed : button;
  group_id : option nat
}.

Definition journal_entry_page (req : page_request) : M response :=
  if String.eqb (page_method req) "POST" then
    match pressed req with
    | approve_button =>
        add_comment (group_id req) ;;
        rows ← read (fun d => filter_group (group_id req) (entries d));
        for_each rows (fun r =>
          entry ← approve (fst r) (snd r);
          account ← related_account (JournalEntry.account entry);
          save_account (JournalEntry.account entry) account)
    | reject_button =>
        rows ← read (fun d => filter_group (group_id req) (entries d));
        for_each rows (fun r =>
          add_comment (group_id req) ;;
          save_entry (fst r) (JournalEntry.set_status "Rejected" (snd r)))
    | no_button => mret tt
    end ;;
    mret (redirect "journal_entry_page")
  else mret (render "main_page/journal_entry/journal_entry_page.html").

(** ** Chart of accounts views ([views.py], lines 401-529)

    [ChartOfAccountForm] is declared in [forms.py].  [add_account] builds the
    whole row from the form and sets nothing but the owning user itself, so
    the form carries every column kept here; [edit_account] binds the same
    form to an existing row.  A submitted form is [Some] cleaned row when
    [form.is_valid()] holds and [None] otherwise.  [edit_account],
    [deactivate_account] and [activate_account] write a row of the event log
    after the account is saved; [add_account] writes none. *)

(** The unique constraints on [account_name] and [account_number]; [skip] is
    the row being rewritten. *)
Definition unique_account (skip : option nat) (a : ChartOfAccounts.t)
    (t : list ChartOfAccounts.t) : bool :=
  forallb (fun r =>
      bool_decide (Some (fst r) = skip)
      || (negb (String.eqb (ChartOfAccounts.account_name (snd r))
                           (ChartOfAccounts.account_name a))
          && negb (Nat.eqb (ChartOfAccounts.account_number (snd r))
                           (ChartOfAccounts.account_number a))))
    (with_pk t).

Definition insert_account (a : ChartOfAccounts.t) : M unit :=
  free ← read (fun d => unique_account None a (accounts d));
  if free : bool then write (set_accounts (fun t => t ++ [a]))
  else raise "IntegrityError".

Definition update_account (pk : nat) (a : ChartOfAccounts.t) : M unit :=
  free ← read (fun d => unique_account (Some pk) a (accounts d));
  if free : bool then save_account pk a else raise "IntegrityError".

Record account_request := mk_account_request {
  account_method : string;
  is_superuser : bool;
  form : option ChartOfAccounts.t
}.

Definition add_account (req : account_request) : M response :=
  if negb (is_superuser req) then mret (redirect "login")
  else if String.eqb (account_method req) "POST" then
    match form req with
    | Some a =>
        insert_account a ;;
        notify success "Account added!" ;;
        mret (redirect "chart_of_accounts")
    | None => mret (render "main_page/chart_of_accounts/add_coa_account.html")
    end
  else mret (render "main_page/chart_of_accounts/add_coa_account.html").

Definition get_object_or_404 (account_id : nat) : M ChartOfAccounts.t :=
  fun w =>
    match accounts (store w) !! account_id with
    | Some a => (ok a, w)
    | None => (raised "Http404", w)
    end.

Definition edit_account (req : account_request) (account_id : nat) : M response :=
  get_object_or_404 account_id ;;
  if String.eqb (account_method req) "POST" then
    match form req with
    | Some a =>
        update_account account_id a ;;
        create_event "modified" account_id ;;
        notify success "Account updated successfully!" ;;
        mret (redirect "chart_of_accounts")
    | None => mret (render "main_page/chart_of_accounts/edit_coa_account.html")
    end
  else mret (render "main_page/chart_of_accounts/edit_coa_account.html").

Definition deactivate_account (req : account_request) (account_id : nat)
  : M response :=
  if negb (is_superuser req) then mret (redirect "login")
  else
    account ← get_object_or_404 account_id;
    if 0 <? ChartOfAccounts.balance account then
      notify error "Accounts with a balance greater than 0 cannot be deactivated." ;;
      mret (redirect "chart_of_accounts")
    else
      save_account account_id (ChartOfAccounts.set_is_active false account) ;;
      create_event "deactivated" account_id ;;
      mret (redirect "chart_of_accounts").

Definition activate_account (req : account_request) (account_id : nat)
  : M response :=
  if negb (is_superuser req) then mret (redirect "login")
  else
    account ← get_object_or_404 account_id;
    save_account account_id (ChartOfAccounts.set_is_active true account) ;;
    create_event "activated" account_id ;;
    mret (redirect "chart_of_accounts").

(** ** add_journal_entry ([views.py], lines 627-746) *)

Record entry_request := mk_entry_request {
  entry_method : string;
  account1 : option string;
  debit1 : option string;
  date1 : option string;
  account2 : option string;
  credit2 : option string;
  date2 : option string
}.

Section Journal.

(** Three conversions that belong to Python and to the framework, not to the
    repository:
    - [Decimal] is the constructor [decimal.Decimal] on a text, [None] when
      it raises [decimal.InvalidOperation]; values are exact rationals;
    - [to_python] is [DateField.to_python] on a text, [None] when it raises
      [ValidationError];
    - [quantize] is the amount the database keeps when a decimal is written
      to a column of two decimal places. *)
Variable Decimal : string -> option Qc.
Variable to_python : string -> option Date.
Variable quantize : Qc -> money.

(** [Decimal(request.POST.get(key, 0))]. *)
Definition decimal_of (v : option string) : M Qc :=
  match v with
  | Some s =>
      match Decimal s with
      | Some q => mret q
      | None => raise "decimal.InvalidOperation"
      end
  | None => mret 0%Qc
  end.

(** [ChartOfAccounts.objects.get(account_name=name)]. *)
Definition get_account_by_name (name : option string)
  : M (nat * ChartOfAccounts.t) :=
  rows ← read (fun d =>
    List.filter
      (fun r => bool_decide (Some (ChartOfAccounts.account_name (snd r)) = name))
      (with_pk (accounts d)));
  match rows with
  | [r] => mret r
  | [] => raise "ChartOfAccounts.DoesNotExist"
  | _ => raise "ChartOfAccounts.MultipleObjectsReturned"
  end.

(** [JournalEntryGroup.objects.create()]. *)
Definition create_group : M nat :=
  g ← read groups;
  write (set_groups S) ;;
  mret g.

(** [JournalEntry.objects.create(...)] with [status="Pending"]: [date] is a
    column that cannot be null, and a text is converted by the field. *)
Definition create_entry (account : nat) (debit credit : money)
    (date : option string) (group : nat) : M unit :=
  match date with
  | None => raise "IntegrityError"
  | Some s =>
      match to_python s with
      | None => raise "ValidationError"
      | Some d =>
          write (set_entries (fun t =>
            t ++ [JournalEntry.mk d account debit credit "Pending" (Some group)]))
      end
  end.

Definition add_journal_entry_page : string :=
  "main_page/journal_entry/add_journal_entry_page.html".

(** The e-mail sent after the two rows are created is not modelled. *)
Definition add_journal_entry (req : entry_request) : M response :=
  if String.eqb (entry_method req) "POST" then
    if negb (truthy (debit1 req)) || negb (truthy (credit2 req)) then
      notify error "Debit and credit values must be entered." ;;
      mret (render add_journal_entry_page)
    else
      debit ← decimal_of (debit1 req);
      credit ← decimal_of (credit2 req);
      if bool_decide (debit ≤ 0)%Qc || bool_decide (credit ≤ 0)%Qc then
        notify error "Debit and credit values must be greater than 0." ;;
        mret (render add_journal_entry_page)
      else if negb (bool_decide (debit = credit)) then
        notify error "The total debit and credit values must match." ;;
        mret (render add_journal_entry_page)
      else
        try_except (
          a1 ← get_account_by_name (account1 req);
          a2 ← get_account_by_name (account2 req);
          if negb (String.eqb (ChartOfAccounts.normal_side (snd a1)) "Left") then
            notify error "Account 1 must be a normal side left account." ;;
            mret (render add_journal_entry_page)
          else if negb (String.eqb (ChartOfAccounts.normal_side (snd a2)) "Right") then
            notify error "Account 2 must be a normal side right account." ;;
            mret (render add_journal_entry_page)
          else
            group ← create_group;
            create_entry (fst a1) (quantize debit) 0 (date1 req) group ;;
            create_entry (fst a2) 0 (quantize credit) (date2 req) group ;;
            mret (redirect "journal_entry_page"))
        "ChartOfAccounts.DoesNotExist"
        (notify error "One or more accounts do not exist in the Chart of Accounts." ;;
         mret (render add_journal_entry_page))
  else mret (render add_journal_entry_page).

(** ** The site as a transition system

    Every view of [views.py] that writes to one of the five tables is a
    request here; the remaining views (authentication, e-mail, reports,
    ratios, the page of the event log) leave these tables as they are. *)
Inductive request :=
| AddAccount (req : account_request)
| EditAccount (req : account_request) (account_id : nat)
| DeactivateAccount (req : account_request) (account_id : nat)
| ActivateAccount (req : account_request) (account_id : nat)
| AddJournalEntry (req : entry_request)
| JournalEntryPage (req : page_request).

Definition view (r : request) : M response :=
  match r with
  | AddAccount req => add_account req
  | EditAccount req account_id => edit_account req account_id
  | DeactivateAccount req account_id => deactivate_account req account_id
  | ActivateAccount req account_id => activate_account req account_id
  | AddJournalEntry req => add_journal_entry req
  | JournalEntryPage req => journal_entry_page req
  end.

(** One request served on database [d] under fault plan [p]: the database
    it leaves. *)
Definition serve (r : request) (p : list bool) (d : db) : db :=
  store (snd (view r (mk_world p d []))).

Inductive reachable : db -> Prop :=
| reachable_empty : reachable empty_db
| reachable_serve r p d : reachable d -> reachable (serve r p d).

(** A request that does not change the normal side of an account. *)
Definition keeps_sides (d : db) (r : request) : Prop :=
  match r with
  | EditAccount req account_id =>
      forall a a',
        accounts d !! account_id = Some a -> form req = Some a' ->
        ChartOfAccounts.normal_side a' = ChartOfAccounts.normal_side a
  | _ => True
  end.

(** A request that rejects a group. *)
Definition rejects (r : request) : Prop :=
  match r with
  | JournalEntryPage req =>
      page_method req = "POST" /\ pressed req = reject_button
  | _ => False
  end.

(** A request that approves a group. *)
Definition approves (r : request) : Prop :=
  match r with
  | JournalEntryPage req =>
      page_method req = "POST" /\ pressed req = approve_button
  | _ => False
  end.

Inductive reachable_keeping_sides : db -> Prop :=
| keeping_empty : reachable_keeping_sides empty_db
| keeping_serve r p d :
    reachable_keeping_sides d -> keeps_sides d r ->
    reachable_keeping_sides (serve r p d).

End Journal.

(** ** Exceptions in pure code *)

#[global] Instance result_ret : MRet result := fun A (a : A) => ok a.

#[global] Instance result_bind : MBind result := fun A B (k : A -> result B) r =>
  match r with
  | ok a => k a
  | raised e => raised e
  end.

(** ** calculate_ratios ([views.py], lines 1222-1473) *)

Module Ratios.

(** The local variables of the function that the loop over the accounts
    assigns.  [net_credit_sales] and [average_accounts_receivable] are never
    assigned and stay 0. *)
Record figures := mk {
  current_assets : money;
  current_liabilities : money;
  cash : money;
  operating_cash_flow : money;
  total_liabilities : money;
  total_assets : money;
  shareholder_equity : money;
  operating_income : money;
  interest_expenses : money;
  total_debt_service : money;
  net_sales : money;
  cost_of_goods_sold : money;
  gross_profit : money;
  net_income : money;
  inventory : money
}.

Definition net_credit_sales : money := 0.
Definition average_accounts_receivable : money := 0.

Definition initial : figures :=
  mk 0 0 0 0 0 0 0 0 0 0 0 0 0 0 0.

Definition set_current_assets (x : money) (t : figures) : figures :=
  mk x (current_liabilities t) (cash t) (operating_cash_flow t)
     (total_liabilities t) (total_assets t) (shareholder_equity t)
     (operating_income t) (interest_expenses t) (total_debt_service t)
     (net_sales t) (cost_of_goods_sold t) (gross_profit t) (net_income t)
     (inventory t).

Definition set_current_liabilities (x : money) (t : figures) : figures :=
  mk (current_assets t) x (cash t) (operating_cash_flow t)
     (total_liabilities t) (total_assets t) (shareholder_equity t)
     (operating_income t) (interest_expenses t) (total_debt_service t)
     (net_sales t) (cost_of_goods_sold t) (gross_profit t) (net_income t)
     (inventory t).

Definition set_cash (x : money) (t : figures) : figures :=
  mk (current_assets t) (current_liabilities t) x (operating_cash_flow t)
     (total_liabilities t) (total_assets t) (shareholder_equity t)
     (operating_income t) (interest_expenses t) (total_debt_service t)
     (net_sales t) (cost_of_goods_sold t) (gross_profit t) (net_income t)
     (inventory t).

Definition set_operating_cash_flow (x : money) (t : figures) : figures :=
  mk (current_assets t) (current_liabilities t) (cash t) x
     (total_liabilities t) (total_assets t) (shareholder_equity t)
     (operating_income t) (interest_expenses t) (total_debt_service t)
     (net_sales t) (cost_of_goods_sold t) (gross_profit t) (net_income t)
     (inventory t).

Definition set_total_liabilities (x : money) (t : figures) : figures :=
  mk (current_assets t) (current_liabilities t) (cash t)
     (operating_cash_flow t) x (total_assets t) (shareholder_equity t)
     (operating_income t) (interest_expenses t) (total_debt_service t)
     (net_sales t) (cost_of_goods_sold t) (gross_profit t) (net_income t)
     (inventory t).

Definition set_total_assets (x : money) (t : figures) : figures :=
  mk (current_assets t) (current_liabilities t) (cash t)
     (operating_cash_flow t) (total_liabilities t) x (shareholder_equity t)
     (operating_income t) (interest_expenses t) (total_debt_service t)
     (net_sales t) (cost_of_goods_sold t) (gross_profit t) (net_income t)
     (inventory t).

Definition set_shareholder_equity (x : money) (t : figures) : figures :=
  mk (current_assets t) (current_liabilities t) (cash t)
     (operating_cash_flow t) (total_liabilities t) (total_assets t) x
     (operating_income t) (interest_expenses t) (total_debt_service t)
     (net_sales t) (cost_of_goods_sold t) (gross_profit t) (net_income t)
     (inventory t).

Definition set_operating_income (x : money) (t : figures) : figures :=
  mk (current_assets t) (current_liabilities t) (cash t)
     (operating_cash_flow t) (total_liabilities t) (total_assets t)
     (shareholder_equity t) x (interest_expenses t) (total_debt_service t)
     (net_sales t) (cost_of_goods_sold t) (gross_profit t) (net_income t)
     (inventory t).

Definition set_interest_expenses (x : money) (t : figures) : figures :=
  mk (current_assets t) (current_liabilities t) (cash t)
     (operating_cash_flow t) (total_liabilities t) (total_assets t)
     (shareholder_equity t) (operating_income t) x (total_debt_service t)
     (net_sales t) (cost_of_goods_sold t) (gross_profit t) (net_income t)
     (inventory t).

Definition set_total_debt_service (x : money) (t : figures) : figures :=
  mk (current_assets t) (current_liabilities t) (cash t)
     (operating_cash_flow t) (total_liabilities t) (total_assets t)
     (shareholder_equity t) (operating_income t) (interest_expenses t) x
     (net_sales t) (cost_of_goods_sold t) (gross_profit t) (net_income t)
     (inventory t).

Definition set_net_sales (x : money) (t : figures) : figures :=
  mk (current_assets t) (current_liabilities t) (cash t)
     (operating_cash_flow t) (total_liabilities t) (total_assets t)
     (shareholder_equity t) (operating_income t) (interest_expenses t)
     (total_debt_service t) x (cost_of_goods_sold t) (gross_profit t)
     (net_income t) (inventory t) .

Definition set_cost_of_goods_sold (x : money) (t : figures) : figures :=
  mk (current_assets t) (current_liabilities t) (cash t)
     (operating_cash_flow t) (total_liabilities t) (total_assets t)
     (shareholder_equity t) (operating_income t) (interest_expenses t)
     (total_debt_service t) (net_sales t) x (gross_profit t) (net_income t)
     (inventory t).

Definition set_gross_profit (x : money) (t : figures) : figures :=
  mk (current_assets t) (current_liabilities t) (cash t)
     (operating_cash_flow t) (total_liabilities t) (total_assets t)
     (shareholder_equity t) (operating_income t) (interest_expenses t)
     (total_debt_service t) (net_sales t) (cost_of_goods_sold t) x
     (net_income t) (inventory t) .

Definition set_net_income (x : money) (t : figures) : figures :=
  mk (current_assets t) (current_liabilities t) (cash t)
     (operating_cash_flow t) (total_liabilities t) (total_assets t)
     (shareholder_equity t) (operating_income t) (interest_expenses t)
     (total_debt_service t) (net_sales t) (cost_of_goods_sold t)
     (gross_profit t) x (inventory t) .

Definition set_inventory (x : money) (t : figures) : figures :=
  mk (current_assets t) (current_liabilities t) (cash t)
     (operating_cash_flow t) (total_liabilities t) (total_assets t)
     (shareholder_equity t) (operating_income t) (interest_expenses t)
     (total_debt_service t) (net_sales t) (cost_of_goods_sold t)
     (gross_profit t) (net_income t) x.

(** One turn of the loop; [round(account.balance, 2)] is the balance itself,
    a number of hundredths. *)
Definition assign (t : figures) (account : ChartOfAccounts.t) : figures :=
  let name := ChartOfAccounts.account_name account in
  let category := ChartOfAccounts.account_category account in
  let b := ChartOfAccounts.balance account in
  if String.eqb name "Cash" then set_cash b t
  else if String.eqb name "Operating Cash" then set_operating_cash_flow b t
  else if String.eqb name "Total Debt Service" then set_total_debt_service b t
  else if String.eqb name "Operating Income" then set_operating_income b t
  else if String.eqb name "Interest Expense" then set_interest_expenses b t
  else if String.eqb name "Net Sales" then set_net_sales b t
  else if String.eqb name "Cost of Goods Sold" then set_cost_of_goods_sold b t
  else if String.eqb name "Gross Profit" then set_gross_profit b t
  else if String.eqb name "Net Income" then set_net_income b t
  else if String.eqb name "Inventory" then set_inventory b t
  else if String.eqb category "Assets" then
    set_total_assets (total_assets t + b) (set_current_assets (current_assets t + b) t)
  else if String.eqb category "Liabilities" then
    set_total_liabilities (total_liabilities t + b)
      (set_current_liabilities (current_liabilities t + b) t)
  else if String.eqb category "Equity" then
    set_shareholder_equity (shareholder_equity t + b) t
  else t.

(** [round(a / b, 2)] on decimals: the quotient to the nearest hundredth,
    ties to the even digit.  [n] and [d] are integers and the value rounded
    is [n / d].  (Python first rounds the quotient to 28 significant digits;
    for amounts of ten digits that does not change the result.) *)
Definition round_half_even (n d : Z) : Z :=
  let '(n, d) := if d <? 0 then (- n, - d) else (n, d) in
  let q := n / d in
  let r := n mod d in
  if 2 * r <? d then q
  else if d <? 2 * r then q + 1
  else if Z.even q then q else q + 1.

(** Division of two decimals raises on a zero divisor. *)
Definition divide (a b : money) : result money :=
  if b =? 0 then
    raised (if a =? 0 then "decimal.InvalidOperation" else "decimal.DivisionByZero")
  else ok (round_half_even (100 * a) b).

Definition GREEN : string := "#28a745".
Definition YELLOW : string := "#ffc107".
Definition RED : string := "#dc3545".

(** The literals the colours are graded against, as exact fractions: an
    integer literal is itself, a float literal is the binary fraction it
    denotes, and Python compares a decimal with either exactly. *)
Definition literal : Type := Z * Z.

Definition of_int (n : Z) : literal := (n, 1).
Definition f_1_5 : literal := (3, 2).
Definition f_0_5 : literal := (1, 2).
Definition f_0_2 : literal := (3602879701896397, 18014398509481984).
Definition f_0_6 : literal := (5404319552844595, 9007199254740992).
Definition f_0_7 : literal := (3152519739159347, 4503599627370496).
Definition f_0_4 : literal := (3602879701896397, 9007199254740992).
Definition f_0_15 : literal := (5404319552844595, 36028797018963968).
Definition f_0_05 : literal := (3602879701896397, 72057594037927936).
Definition f_0_03 : literal := (1080863910568919, 36028797018963968).
Definition f_0_01 : literal := (5764607523034235, 576460752303423488).
Definition f_0_1 : literal := (3602879701896397, 36028797018963968).

(** [v >= l] and [v <= l] for a value [v] in hundredths. *)
Definition ge (v : money) (l : literal) : bool := 100 * fst l <=? v * snd l.
Definition le (v : money) (l : literal) : bool := v * snd l <=? 100 * fst l.

Record ratio := mk_ratio { value : money; color : string }.

(** [GREEN if v >= hi else YELLOW if v >= lo else RED] and its mirror. *)
Definition grade_ge (v : money) (hi lo : literal) : ratio :=
  mk_ratio v (if ge v hi then GREEN else if ge v lo then YELLOW else RED).

Definition grade_le (v : money) (lo hi : literal) : ratio :=
  mk_ratio v (if le v lo then GREEN else if le v hi then YELLOW else RED).

Definition liquidity (t : figures) (ratios : gmap string ratio)
  : result (gmap string ratio) :=
  if negb (current_liabilities t =? 0) then
    current_ratio ← divide (current_assets t) (current_liabilities t);
    acid_test_ratio ← divide (current_assets t - inventory t) (current_liabilities t);
    cash_ratio ← divide (cash t) (current_liabilities t);
    operating_cash_flow_ratio ← divide (operating_cash_flow t) (current_liabilities t);
    mret (<["operating_cash_flow_ratio" :=
              grade_ge operating_cash_flow_ratio (of_int 1) f_0_5]>
          (<["cash_ratio" := grade_ge cash_ratio f_0_5 f_0_2]>
          (<["acid_test_ratio" := grade_ge acid_test_ratio (of_int 1) f_0_5]>
          (<["current_ratio" := grade_ge current_ratio f_1_5 (of_int 1)]> ratios))))
  else mret ratios.

Definition leverage (t : figures) (ratios : gmap string ratio)
  : result (gmap string ratio) :=
  if negb (total_assets t =? 0) && negb (total_liabilities t =? 0) then
    debt_ratio ← divide (total_liabilities t) (total_assets t);
    debt_to_equity_ratio ← divide (total_liabilities t) (shareholder_equity t);
    interest_coverage_ratio ←
      (if negb (interest_expenses t =? 0)
       then divide (operating_income t) (interest_expenses t) else mret 0);
    debt_service_coverage_ratio ←
      (if negb (total_debt_service t =? 0)
       then divide (operating_income t) (total_debt_service t) else mret 0);
    mret (<["debt_service_coverage_ratio" :=
              grade_ge debt_service_coverage_ratio (of_int 1) f_0_5]>
          (<["interest_coverage_ratio" :=
              grade_ge interest_coverage_ratio (of_int 3) f_1_5]>
          (<["debt_to_equity_ratio" :=
              grade_le debt_to_equity_ratio f_0_7 (of_int 1)]>
          (<["debt_ratio" := grade_le debt_ratio f_0_5 f_0_6]> ratios))))
  else mret ratios.

Definition efficiency (t : figures) (ratios : gmap string ratio)
  : result (gmap string ratio) :=
  if negb (total_assets t =? 0) then
    asset_turnover_ratio ← divide (net_sales t) (total_assets t);
    inventory_turnover_ratio ←
      (if negb (inventory t =? 0)
       then divide (cost_of_goods_sold t) (inventory t) else mret 0);
    days_sales_in_inventory_ratio ←
      (if negb (inventory_turnover_ratio =? 0)
       then divide 36500 inventory_turnover_ratio else mret 0);
    mret (<["days_sales_in_inventory_ratio" :=
              grade_le days_sales_in_inventory_ratio (of_int 60) (of_int 120)]>
          (<["inventory_turnover_ratio" :=
              grade_ge inventory_turnover_ratio (of_int 6) (of_int 3)]>
          (<["asset_turnover_ratio" :=
              grade_ge asset_turnover_ratio (of_int 1) f_0_5]> ratios)))
  else mret ratios.

Definition receivables (t : figures) (ratios : gmap string ratio)
  : result (gmap string ratio) :=
  if negb (shareholder_equity t =? 0) then
    receivables_turnover_ratio ←
      (if negb (average_accounts_receivable =? 0)
       then divide net_credit_sales average_accounts_receivable else mret 0);
    mret (<["receivables_turnover_ratio" :=
              grade_ge receivables_turnover_ratio (of_int 10) (of_int 7)]> ratios)
  else mret ratios.

Definition margins (t : figures) (ratios : gmap string ratio)
  : result (gmap string ratio) :=
  if negb (net_sales t =? 0) then
    gross_margin_ratio ← divide (gross_profit t) (net_sales t);
    operating_margin_ratio ← divide (operating_income t) (net_sales t);
    mret (<["operating_margin_ratio" :=
              grade_ge operating_margin_ratio f_0_15 f_0_05]>
          (<["gross_margin_ratio" := grade_ge gross_margin_ratio f_0_4 f_0_2]> ratios))
  else mret ratios.

Definition return_on_assets (t : figures) (ratios : gmap string ratio)
  : result (gmap string ratio) :=
  if negb (total_assets t =? 0) then
    return_on_assets_ratio ← divide (net_income t) (total_assets t);
    mret (<["return_on_assets_ratio" :=
              grade_ge return_on_assets_ratio f_0_03 f_0_01]> ratios)
  else mret ratios.

Definition return_on_equity (t : figures) (ratios : gmap string ratio)
  : result (gmap string ratio) :=
  if negb (shareholder_equity t =? 0) then
    return_on_equity_ratio ← divide (net_income t) (shareholder_equity t);
    mret (<["return_on_equity_ratio" :=
              grade_ge return_on_equity_ratio f_0_1 f_0_05]> ratios)
  else mret ratios.

(** The function: the figures are gathered from the accounts in table order,
    then the seven blocks run one after the other on the growing
    dictionary. *)
Definition calculate_ratios (accounts : list ChartOfAccounts.t)
  : result (gmap string ratio) :=
  let t := fold_left assign accounts initial in
  ratios ← liquidity t ∅;
  ratios ← leverage t ratios;
  ratios ← efficiency t ratios;
  ratios ← receivables t ratios;
  ratios ← margins t ratios;
  ratios ← return_on_assets t ratios;
  return_on_equity t ratios.

End Ratios.

(** ** The financial reports ([views.py], lines 808-1167)

    Each view computes its template context from the journal entries and
    then renders or e-mails it; the context is what is modelled. *)

Module Reports.

(** Python's [sum] over decimals. *)
Definition sum (l : list money) : money := foldr Z.add 0 l.

(** A row of [values("account__account_name").annotate(...)]. *)
Record account_row := mk_row {
  account__account_name : string;
  total_debit : money;
  total_credit : money
}.

(** GROUP BY the account name: the entry is added to the row of its name,
    or opens a new row. *)
Fixpoint add_row (name : string) (d c : money) (rows : list account_row)
  : list account_row :=
  match rows with
  | [] => [mk_row name d c]
  | r :: rest =>
      if String.eqb (account__account_name r) name
      then mk_row name (total_debit r + d) (total_credit r + c) :: rest
      else r :: add_row name d c rest
  end.

(** The join with the account of each entry, then the grouping. *)
Definition annotate (accounts : list ChartOfAccounts.t)
    (journal_entries : list JournalEntry.t) : list account_row :=
  fold_left (fun rows e =>
      match accounts !! JournalEntry.account e with
      | Some a =>
          add_row (ChartOfAccounts.account_name a)
            (JournalEntry.debit e) (JournalEntry.credit e) rows
      | None => rows
      end)
    journal_entries [].

(** [account__account_name__in=names] and
    [account__account_category__in=categories]. *)
Definition name_in (accounts : list ChartOfAccounts.t) (names : list string)
    (e : JournalEntry.t) : bool :=
  match accounts !! JournalEntry.account e with
  | Some a => bool_decide (ChartOfAccounts.account_name a ∈ names)
  | None => false
  end.

Definition category_in (accounts : list ChartOfAccounts.t)
    (categories : list string) (e : JournalEntry.t) : bool :=
  match accounts !! JournalEntry.account e with
  | Some a => bool_decide (ChartOfAccounts.account_category a ∈ categories)
  | None => false
  end.

Record trial_balance_context := mk_trial_balance {
  tb_accounts : list account_row;
  tb_total_debit : money;
  tb_total_credit : money
}.

Record income_statement_context := mk_income_statement {
  is_revenue_accounts : list account_row;
  is_expense_accounts : list account_row;
  is_total_revenue : money;
  is_total_expenses : money;
  is_net_income : money
}.

Record balance_sheet_context := mk_balance_sheet {
  bs_asset_entries : list JournalEntry.t;
  bs_liability_entries : list JournalEntry.t;
  bs_equity_entries : list JournalEntry.t;
  bs_total_assets : money;
  bs_total_liabilities : money;
  bs_total_equity : money;
  bs_total_liabilities_and_equity : money
}.

Record retained_earnings_context := mk_retained_earnings {
  re_net_income : money;
  re_total_dividends : money;
  re_retained_earnings : money
}.

Section Views.

Variable to_python : string -> option Date.

(** A text handed to a date lookup. *)
Definition lookup_value (v : option string) : result Date :=
  match v with
  | Some s =>
      match to_python s with
      | Some d => ok d
      | None => raised "ValidationError"
      end
  | None => raised "ValueError"
  end.

(** The four-way choice of the journal entries by [start_date] and
    [end_date], the same at the head of each report. *)
Definition select (start_date end_date : option string)
    (t : list JournalEntry.t) : result (list JournalEntry.t) :=
  if truthy start_date && truthy end_date then
    s ← lookup_value start_date;
    e ← lookup_value end_date;
    mret (List.filter
            (fun x => (s <=? JournalEntry.date x) && (JournalEntry.date x <=? e)) t)
  else if truthy start_date then
    s ← lookup_value start_date;
    mret (List.filter (fun x => s <=? JournalEntry.date x) t)
  else if truthy end_date then
    e ← lookup_value end_date;
    mret (List.filter (fun x => JournalEntry.date x <=? e) t)
  else mret t.

Definition trial_balance (start_date end_date : option string) (d : db)
  : result trial_balance_context :=
  journal_entries ← select start_date end_date (entries d);
  let accounts := annotate (accounts d) journal_entries in
  mret (mk_trial_balance accounts
          (sum (total_debit <$> accounts))
          (sum (total_credit <$> accounts))).

Definition income_statement (start_date end_date : option string) (d : db)
  : result income_statement_context :=
  journal_entries ← select start_date end_date (entries d);
  let accounts := annotate (accounts d) journal_entries in
  let revenue_account_names := ["Unearned Revenue"] in
  let expense_account_names := ["Accrued Expense"; "Prepaid Expenses"] in
  let revenue_accounts :=
    List.filter
      (fun a => bool_decide (account__account_name a ∈ revenue_account_names))
      accounts in
  let expense_accounts :=
    List.filter
      (fun a => bool_decide (account__account_name a ∈ expense_account_names))
      accounts in
  let total_revenue :=
    sum ((fun a => total_credit a - total_debit a) <$> revenue_accounts) in
  let total_expenses :=
    sum ((fun a => total_debit a - total_credit a) <$> expense_accounts) in
  mret (mk_income_statement revenue_accounts expense_accounts
          total_revenue total_expenses (total_revenue - total_expenses)).

Definition balance_sheet (start_date end_date : option string) (d : db)
  : result balance_sheet_context :=
  journal_entries ← select start_date end_date (entries d);
  let asset_entries :=
    List.filter (category_in (accounts d) ["Assets"]) journal_entries in
  let liability_entries :=
    List.filter (category_in (accounts d) ["Liabilities"]) journal_entries in
  let equity_entries :=
    List.filter (category_in (accounts d) ["Equity"]) journal_entries in
  let total_assets :=
    sum ((fun e => JournalEntry.debit e - JournalEntry.credit e) <$> asset_entries) in
  let total_liabilities :=
    sum ((fun e => JournalEntry.credit e - JournalEntry.debit e) <$> liability_entries) in
  let total_equity :=
    sum ((fun e => JournalEntry.credit e - JournalEntry.debit e) <$> equity_entries) in
  mret (mk_balance_sheet asset_entries liability_entries equity_entries
          total_assets total_liabilities total_equity
          (total_liabilities + total_equity)).

Definition retained_earnings (start_date end_date : option string) (d : db)
  : result retained_earnings_context :=
  journal_entries ← select start_date end_date (entries d);
  let revenue_entries :=
    List.filter
      (name_in (accounts d) ["Interest Revenue"; "Service Revenue"])
      journal_entries in
  let expense_entries :=
    List.filter
      (name_in (accounts d)
         ["Supplies Expense"; "Salaries Expense"; "Utilities Expense"])
      journal_entries in
  let dividends_entries :=
    List.filter (name_in (accounts d) ["Dividends"]) journal_entries in
  let total_revenue := sum (JournalEntry.credit <$> revenue_entries) in
  let total_expenses := sum (JournalEntry.debit <$> expense_entries) in
  let total_dividends := sum (JournalEntry.debit <$> dividends_entries) in
  let net_income := total_revenue - total_expenses in
  mret (mk_retained_earnings net_income total_dividends
          (net_income - total_dividends)).

End Views.

End Reports.

(** ** ledger ([views.py], lines 760-789)

    The page of one account: its journal entries in date order, each with
    the balance after it.  The context of the template is what is
    modelled. *)

Module LedgerView.

(** [order_by("date")].  Entries of one date are kept in table order; the
    database may return them in another, and nothing below depends on it. *)
Fixpoint insert_by_date (e : JournalEntry.t) (l : list JournalEntry.t)
  : list JournalEntry.t :=
  match l with
  | [] => [e]
  | x :: rest =>
      if JournalEntry.date e <=? JournalEntry.date x then e :: x :: rest
      else x :: insert_by_date e rest
  end.

Definition order_by_date (l : list JournalEntry.t) : list JournalEntry.t :=
  foldr insert_by_date [] l.

(** The loop over the entries: [entry.balance] is set on each, from the
    balance before it. *)
Fixpoint balances (current_balance : money) (journal_entries : list JournalEntry.t)
  : list (JournalEntry.t * money) :=
  match journal_entries with
  | [] => []
  | entry :: rest =>
      let balance :=
        current_balance + JournalEntry.debit entry - JournalEntry.credit entry in
      (entry, balance) :: balances balance rest
  end.

Record context := mk_context {
  journal_entries : list (JournalEntry.t * money);
  account : ChartOfAccounts.t
}.

(** [JournalEntry.objects.filter(account=account)]. *)
Definition of_account (account_id : nat) (t : list JournalEntry.t)
  : list JournalEntry.t :=
  List.filter (fun e => Nat.eqb (JournalEntry.account e) account_id) t.

Definition ledger (account_id : nat) (d : db) : result context :=
  match accounts d !! account_id with
  | None => raised "Http404"
  | Some account =>
      let journal_entries := order_by_date (of_account account_id (entries d)) in
      let initial_balance := ChartOfAccounts.initial_balance account in
      ok (mk_context (balances initial_balance journal_entries) account)
  end.

(** Entries in date order. *)
Definition in_date_order (l : list JournalEntry.t) : Prop :=
  forall i j x y,
    (i <= j)%nat -> l !! i = Some x -> l !! j = Some y ->
    JournalEntry.date x <= JournalEntry.date y.

End LedgerView.

(** ** journal_entry_data ([views.py], lines 1476-1490)

    The pending entries shown on the home page, with their identifiers. *)
Definition journal_entry_data (d : db) : list (nat * JournalEntry.t) :=
  List.filter (fun r => String.eqb (JournalEntry.status (snd r)) "Pending")
    (with_pk (entries d)).

(** ** reset_password ([views.py], lines 262-297)

    The last step of the password recovery.  [request.session["username"]]
    was set by [forgot_password] and is read here; it is part of the request.
    The two functions of [django.contrib.auth.hashers] are parameters:
    [check_password raw encoded] and [make_password raw], where a missing
    [raw] never checks and makes an unusable password. *)

Module Recovery.

Record request := mk_request {
  method : string;
  password1 : option string;
  password2 : option string;
  session_username : option string
}.

Definition say (l : level) (text : string) (st : Login.site) : Login.site :=
  Login.mk_site (Login.users st) (Login.session_user st)
    (Login.messages st ++ [(l, text)]).

Section Hashers.

Variable check_password : option string -> string -> bool.
Variable make_password : option string -> string.

(** [user.set_password(raw)]. *)
Definition set_password (raw : option string) (u : CustomUser.t) : CustomUser.t :=
  CustomUser.mk (CustomUser.username u) (make_password raw)
    (CustomUser.is_active u) (CustomUser.is_suspended u)
    (CustomUser.failed_login_attempts u)
    (CustomUser.suspension_start_date u) (CustomUser.suspension_end_date u).

Definition reset_password (today : Date) (req : request) (st : Login.site)
  : result (Login.site * response) :=
  if String.eqb (method req) "POST" then
    if bool_decide (password1 req = password2 req) then
      match session_username req with
      | None => ok (say error "No user found." st, redirect "question")
      | Some username =>
          match Login.users st !! username with
          | None => raised "CustomUser.DoesNotExist"
          | Some user =>
              if check_password (password1 req) (CustomUser.password user) then
                ok (say error "That password has already been used" st,
                    redirect "reset_password")
              else
                let '(_, us) :=
                  CustomUser.save today (set_password (password1 req) user)
                    (Login.users st) in
                ok (Login.mk_site us (Login.session_user st)
                      (Login.messages st
                       ++ [(success, "Your password has been reset.")]),
                    redirect "login")
          end
      end
    else
      ok (say error "Your passwords do not match." st,
          render "authenticate/reset_password.html")
  else ok (st, render "authenticate/reset_password.html").

End Hashers.

End Recovery.

(** ** Concrete conversions

    Instances of the three conversions, to run the views on examples.  Each
    agrees with the library function on the texts it accepts and accepts
    fewer texts: unsigned numerals [12] and [12.50], dates [YYYY-MM-DD]. *)

Definition digit (c : Ascii.ascii) : option Z :=
  let n := Z.of_nat (Ascii.nat_of_ascii c) in
  if (48 <=? n) && (n <=? 57) then Some (n - 48) else None.

(** The number written by a text of digits, after the digits already read. *)
Fixpoint numeral (s : string) (acc : Z) : option Z :=
  match s with
  | EmptyString => Some acc
  | String c rest =>
      match digit c with
      | Some k => numeral rest (10 * acc + k)
      | None => None
      end
  end.

(** The text before and after the first occurrence of [sep]. *)
Fixpoint split_at (sep : Ascii.ascii) (s : string) : string * option string :=
  match s with
  | EmptyString => (EmptyString, None)
  | String c rest =>
      if Ascii.eqb c sep then (EmptyString, Some rest)
      else let '(a, b) := split_at sep rest in (String c a, b)
  end.

Definition nonempty_numeral (s : string) : option Z :=
  if String.eqb s "" then None else numeral s 0.

Definition plain_decimal (s : string) : option Qc :=
  match split_at "."%char s with
  | (whole, None) => n ← nonempty_numeral whole; Some (Q2Qc (inject_Z n))
  | (whole, Some frac) =>
      n ← nonempty_numeral whole;
      f ← nonempty_numeral frac;
      let scale := 10 ^ Z.of_nat (String.length frac) in
      Some (Q2Qc (Qmake (n * scale + f) (Z.to_pos scale)))
  end.

Definition half_even_cents (q : Qc) : money :=
  Ratios.round_half_even (100 * Qnum q) (Zpos (Qden q)).

Definition is_leap (y : Z) : bool :=
  (y mod 4 =? 0) && (negb (y mod 100 =? 0) || (y mod 400 =? 0)).

Definition days_in_month (y m : Z) : Z :=
  if m =? 2 then (if is_leap y then 29 else 28)
  else if (m =? 4) || (m =? 6) || (m =? 9) || (m =? 11) then 30 else 31.

Definition days_before_month (y m : Z) : Z :=
  nth (Z.to_nat (m - 1)) [0; 31; 59; 90; 120; 151; 181; 212; 243; 273; 304; 334] 0
  + (if (2 <? m) && is_leap y then 1 else 0).

(** [date(y, m, d).toordinal()]. *)
Definition toordinal (y m d : Z) : Date :=
  let p := y - 1 in
  p * 365 + p / 4 - p / 100 + p / 400 + days_before_month y m + d.

Definition iso_date (s : string) : option Date :=
  match split_at "-"%char s with
  | (ys, Some rest) =>
      match split_at "-"%char rest with
      | (ms, Some ds) =>
          if (String.length ys =? 4)%nat && (String.length ms =? 2)%nat
             && (String.length ds =? 2)%nat then
            y ← numeral ys 0;
            m ← numeral ms 0;
            d ← numeral ds 0;
            if (1 <=? y) && (1 <=? m) && (m <=? 12) && (1 <=? d)
               && (d <=? days_in_month y m)
            then Some (toordinal y m d) else None
          else None
      | _ => None
      end
  | _ => None
  end.

(** ** Vocabulary of the approval properties

    What the approval of an entry is expected to do to the account it is
    posted to and to the ledger, said without the method. *)

Module Posting.

(** The account after the entry is posted: both running totals grow by the
    amounts of the entry and the balance is recomputed from them. *)
Definition account_after (a : ChartOfAccounts.t) (e : JournalEntry.t)
  : ChartOfAccounts.t :=
  let debit := ChartOfAccounts.debit a + JournalEntry.debit e in
  let credit := ChartOfAccounts.credit a + JournalEntry.credit e in
  ChartOfAccounts.mk
    (ChartOfAccounts.account_name a) (ChartOfAccounts.account_number a)
    (ChartOfAccounts.is_active a) (ChartOfAccounts.normal_side a)
    (ChartOfAccounts.account_category a) (ChartOfAccounts.initial_balance a)
    debit credit (ChartOfAccounts.initial_balance a + debit - credit).

(** The ledger row of the entry [pk], with the balance of its account after
    the posting. *)
Definition ledger_row (pk : nat) (e : JournalEntry.t) (balance : money)
  : GeneralLedger.t :=
  GeneralLedger.mk (JournalEntry.account e) (Some pk) (JournalEntry.date e)
    ("Approved Journal Entry: " +:+ pretty pk)
    (JournalEntry.debit e) (JournalEntry.credit e) balance.

(** The database after the three writes of an approval. *)
Definition posted (pk : nat) (e : JournalEntry.t) (a : ChartOfAccounts.t)
    (d : db) : db :=
  mk_db
    (<[JournalEntry.account e := account_after a e]> (accounts d))
    (groups d)
    (<[pk := JournalEntry.set_status "Approved" e]> (entries d))
    (ledger d ++ [ledger_row pk e (ChartOfAccounts.balance (account_after a e))])
    (event_log d).

(** The plan refuses one of the next [n] writes. *)
Definition refuses (n : nat) (p : list bool) : bool :=
  existsb id (take n p).

End Posting.

(** ** Vocabulary of the journal properties *)

Module Pairs.

(** Two journal entries of one group, the first created before the
    second. *)
Definition pair (d : db) (i j : nat) (e1 e2 : JournalEntry.t) : Prop :=
  (i < j)%nat
  /\ entries d !! i = Some e1
  /\ entries d !! j = Some e2
  /\ is_Some (JournalEntry.group e1)
  /\ JournalEntry.group e1 = JournalEntry.group e2.

Definition matching_totals (e1 e2 : JournalEntry.t) : Prop :=
  JournalEntry.debit e1 = JournalEntry.credit e2.

(** The accounts of the two entries exist and their normal sides are the
    given ones. *)
Definition sides (d : db) (e1 e2 : JournalEntry.t) (s1 s2 : string) : Prop :=
  exists a1 a2,
    accounts d !! JournalEntry.account e1 = Some a1
    /\ accounts d !! JournalEntry.account e2 = Some a2
    /\ ChartOfAccounts.normal_side a1 = s1
    /\ ChartOfAccounts.normal_side a2 = s2.

Definition opposite_sides (d : db) (e1 e2 : JournalEntry.t) : Prop :=
  sides d e1 e2 "Left" "Right" \/ sides d e1 e2 "Right" "Left".

(** The invariant as the specification states it. *)
Definition approved_pairs_balanced (d : db) : Prop :=
  forall i j e1 e2,
    pair d i j e1 e2 ->
    JournalEntry.status e1 = "Approved" ->
    JournalEntry.status e2 = "Approved" ->
    matching_totals e1 e2 /\ opposite_sides d e1 e2.

End Pairs.

(** What one request can do to the database, as single changes; the last
    one is a row added to the event log of the chart.  With
    [strict] set, an edited account keeps its normal side; without [posting]
    no entry is posted to the ledger; without [rejecting] no entry is
    rejected. *)
Inductive change (strict posting rejecting : bool) : db -> db -> Prop :=
| change_add_account d a :
    change strict posting rejecting d (set_accounts (fun t => t ++ [a]) d)
| change_edit_account d pk a a' :
    accounts d !! pk = Some a ->
    (strict = true ->
     ChartOfAccounts.normal_side a' = ChartOfAccounts.normal_side a) ->
    change strict posting rejecting d (set_accounts (fun t => <[pk := a']> t) d)
| change_activation d pk a b :
    accounts d !! pk = Some a ->
    change strict posting rejecting d
      (set_accounts (fun t => <[pk := ChartOfAccounts.set_is_active b a]> t) d)
| change_new_group d :
    change strict posting rejecting d (set_groups S d)
| change_new_entry d e a :
    JournalEntry.group e = Some (groups d) ->
    JournalEntry.status e = "Pending" ->
    accounts d !! JournalEntry.account e = Some a ->
    ChartOfAccounts.normal_side a = "Left" ->
    change strict posting rejecting d (set_entries (fun t => t ++ [e]) (set_groups S d))
| change_new_pair d e1 e2 a1 a2 :
    JournalEntry.group e1 = Some (groups d) ->
    JournalEntry.group e2 = Some (groups d) ->
    JournalEntry.status e1 = "Pending" ->
    JournalEntry.status e2 = "Pending" ->
    JournalEntry.debit e1 = JournalEntry.credit e2 ->
    accounts d !! JournalEntry.account e1 = Some a1 ->
    accounts d !! JournalEntry.account e2 = Some a2 ->
    ChartOfAccounts.normal_side a1 = "Left" ->
    ChartOfAccounts.normal_side a2 = "Right" ->
    change strict posting rejecting d (set_entries (fun t => t ++ [e1; e2]) (set_groups S d))
| change_post d pk e a :
    posting = true ->
    entries d !! pk = Some e ->
    JournalEntry.status e = "Pending" ->
    accounts d !! JournalEntry.account e = Some a ->
    change strict posting rejecting d (Posting.posted pk e a d)
| change_reject d pk e :
    rejecting = true ->
    entries d !! pk = Some e ->
    change strict posting rejecting d
      (set_entries (fun t => <[pk := JournalEntry.set_status "Rejected" e]> t) d)
| change_event d r :
    change strict posting rejecting d (set_event_log (fun t => t ++ [r]) d).

(** The rows fetched by a query at database [d]: rows of the table, each
    once. *)
Definition current (rows : list (nat * JournalEntry.t)) (d : db) : Prop :=
  NoDup rows.*1 /\ forall r, r ∈ rows -> entries d !! r.1 = Some r.2.

(** ** Invariants of the reachable databases *)

Module Inv.

(** What an entry keeps for life: everything but its status. *)
Definition shape (e : JournalEntry.t) : Date * nat * money * money * option nat :=
  (JournalEntry.date e, JournalEntry.account e, JournalEntry.debit e,
   JournalEntry.credit e, JournalEntry.group e).

(** The entries of [t'] are entries of [t] up to their status, and the
    accounts of [t'] continue accounts of [t] with the same normal side. *)
Definition same_shapes (t t' : list JournalEntry.t) : Prop :=
  forall i x', t' !! i = Some x' ->
    exists x, t !! i = Some x /\ shape x = shape x'.

Definition sides_kept (t t' : list ChartOfAccounts.t) : Prop :=
  forall k a, t !! k = Some a ->
    exists a', t' !! k = Some a'
      /\ ChartOfAccounts.normal_side a' = ChartOfAccounts.normal_side a.

(** Every entry belongs to a group that exists. *)
Definition grouped (d : db) : Prop :=
  forall i e, entries d !! i = Some e ->
    exists g, JournalEntry.group e = Some g /\ (g < groups d)%nat.

Definition totals_match (d : db) : Prop :=
  forall i j e1 e2, Pairs.pair d i j e1 e2 -> Pairs.matching_totals e1 e2.

Definition sides_fixed (d : db) : Prop :=
  forall i j e1 e2, Pairs.pair d i j e1 e2 -> Pairs.sides d e1 e2 "Left" "Right".

(** The ledger holds one row for each entry that has been approved, and
    nothing else. *)
Definition ledger_derived (d : db) : Prop :=
  NoDup (GeneralLedger.journal_entry <$> ledger d)
  /\ (forall row, row ∈ ledger d ->
        exists pk e,
          GeneralLedger.journal_entry row = Some pk
          /\ entries d !! pk = Some e
          /\ JournalEntry.status e <> "Pending"
          /\ GeneralLedger.account row = JournalEntry.account e
          /\ GeneralLedger.debit row = JournalEntry.debit e
          /\ GeneralLedger.credit row = JournalEntry.credit e)
  /\ (forall pk e,
        entries d !! pk = Some e -> JournalEntry.status e = "Approved" ->
        exists row, row ∈ ledger d /\ GeneralLedger.journal_entry row = Some pk).

End Inv.

(** ** Vocabulary of the entry form properties

    The checks of [add_journal_entry] as its docstring lists them, said
    without the view. *)

Module Entry.

(** The request passes every check on database [d]: both amounts are
    present, they are the same number [amount], greater than 0, [a1] and
    [a2] are rows of the chart with the two names given, the first of normal
    side Left and the second of normal side Right. *)
Definition checks_pass (Decimal : string -> option Qc) (req : entry_request)
    (d : db) (amount : Qc) (a1 a2 : nat * ChartOfAccounts.t) : Prop :=
  truthy (debit1 req) = true
  /\ truthy (credit2 req) = true
  /\ debit1 req ≫= Decimal = Some amount
  /\ credit2 req ≫= Decimal = Some amount
  /\ (0 < amount)%Qc
  /\ accounts d !! a1.1 = Some a1.2
  /\ Some (ChartOfAccounts.account_name a1.2) = account1 req
  /\ accounts d !! a2.1 = Some a2.2
  /\ Some (ChartOfAccounts.account_name a2.2) = account2 req
  /\ ChartOfAccounts.normal_side a1.2 = "Left"
  /\ ChartOfAccounts.normal_side a2.2 = "Right".

(** Both amounts, when present, are numbers. *)
Definition amounts_are_numbers (Decimal : string -> option Qc)
    (req : entry_request) : Prop :=
  truthy (debit1 req) = true -> truthy (credit2 req) = true ->
  is_Some (debit1 req ≫= Decimal) /\ is_Some (credit2 req ≫= Decimal).

(** The unique constraint on [account_name]. *)
Definition names_unique (d : db) : Prop :=
  NoDup (ChartOfAccounts.account_name <$> accounts d).

(** The pair of entries the view creates. *)
Definition pair_of (quantize : Qc -> money) (d : db) (amount : Qc)
    (a1 a2 : nat * ChartOfAccounts.t) (day1 day2 : Date)
  : list JournalEntry.t :=
  [JournalEntry.mk day1 a1.1 (quantize amount) 0 "Pending" (Some (groups d));
   JournalEntry.mk day2 a2.1 0 (quantize amount) "Pending" (Some (groups d))].

End Entry.

(** ** Vocabulary of the report properties

    What a report is expected to add up, said without the views: the
    entries of the period, whatever their status, and the sums of their two
    amounts. *)

Module Period.

(** The bound a request parameter puts on the dates: none when the
    parameter is missing or empty. *)
Definition bound (to_python : string -> option Date) (v : option string)
  : option Date :=
  if truthy v then v ≫= to_python else None.

Definition in_range (lo hi : option Date) (e : JournalEntry.t) : bool :=
  match lo with Some s => s <=? JournalEntry.date e | None => true end
  && match hi with Some h => JournalEntry.date e <=? h | None => true end.

(** The journal entries of the period, of every status. *)
Definition dated (to_python : string -> option Date)
    (start_date end_date : option string) (d : db) : list JournalEntry.t :=
  List.filter (in_range (bound to_python start_date) (bound to_python end_date))
    (entries d).

Definition debits (l : list JournalEntry.t) : money :=
  Reports.sum (JournalEntry.debit <$> l).

Definition credits (l : list JournalEntry.t) : money :=
  Reports.sum (JournalEntry.credit <$> l).

(** The entries posted to an account whose name [p] accepts. *)
Definition posted (accounts : list ChartOfAccounts.t) (p : string -> bool)
    (e : JournalEntry.t) : bool :=
  match accounts !! JournalEntry.account e with
  | Some a => p (ChartOfAccounts.account_name a)
  | None => false
  end.

(** The entries posted to an account whose category [p] accepts. *)
Definition filed (accounts : list ChartOfAccounts.t) (p : string -> bool)
    (e : JournalEntry.t) : bool :=
  match accounts !! JournalEntry.account e with
  | Some a => p (ChartOfAccounts.account_category a)
  | None => false
  end.

(** The entries posted to an account of one of the given names, or of one
    of the given categories. *)
Definition named (d : db) (names : list string) (l : list JournalEntry.t)
  : list JournalEntry.t :=
  List.filter (posted (accounts d) (fun n => bool_decide (n ∈ names))) l.

Definition categorised (d : db) (categories : list string)
    (l : list JournalEntry.t) : list JournalEntry.t :=
  List.filter (filed (accounts d) (fun c => bool_decide (c ∈ categories))) l.

(** Two databases that differ at most in the status of journal entries. *)
Definition same_but_status (d d' : db) : Prop :=
  accounts d = accounts d'
  /\ JournalEntry.set_status "" <$> entries d
     = JournalEntry.set_status "" <$> entries d'.

(** Every journal entry points to an account (the foreign key). *)
Definition accounts_exist (d : db) : Prop :=
  Forall (fun e => is_Some (accounts d !! JournalEntry.account e)) (entries d).

(** A request parameter is usable: missing, empty, or a date. *)
Definition usable (to_python : string -> option Date) (v : option string) : Prop :=
  truthy v = true -> is_Some (v ≫= to_python).

End Period.

(** ** The changes of a request, in detail

    The same single changes, with what the views and the database check
    before a row is written: the unique constraints of the chart, and the
    amounts of the two entries of a pair (the first carries the debit, the
    second the credit).  With [whole] set, no group is left with its first
    entry alone. *)
Inductive step (whole : bool) : db -> db -> Prop :=
| step_add_account d a :
    unique_account None a (accounts d) = true ->
    step whole d (set_accounts (fun t => t ++ [a]) d)
| step_edit_account d pk a a' :
    accounts d !! pk = Some a ->
    unique_account (Some pk) a' (accounts d) = true ->
    step whole d (set_accounts (fun t => <[pk := a']> t) d)
| step_activation d pk a b :
    accounts d !! pk = Some a ->
    step whole d
      (set_accounts (fun t => <[pk := ChartOfAccounts.set_is_active b a]> t) d)
| step_new_group d :
    step whole d (set_groups S d)
| step_new_entry d e a :
    whole = false ->
    JournalEntry.group e = Some (groups d) ->
    JournalEntry.status e = "Pending" ->
    JournalEntry.credit e = 0 ->
    accounts d !! JournalEntry.account e = Some a ->
    ChartOfAccounts.normal_side a = "Left" ->
    step whole d (set_entries (fun t => t ++ [e]) (set_groups S d))
| step_new_pair d e1 e2 a1 a2 :
    JournalEntry.group e1 = Some (groups d) ->
    JournalEntry.group e2 = Some (groups d) ->
    JournalEntry.status e1 = "Pending" ->
    JournalEntry.status e2 = "Pending" ->
    JournalEntry.debit e1 = JournalEntry.credit e2 ->
    JournalEntry.credit e1 = 0 ->
    JournalEntry.debit e2 = 0 ->
    accounts d !! JournalEntry.account e1 = Some a1 ->
    accounts d !! JournalEntry.account e2 = Some a2 ->
    ChartOfAccounts.normal_side a1 = "Left" ->
    ChartOfAccounts.normal_side a2 = "Right" ->
    step whole d (set_entries (fun t => t ++ [e1; e2]) (set_groups S d))
| step_post d pk e a :
    entries d !! pk = Some e ->
    JournalEntry.status e = "Pending" ->
    accounts d !! JournalEntry.account e = Some a ->
    step whole d (Posting.posted pk e a d)
| step_reject d pk e :
    entries d !! pk = Some e ->
    step whole d
      (set_entries (fun t => <[pk := JournalEntry.set_status "Rejected" e]> t) d)
| step_event d r :
    step whole d (set_event_log (fun t => t ++ [r]) d).

(** ** Vocabulary of the integrity properties *)

Module Chart.

(** The unique constraint on [account_number]. *)
Definition numbers_unique (d : db) : Prop :=
  NoDup (ChartOfAccounts.account_number <$> accounts d).

(** The foreign key of a ledger row. *)
Definition ledger_accounts_exist (d : db) : Prop :=
  Forall (fun row => is_Some (accounts d !! GeneralLedger.account row)) (ledger d).

(** The two entries of a group are neighbours in the table; the first
    carries the debit and the second the credit. *)
Definition paired (d : db) : Prop :=
  forall i j e1 e2,
    Pairs.pair d i j e1 e2 ->
    j = S i
    /\ JournalEntry.credit e1 = 0
    /\ JournalEntry.debit e2 = 0.

(** The journal as a whole has as much debit as credit. *)
Definition balanced (d : db) : Prop :=
  Period.debits (entries d) = Period.credits (entries d).

(** The entries posted to an account of none of the three categories of the
    balance sheet. *)
Definition off_balance_sheet (d : db) (l : list JournalEntry.t)
  : list JournalEntry.t :=
  List.filter
    (fun e =>
       negb (Period.filed (accounts d)
               (fun c => bool_decide (c ∈ ["Assets"; "Liabilities"; "Equity"]))
               e))
    l.

End Chart.

Section Histories.

Variable Decimal : string -> option Qc.
Variable to_python : string -> option Date.
Variable quantize : Qc -> money.

(** A request that does not stop between the two entries of a pair: when
    it submits a journal entry, no write is refused and the second date is
    a date whenever the first is. *)
Definition completes (r : request) (p : list bool) : Prop :=
  match r with
  | AddJournalEntry req =>
      p = []
      /\ (is_Some (date1 req ≫= to_python) -> is_Some (date2 req ≫= to_python))
  | _ => True
  end.

Inductive reachable_whole : db -> Prop :=
| whole_empty : reachable_whole empty_db
| whole_serve r p d :
    reachable_whole d -> completes r p ->
    reachable_whole (serve Decimal to_python quantize r p d).

End Histories.

(** ** Vocabulary of the decisions

    What a press of the approve or of the reject button is expected to do
    to one journal entry, said without the view. *)

Module Decision.

Definition approved (self : JournalEntry.t) : JournalEntry.t :=
  if String.eqb (JournalEntry.status self) "Pending"
  then JournalEntry.set_status "Approved" self else self.

Definition decided (b : button) (group_id : option nat) (e : JournalEntry.t)
  : JournalEntry.t :=
  if bool_decide (JournalEntry.group e = group_id) then
    match b with
    | approve_button => approved e
    | reject_button => JournalEntry.set_status "Rejected" e
    | no_button => e
    end
  else e.

(** The table after each of the rows fetched was written back as [g] makes
    it. *)
Definition rewritten (g : JournalEntry.t -> JournalEntry.t)
    (rows : list (nat * JournalEntry.t)) (t : list JournalEntry.t)
  : list JournalEntry.t :=
  fold_left (fun t r => <[fst r := g (snd r)]> t) rows t.

End Decision.

(** A press on the journal entry page, served with no write refused: the
    database it leaves. *)
Definition serve_page (req : page_request) (d : db) : db :=
  store (snd (journal_entry_page req (mk_world [] d []))).

(** ** Vocabulary of the login properties *)

Module Lockout.

(** The counter of every user is below the threshold of [login_user]. *)
Definition bounded (us : gmap string CustomUser.t) : Prop :=
  forall name u, us !! name = Some u ->
    0 <= CustomUser.failed_login_attempts u < 5.

(** The user as [login_user] leaves it when an expired suspension is
    lifted. *)
Definition cleared (u : CustomUser.t) : CustomUser.t :=
  CustomUser.mk (CustomUser.username u) (CustomUser.password u)
    (CustomUser.is_active u) false 0 None None.

End Lockout.


(** ** Vocabulary of the chart properties *)

Module Activation.

(** The chart with the account [pk] switched on or off. *)
Definition switched (b : bool) (pk : nat) (a : ChartOfAccounts.t) (d : db) : db :=
  set_accounts (fun t => <[pk := ChartOfAccounts.set_is_active b a]> t) d.

(** The database with one more row in the event log of the chart. *)
Definition logged (action : string) (pk : nat) (d : db) : db :=
  mk_db (accounts d) (groups d) (entries d) (ledger d)
    (event_log d ++ [CoAEventLog.mk action pk]).

(** The account row [r] as it stands after the switch. *)
Definition after (b : bool) (pk : nat) (r : nat * ChartOfAccounts.t)
  : nat * ChartOfAccounts.t :=
  if Nat.eqb r.1 pk then (r.1, ChartOfAccounts.set_is_active b r.2) else r.

(** One account request served with no write refused: the database it
    leaves. *)
Definition deactivated (req : account_request) (pk : nat) (d : db) : db :=
  store (snd (deactivate_account req pk (mk_world [] d []))).

Definition activated (req : account_request) (pk : nat) (d : db) : db :=
  store (snd (activate_account req pk (mk_world [] d []))).

End Activation.

(** ** Vocabulary of the ratio properties *)

Module Figures.

(** The account names that the loop of [calculate_ratios] reads into a
    figure of their own. *)
Definition named_accounts : list string :=
  ["Cash"; "Operating Cash"; "Total Debt Service"; "Operating Income";
   "Interest Expense"; "Net Sales"; "Cost of Goods Sold"; "Gross Profit";
   "Net Income"; "Inventory"].

(** The accounts of a category that are not among them, and the sum of
    their balances. *)
Definition summed (category : string) (a : ChartOfAccounts.t) : bool :=
  negb (bool_decide (ChartOfAccounts.account_name a ∈ named_accounts))
  && String.eqb (ChartOfAccounts.account_category a) category.

Definition total (category : string) (accounts : list ChartOfAccounts.t) : money :=
  Reports.sum (ChartOfAccounts.balance <$> List.filter (summed category) accounts).

End Figures.

(** ** Sample data *)

Module Sample.

(** A user one failed attempt away from the threshold, never suspended. *)
Definition alice : CustomUser.t :=
  CustomUser.mk "alice" "correct horse" true false 4 None None.

Definition site : Login.site := Login.mk_site {["alice" := alice]} None [].

Definition bad_login : Login.request :=
  Login.mk_request "POST" (Some "alice") (Some "guess").

Definition good_login : Login.request :=
  Login.mk_request "POST" (Some "alice") (Some "correct horse").

(** A user whose suspension window is open on day 100. *)
Definition bob : CustomUser.t :=
  CustomUser.mk "bob" "pw" true true 0 (Some 90) (Some 110).

(** A chart with an asset and a liability and no equity account. *)
Definition equipment : ChartOfAccounts.t :=
  ChartOfAccounts.mk "Equipment" 1 true "Left" "Assets" 100000 0 0 100000.

Definition loan : ChartOfAccounts.t :=
  ChartOfAccounts.mk "Bank Loan" 2 true "Right" "Liabilities" 50000 0 0 50000.

Definition capital : ChartOfAccounts.t :=
  ChartOfAccounts.mk "Capital" 3 true "Right" "Equity" 40000 0 0 40000.

(** Seven accounts and five pairs of entries, the first dated 1 March 2024
    and the others 15 to 18 March, with the statuses given: a sale for cash,
    cash received in advance, prepaid expenses paid from capital, a dividend
    and salaries. *)
Definition cash : ChartOfAccounts.t :=
  ChartOfAccounts.mk "Cash" 10 true "Left" "Assets" 0 0 0 0.

Definition revenue : ChartOfAccounts.t :=
  ChartOfAccounts.mk "Service Revenue" 40 true "Right" "Revenue" 0 0 0 0.

Definition unearned : ChartOfAccounts.t :=
  ChartOfAccounts.mk "Unearned Revenue" 20 true "Right" "Liabilities" 0 0 0 0.

Definition prepaid : ChartOfAccounts.t :=
  ChartOfAccounts.mk "Prepaid Expenses" 11 true "Left" "Assets" 0 0 0 0.

Definition owners : ChartOfAccounts.t :=
  ChartOfAccounts.mk "Capital" 30 true "Right" "Equity" 0 0 0 0.

Definition dividends : ChartOfAccounts.t :=
  ChartOfAccounts.mk "Dividends" 31 true "Left" "Equity" 0 0 0 0.

Definition salaries : ChartOfAccounts.t :=
  ChartOfAccounts.mk "Salaries Expense" 50 true "Left" "Expenses" 0 0 0 0.

Definition march (s1 s2 : string) : db :=
  mk_db [cash; revenue; unearned; prepaid; owners; dividends; salaries] 5
    [JournalEntry.mk 738946 0 10000 0 s1 (Some 0%nat);
     JournalEntry.mk 738946 1 0 10000 s1 (Some 0%nat);
     JournalEntry.mk 738960 0 2500 0 s2 (Some 1%nat);
     JournalEntry.mk 738960 2 0 2500 s2 (Some 1%nat);
     JournalEntry.mk 738961 3 1200 0 s1 (Some 2%nat);
     JournalEntry.mk 738961 4 0 1200 s1 (Some 2%nat);
     JournalEntry.mk 738962 5 300 0 s2 (Some 3%nat);
     JournalEntry.mk 738962 1 0 300 s2 (Some 3%nat);
     JournalEntry.mk 738963 6 700 0 s1 (Some 4%nat);
     JournalEntry.mk 738963 2 0 700 s1 (Some 4%nat)]
    [] [].

(** A small set of books, request by request: two accounts are added, a
    pair of entries of 100.00 is submitted, the group is approved. *)
Definition cash_account : ChartOfAccounts.t :=
  ChartOfAccounts.mk "Cash" 1 true "Left" "Assets" 0 0 0 0.

Definition loan_account : ChartOfAccounts.t :=
  ChartOfAccounts.mk "Bank Loan" 2 true "Right" "Liabilities" 0 0 0 0.

Definition admin (form : option ChartOfAccounts.t) : account_request :=
  mk_account_request "POST" true form.

Definition submit (date1 : option string) : entry_request :=
  mk_entry_request "POST" (Some "Cash") (Some "100.00") date1
    (Some "Bank Loan") (Some "100.00") (Some "2024-03-01").

Definition press (b : button) : page_request :=
  mk_page_request "POST" b (Some 0%nat).

Definition run (r : request) (d : db) : db :=
  serve plain_decimal iso_date half_even_cents r [] d.

Definition opened : db :=
  run (AddAccount (admin (Some loan_account)))
    (run (AddAccount (admin (Some cash_account))) empty_db).

Definition submitted : db :=
  run (AddJournalEntry (submit (Some "2024-03-01"))) opened.

Definition approved : db :=
  run (JournalEntryPage (press approve_button)) submitted.

(** The approved group is then rejected. *)
Definition rejected : db :=
  run (JournalEntryPage (press reject_button)) approved.

(** Or the cash account is edited: the form carries the row as it stands,
    with the normal side changed to Right. *)
Definition cash_on_the_right : ChartOfAccounts.t :=
  ChartOfAccounts.mk "Cash" 1 true "Right" "Assets" 0 10000 0 10000.

Definition edited : db :=
  run (EditAccount (admin (Some cash_on_the_right)) 0) approved.

(** The two entries of the pair as submitted and as approved. *)
Definition entry1 (status : string) : JournalEntry.t :=
  JournalEntry.mk 738946 0 10000 0 status (Some 0%nat).

Definition entry2 (status : string) : JournalEntry.t :=
  JournalEntry.mk 738946 1 0 10000 status (Some 0%nat).

End Sample.

(** More sample books: after the approval of the first group the same
    journal entry is submitted again and stays Pending. *)
Module Later.

Definition resubmitted : db :=
  Sample.run (AddJournalEntry (Sample.submit (Some "2024-03-01"))) Sample.approved.

Definition pending_entry : JournalEntry.t :=
  JournalEntry.mk 738946 0 10000 0 "Pending" (Some 1%nat).

Definition first_row : GeneralLedger.t :=
  GeneralLedger.mk 0 (Some 0%nat) 738946 "Approved Journal Entry: 0" 10000 0 10000.

(** Other books: a cash account and a revenue account are added and a sale
    of 100.00 for cash is submitted. *)
Definition sale : entry_request :=
  mk_entry_request "POST" (Some "Cash") (Some "100.00") (Some "2024-03-01")
    (Some "Service Revenue") (Some "100.00") (Some "2024-03-01").

Definition sales : db :=
  Sample.run (AddJournalEntry sale)
    (Sample.run (AddAccount (Sample.admin (Some Sample.revenue)))
       (Sample.run (AddAccount (Sample.admin (Some Sample.cash_account)))
          empty_db)).

End Later.

(** A user suspended from day 90 to day 110, with one failed attempt. *)
Module Cases.

Definition carol : CustomUser.t :=
  CustomUser.mk "carol" "pw" true true 1 (Some 90) (Some 110).

Definition carol_site : Login.site :=
  Login.mk_site {["carol" := carol]} None [].

Definition carol_login : Login.request :=
  Login.mk_request "POST" (Some "carol") (Some "pw").

Definition stranger_login : Login.request :=
  Login.mk_request "POST" (Some "dave") (Some "pw").

(** Hashers for the examples: the encoded password is the raw one. *)
Definition plain_check (raw : option string) (encoded : string) : bool :=
  match raw with
  | Some p => String.eqb encoded p
  | None => false
  end.

Definition plain_make (raw : option string) : string :=
  match raw with
  | Some p => p
  | None => "!"
  end.

Definition carol_reset : Recovery.request :=
  Recovery.mk_request "POST" (Some "new pw") (Some "new pw") (Some "carol").

End Cases.

(** * Properties *)

(** ** Suspension ([CustomUser.save], [login_user]) *)

Lemma within_spec (s today e : Date) :
  CustomUser.within s today e = true <-> s <= today <= e.
Proof. unfold CustomUser.within. rewrite andb_true_iff, !Z.leb_le. tauto. Qed.

Lemma clean_username (today : Date) (u : CustomUser.t) :
  CustomUser.username (CustomUser.clean today u) = CustomUser.username u.
Proof.
  unfold CustomUser.clean.
  destruct (CustomUser.is_suspended u); simpl; [|reflexivity].
  destruct (CustomUser.suspension_start_date u), (CustomUser.suspension_end_date u);
    reflexivity.
Qed.

Lemma save_stores (today : Date) (u : CustomUser.t) (users : gmap string CustomUser.t) :
  (CustomUser.save today u users).2 !! CustomUser.username u
  = Some (CustomUser.clean today u)
  /\ (CustomUser.save today u users).1 = CustomUser.clean today u.
Proof.
  unfold CustomUser.save; simpl. rewrite clean_username.
  split; [apply lookup_insert_eq | reflexivity].
Qed.

(** C8.  Saving a user whose [is_suspended] flag is set stores a user that
    is suspended exactly when both suspension dates are set and today lies
    between them, bounds included; saving a user whose flag is not set
    stores a user without suspension dates. *)
Theorem save_auto_lift (today : Date) (u : CustomUser.t)
    (users : gmap string CustomUser.t) :
  exists stored,
    (CustomUser.save today u users).2 !! CustomUser.username u = Some stored
    /\ (CustomUser.is_suspended u = true ->
        (CustomUser.is_suspended stored = true <->
         exists s e,
           CustomUser.suspension_start_date u = Some s
           /\ CustomUser.suspension_end_date u = Some e
           /\ s <= today <= e))
    /\ (CustomUser.is_suspended u = false ->
        CustomUser.suspension_start_date stored = None
        /\ CustomUser.suspension_end_date stored = None).
Proof.
  exists (CustomUser.clean today u).
  split; [apply save_stores|].
  unfold CustomUser.clean. split; intros Hflag; rewrite Hflag; simpl.
  - destruct (CustomUser.suspension_start_date u) as [s|] eqn:Hs,
             (CustomUser.suspension_end_date u) as [e|] eqn:He; simpl.
    + rewrite within_spec. split.
      * intros H. exists s, e. auto.
      * intros (s' & e' & Hs' & He' & H). congruence.
    + split; [discriminate | intros (? & ? & ? & ? & ?); discriminate].
    + split; [discriminate | intros (? & ? & ? & ? & ?); discriminate].
    + split; [discriminate | intros (? & ? & ? & ? & ?); discriminate].
  - auto.
Qed.

(** The three outcomes of [save] on the sample users. *)
Example save_open_window :
  CustomUser.is_suspended (CustomUser.clean 100 Sample.bob) = true
  /\ CustomUser.is_suspended (CustomUser.clean 111 Sample.bob) = false
  /\ CustomUser.is_suspended
       (CustomUser.clean 100 (CustomUser.set_is_suspended true Sample.alice))
     = false.
Proof. repeat split. Qed.

(** A wrong password below the threshold: the stored counter is one more. *)
Lemma failed_login_counts (today : Date) (req : Login.request) (st : Login.site)
    (name : string) (user : CustomUser.t) :
  Login.method req = "POST" ->
  Login.post_username req = Some name ->
  Login.users st !! name = Some user ->
  CustomUser.username user = name ->
  Login.authenticate (Login.users st) (Some name) (Login.post_password req) = None ->
  CustomUser.failed_login_attempts user + 1 < 5 ->
  exists stored,
    Login.users (Login.login_user today req st).1 !! name = Some stored
    /\ CustomUser.failed_login_attempts stored
       = CustomUser.failed_login_attempts user + 1.
Proof.
  intros Hm Hn Hu Hname Hauth Hlt.
  unfold Login.login_user. rewrite Hm, Hn, Hauth. simpl. rewrite Hu. simpl.
  destruct (Z.leb_spec 5 (CustomUser.failed_login_attempts user + 1)); [lia|].
  simpl. rewrite clean_username. simpl. rewrite Hname.
  eexists. split; [apply lookup_insert_eq|].
  unfold CustomUser.clean; simpl.
  destruct (CustomUser.is_suspended user); simpl; [|reflexivity].
  destruct (CustomUser.suspension_start_date user),
           (CustomUser.suspension_end_date user); reflexivity.
Qed.

(** A wrong password at the threshold: the counter is stored as 0, and the
    stored flag is whatever [save] makes of a set flag, which is false for a
    user without an open suspension window. *)
Lemma failed_login_threshold (today : Date) (req : Login.request) (st : Login.site)
    (name : string) (user : CustomUser.t) :
  Login.method req = "POST" ->
  Login.post_username req = Some name ->
  Login.users st !! name = Some user ->
  CustomUser.username user = name ->
  Login.authenticate (Login.users st) (Some name) (Login.post_password req) = None ->
  5 <= CustomUser.failed_login_attempts user + 1 ->
  exists stored,
    Login.users (Login.login_user today req st).1 !! name = Some stored
    /\ CustomUser.failed_login_attempts stored = 0
    /\ CustomUser.is_suspended stored
       = match CustomUser.suspension_start_date user,
               CustomUser.suspension_end_date user with
         | Some s, Some e => CustomUser.within s today e
         | _, _ => false
         end.
Proof.
  intros Hm Hn Hu Hname Hauth Hge.
  unfold Login.login_user. rewrite Hm, Hn, Hauth. simpl. rewrite Hu. simpl.
  destruct (Z.leb_spec 5 (CustomUser.failed_login_attempts user + 1)); [|lia].
  simpl. rewrite clean_username. simpl. rewrite Hname.
  eexists. split; [apply lookup_insert_eq|].
  unfold CustomUser.clean; simpl.
  destruct (CustomUser.suspension_start_date user),
           (CustomUser.suspension_end_date user); simpl; auto.
Qed.

(** C7.  The fifth wrong password for a user who has never been suspended:
    the view reports a suspension, yet the stored user is not suspended (the
    flag set by the view is lifted by [save], which finds no suspension
    dates), and the next login with the right password goes through. *)
Theorem fifth_failure_is_not_stored_as_suspension :
  let after := (Login.login_user 100 Sample.bad_login Sample.site).1 in
  Login.messages after
  = [(error, "You've attempted too many times. Your account has been suspended.")]
  /\ (CustomUser.is_suspended <$> Login.users after !! "alice") = Some false
  /\ (CustomUser.failed_login_attempts <$> Login.users after !! "alice") = Some 0
  /\ Login.session_user (Login.login_user 100 Sample.good_login after).1
     = Some "alice".
Proof. vm_compute. repeat split. Qed.

(** ** Ratios ([calculate_ratios]) *)

Lemma divide_ok (a b : money) :
  b <> 0 -> Ratios.divide a b = ok (Ratios.round_half_even (100 * a) b).
Proof.
  intros Hb. unfold Ratios.divide.
  destruct (Z.eqb_spec b 0); [contradiction | reflexivity].
Qed.

Lemma divide_zero (a : money) :
  a <> 0 -> Ratios.divide a 0 = raised "decimal.DivisionByZero".
Proof.
  intros Ha. unfold Ratios.divide. simpl.
  destruct (Z.eqb_spec a 0); [contradiction | reflexivity].
Qed.

(** A division guarded the way the source guards it. *)
Lemma guarded_divide_ok (a b : money) :
  exists v,
    (if negb (b =? 0) then Ratios.divide a b else mret 0) = ok v.
Proof.
  destruct (Z.eqb_spec b 0) as [->|Hb]; simpl; [eexists; reflexivity|].
  rewrite divide_ok by assumption. eexists; reflexivity.
Qed.

(** Unfolding one bind of the exception monad. *)
Lemma result_bind_ok {A B} (r : result A) (k : A -> result B) (a : A) :
  r = ok a -> (r ≫= k) = k a.
Proof. intros ->. reflexivity. Qed.

Ltac step_divide :=
  first
    [ rewrite divide_ok by assumption; simpl
    | match goal with
      | |- context [if negb (?b =? 0) then Ratios.divide ?a ?b else mret 0] =>
          let v := fresh "v" in
          let Hv := fresh "Hv" in
          destruct (guarded_divide_ok a b) as [v Hv]; rewrite Hv; simpl
      end ].

Lemma liquidity_ok (t : Ratios.figures) (r : gmap string Ratios.ratio) :
  exists r', Ratios.liquidity t r = ok r'.
Proof.
  unfold Ratios.liquidity.
  destruct (Z.eqb_spec (Ratios.current_liabilities t) 0); simpl;
    [eexists; reflexivity|].
  repeat step_divide. eexists; reflexivity.
Qed.

Lemma efficiency_ok (t : Ratios.figures) (r : gmap string Ratios.ratio) :
  exists r', Ratios.efficiency t r = ok r'.
Proof.
  unfold Ratios.efficiency.
  destruct (Z.eqb_spec (Ratios.total_assets t) 0); simpl;
    [eexists; reflexivity|].
  repeat step_divide. eexists; reflexivity.
Qed.

Lemma receivables_ok (t : Ratios.figures) (r : gmap string Ratios.ratio) :
  exists r', Ratios.receivables t r = ok r'.
Proof.
  unfold Ratios.receivables.
  destruct (Ratios.shareholder_equity t =? 0); simpl; eexists; reflexivity.
Qed.

Lemma margins_ok (t : Ratios.figures) (r : gmap string Ratios.ratio) :
  exists r', Ratios.margins t r = ok r'.
Proof.
  unfold Ratios.margins.
  destruct (Z.eqb_spec (Ratios.net_sales t) 0); simpl;
    [eexists; reflexivity|].
  repeat step_divide. eexists; reflexivity.
Qed.

Lemma return_on_assets_ok (t : Ratios.figures) (r : gmap string Ratios.ratio) :
  exists r', Ratios.return_on_assets t r = ok r'.
Proof.
  unfold Ratios.return_on_assets.
  destruct (Z.eqb_spec (Ratios.total_assets t) 0); simpl;
    [eexists; reflexivity|].
  repeat step_divide. eexists; reflexivity.
Qed.

Lemma return_on_equity_ok (t : Ratios.figures) (r : gmap string Ratios.ratio) :
  exists r', Ratios.return_on_equity t r = ok r'.
Proof.
  unfold Ratios.return_on_equity.
  destruct (Z.eqb_spec (Ratios.shareholder_equity t) 0); simpl;
    [eexists; reflexivity|].
  repeat step_divide. eexists; reflexivity.
Qed.

(** The leverage block is the one that can raise: it divides by the equity
    under a guard on assets and liabilities only. *)
Lemma leverage_cases (t : Ratios.figures) (r : gmap string Ratios.ratio) :
  if negb (Ratios.total_assets t =? 0) && negb (Ratios.total_liabilities t =? 0)
     && (Ratios.shareholder_equity t =? 0)
  then Ratios.leverage t r = raised "decimal.DivisionByZero"
  else exists r', Ratios.leverage t r = ok r'.
Proof.
  unfold Ratios.leverage.
  destruct (Z.eqb_spec (Ratios.total_assets t) 0); simpl;
    [eexists; reflexivity|].
  destruct (Z.eqb_spec (Ratios.total_liabilities t) 0); simpl;
    [eexists; reflexivity|].
  destruct (Z.eqb_spec (Ratios.shareholder_equity t) 0) as [Hz|Hnz]; simpl.
  - rewrite (divide_ok _ (Ratios.total_assets t)) by assumption. simpl.
    rewrite Hz.
    rewrite divide_zero by assumption. reflexivity.
  - repeat step_divide. eexists; reflexivity.
Qed.

(** When [calculate_ratios] returns and when it raises. *)
Lemma calculate_ratios_cases (accounts : list ChartOfAccounts.t) :
  let t := fold_left Ratios.assign accounts Ratios.initial in
  if negb (Ratios.total_assets t =? 0) && negb (Ratios.total_liabilities t =? 0)
     && (Ratios.shareholder_equity t =? 0)
  then Ratios.calculate_ratios accounts = raised "decimal.DivisionByZero"
  else exists ratios, Ratios.calculate_ratios accounts = ok ratios.
Proof.
  intros t. unfold Ratios.calculate_ratios. fold t.
  destruct (liquidity_ok t ∅) as [r1 H1]. rewrite H1. simpl.
  pose proof (leverage_cases t r1) as H2.
  destruct (negb (Ratios.total_assets t =? 0)
            && negb (Ratios.total_liabilities t =? 0)
            && (Ratios.shareholder_equity t =? 0)).
  - rewrite H2. reflexivity.
  - destruct H2 as [r2 H2]. rewrite H2. simpl.
    destruct (efficiency_ok t r2) as [r3 H3]. rewrite H3. simpl.
    destruct (receivables_ok t r3) as [r4 H4]. rewrite H4. simpl.
    destruct (margins_ok t r4) as [r5 H5]. rewrite H5. simpl.
    destruct (return_on_assets_ok t r5) as [r6 H6]. rewrite H6. simpl.
    apply return_on_equity_ok.
Qed.

(** C9.  On a chart with assets and liabilities and no equity the function
    raises: the leverage block divides the liabilities by a zero equity.
    With an equity account added it returns; the debt-to-equity ratio is
    then 500.00 / 400.00 = 1.25, graded red. *)
Theorem calculate_ratios_raises_without_equity :
  Ratios.calculate_ratios [Sample.equipment; Sample.loan]
  = raised "decimal.DivisionByZero"
  /\ (exists ratios,
        Ratios.calculate_ratios [Sample.equipment; Sample.loan; Sample.capital]
        = ok ratios)
  /\ (v ← Ratios.divide 50000 40000;
      mret (Ratios.grade_le v Ratios.f_0_7 (Ratios.of_int 1)))
     = ok (Ratios.mk_ratio 125 Ratios.RED).
Proof.
  split; [|split].
  - exact (calculate_ratios_cases [Sample.equipment; Sample.loan]).
  - exact (calculate_ratios_cases [Sample.equipment; Sample.loan; Sample.capital]).
  - reflexivity.
Qed.

(** ** Reports *)

Lemma sum_app (l1 l2 : list money) :
  Reports.sum (l1 ++ l2) = Reports.sum l1 + Reports.sum l2.
Proof. unfold Reports.sum. induction l1; csimpl in *; lia. Qed.

Lemma sum_sub {A} (f g : A -> money) (l : list A) :
  Reports.sum ((fun x => f x - g x) <$> l)
  = Reports.sum (f <$> l) - Reports.sum (g <$> l).
Proof. unfold Reports.sum. induction l; csimpl in *; lia. Qed.

Lemma filter_all {A} (p : A -> bool) (l : list A) :
  (forall x, p x = true) -> List.filter p l = l.
Proof.
  intros Hp. induction l as [|x l IH]; simpl; [reflexivity|].
  rewrite Hp, IH. reflexivity.
Qed.

Lemma filter_Forall {A} (p : A -> bool) (l : list A) :
  Forall (fun x => p x = true) l -> List.filter p l = l.
Proof.
  induction 1 as [|x l Hx _ IH]; simpl; [reflexivity|].
  rewrite Hx, IH. reflexivity.
Qed.

Lemma filter_fmap {A B} (g : A -> B) (p : B -> bool) (l : list A) :
  List.filter p (g <$> l) = g <$> List.filter (fun x => p (g x)) l.
Proof.
  induction l as [|x l IH]; csimpl; [reflexivity|].
  destruct (p (g x)); csimpl; rewrite IH; reflexivity.
Qed.

(** The amount of one side of a row or of an entry. *)
Lemma add_row_debit (p : string -> bool) (name : string) (d c : money)
    (rows : list Reports.account_row) :
  Reports.sum (Reports.total_debit <$>
    List.filter (fun r => p (Reports.account__account_name r))
      (Reports.add_row name d c rows))
  = Reports.sum (Reports.total_debit <$>
      List.filter (fun r => p (Reports.account__account_name r)) rows)
    + (if p name then d else 0).
Proof.
  unfold Reports.sum.
  induction rows as [|r rows IH]; simpl.
  - destruct (p name); csimpl; lia.
  - destruct (String.eqb_spec (Reports.account__account_name r) name) as [->|Hne];
      simpl.
    + destruct (p name); csimpl; lia.
    + destruct (p (Reports.account__account_name r)); csimpl; rewrite IH; lia.
Qed.

Lemma add_row_credit (p : string -> bool) (name : string) (d c : money)
    (rows : list Reports.account_row) :
  Reports.sum (Reports.total_credit <$>
    List.filter (fun r => p (Reports.account__account_name r))
      (Reports.add_row name d c rows))
  = Reports.sum (Reports.total_credit <$>
      List.filter (fun r => p (Reports.account__account_name r)) rows)
    + (if p name then c else 0).
Proof.
  unfold Reports.sum.
  induction rows as [|r rows IH]; simpl.
  - destruct (p name); csimpl; lia.
  - destruct (String.eqb_spec (Reports.account__account_name r) name) as [->|Hne];
      simpl.
    + destruct (p name); csimpl; lia.
    + destruct (p (Reports.account__account_name r)); csimpl; rewrite IH; lia.
Qed.

Lemma annotate_debit_from (accounts : list ChartOfAccounts.t) (p : string -> bool)
    (es : list JournalEntry.t) (rows : list Reports.account_row) :
  Reports.sum (Reports.total_debit <$>
    List.filter (fun r => p (Reports.account__account_name r))
      (fold_left (fun rows e =>
         match accounts !! JournalEntry.account e with
         | Some a =>
             Reports.add_row (ChartOfAccounts.account_name a)
               (JournalEntry.debit e) (JournalEntry.credit e) rows
         | None => rows
         end) es rows))
  = Reports.sum (Reports.total_debit <$>
      List.filter (fun r => p (Reports.account__account_name r)) rows)
    + Reports.sum (JournalEntry.debit <$> List.filter (Period.posted accounts p) es).
Proof.
  revert rows. induction es as [|e es IH]; intros rows; simpl.
  - unfold Reports.sum; simpl; lia.
  - rewrite IH. unfold Period.posted at 2.
    destruct (accounts !! JournalEntry.account e) as [a|]; [|lia].
    rewrite add_row_debit.
    destruct (p (ChartOfAccounts.account_name a)); csimpl; unfold Reports.sum; csimpl; lia.
Qed.

Lemma annotate_credit_from (accounts : list ChartOfAccounts.t) (p : string -> bool)
    (es : list JournalEntry.t) (rows : list Reports.account_row) :
  Reports.sum (Reports.total_credit <$>
    List.filter (fun r => p (Reports.account__account_name r))
      (fold_left (fun rows e =>
         match accounts !! JournalEntry.account e with
         | Some a =>
             Reports.add_row (ChartOfAccounts.account_name a)
               (JournalEntry.debit e) (JournalEntry.credit e) rows
         | None => rows
         end) es rows))
  = Reports.sum (Reports.total_credit <$>
      List.filter (fun r => p (Reports.account__account_name r)) rows)
    + Reports.sum (JournalEntry.credit <$> List.filter (Period.posted accounts p) es).
Proof.
  revert rows. induction es as [|e es IH]; intros rows; simpl.
  - unfold Reports.sum; simpl; lia.
  - rewrite IH. unfold Period.posted at 2.
    destruct (accounts !! JournalEntry.account e) as [a|]; [|lia].
    rewrite add_row_credit.
    destruct (p (ChartOfAccounts.account_name a)); csimpl; unfold Reports.sum; csimpl; lia.
Qed.

Lemma annotate_debit (accounts : list ChartOfAccounts.t) (p : string -> bool)
    (es : list JournalEntry.t) :
  Reports.sum (Reports.total_debit <$>
    List.filter (fun r => p (Reports.account__account_name r))
      (Reports.annotate accounts es))
  = Reports.sum (JournalEntry.debit <$> List.filter (Period.posted accounts p) es).
Proof. unfold Reports.annotate. rewrite annotate_debit_from. simpl. reflexivity. Qed.

Lemma annotate_credit (accounts : list ChartOfAccounts.t) (p : string -> bool)
    (es : list JournalEntry.t) :
  Reports.sum (Reports.total_credit <$>
    List.filter (fun r => p (Reports.account__account_name r))
      (Reports.annotate accounts es))
  = Reports.sum (JournalEntry.credit <$> List.filter (Period.posted accounts p) es).
Proof. unfold Reports.annotate. rewrite annotate_credit_from. simpl. reflexivity. Qed.

(** The rows of the grouping have distinct names. *)
Lemma add_row_names (name : string) (d c : money) (rows : list Reports.account_row) :
  NoDup (Reports.account__account_name <$> rows) ->
  NoDup (Reports.account__account_name <$> Reports.add_row name d c rows)
  /\ forall n, n ∈ (Reports.account__account_name <$> Reports.add_row name d c rows)
       -> n = name \/ n ∈ (Reports.account__account_name <$> rows).
Proof.
  induction rows as [|r rows IH]; csimpl; intros Hnd.
  - split.
    + apply NoDup_singleton.
    + intros n Hn. apply list_elem_of_singleton in Hn. auto.
  - apply list.NoDup_cons in Hnd as [Hr Hnd].
    destruct (String.eqb_spec (Reports.account__account_name r) name) as [Heq|Hne];
      csimpl.
    + rewrite <- Heq. split.
      * apply list.NoDup_cons; auto.
      * intros n Hn. right. exact Hn.
    + destruct (IH Hnd) as [IH1 IH2]. split.
      * apply list.NoDup_cons. split; [|exact IH1].
        intros Hin. apply IH2 in Hin as [Heq|Hin]; [congruence | contradiction].
      * intros n Hn. apply elem_of_cons in Hn as [->|Hn].
        -- right. apply elem_of_cons. auto.
        -- apply IH2 in Hn as [->|Hn]; [auto|]. right. apply elem_of_cons. auto.
Qed.

Lemma annotate_names (accounts : list ChartOfAccounts.t) (es : list JournalEntry.t) :
  NoDup (Reports.account__account_name <$> Reports.annotate accounts es).
Proof.
  unfold Reports.annotate.
  assert (Hgen : forall rows,
    NoDup (Reports.account__account_name <$> rows) ->
    NoDup (Reports.account__account_name <$>
      fold_left (fun rows e =>
         match accounts !! JournalEntry.account e with
         | Some a =>
             Reports.add_row (ChartOfAccounts.account_name a)
               (JournalEntry.debit e) (JournalEntry.credit e) rows
         | None => rows
         end) es rows)).
  { induction es as [|e es IH]; intros rows Hnd; simpl; [exact Hnd|].
    apply IH. destruct (accounts !! JournalEntry.account e); [|exact Hnd].
    apply add_row_names, Hnd. }
  apply Hgen. constructor.
Qed.

(** Among rows of distinct names, the rows of one name are that row. *)
Lemma filter_own_name (rows : list Reports.account_row) (r : Reports.account_row) :
  NoDup (Reports.account__account_name <$> rows) ->
  r ∈ rows ->
  List.filter
    (fun x => bool_decide (Reports.account__account_name x
                           ∈ [Reports.account__account_name r])) rows
  = [r].
Proof.
  induction rows as [|x rows IH]; csimpl; intros Hnd Hin.
  - apply elem_of_nil in Hin. contradiction.
  - apply list.NoDup_cons in Hnd as [Hx Hnd].
    assert (Hnone : forall y, y ∈ rows ->
              Reports.account__account_name y <> Reports.account__account_name x).
    { intros y Hy Heq. apply Hx. rewrite <- Heq.
      apply list_elem_of_fmap. exists y. auto. }
    apply elem_of_cons in Hin as [->|Hin].
    + rewrite bool_decide_eq_true_2 by (apply list_elem_of_singleton; reflexivity).
      f_equal.
      clear IH. induction rows as [|y rows IH']; simpl; [reflexivity|].
      rewrite bool_decide_eq_false_2.
      * apply IH'.
        -- intros Hin. apply Hx. csimpl. apply elem_of_cons. auto.
        -- apply list.NoDup_cons in Hnd as [_ Hnd]. exact Hnd.
        -- intros z Hz. apply Hnone. apply elem_of_cons. auto.
      * intros Hy. apply list_elem_of_singleton in Hy.
        apply (Hnone y); [apply elem_of_cons; auto | exact Hy].
    + rewrite bool_decide_eq_false_2.
      * apply IH; assumption.
      * intros Hy. apply list_elem_of_singleton in Hy.
        apply (Hnone r Hin). symmetry. exact Hy.
Qed.

Lemma Forall_list_filter {A} (P : A -> Prop) (p : A -> bool) (l : list A) :
  Forall P l -> Forall P (List.filter p l).
Proof.
  induction 1 as [|x l Hx _ IH]; simpl; [constructor|].
  destruct (p x); [constructor|]; assumption.
Qed.

Lemma filter_ext_bool {A} (p q : A -> bool) (l : list A) :
  (forall x, p x = q x) -> List.filter p l = List.filter q l.
Proof.
  intros Hpq. induction l as [|x l IH]; simpl; [reflexivity|].
  rewrite Hpq, IH. reflexivity.
Qed.

Section ReportProperties.

Variable to_python : string -> option Date.

Lemma select_dated (start_date end_date : option string) (l : list JournalEntry.t) :
  Period.usable to_python start_date ->
  Period.usable to_python end_date ->
  Reports.select to_python start_date end_date l
  = ok (List.filter
          (Period.in_range (Period.bound to_python start_date)
                           (Period.bound to_python end_date)) l).
Proof.
  unfold Period.usable, Reports.select, Period.bound, Reports.lookup_value.
  intros Hs He.
  destruct (truthy start_date) eqn:Ts, (truthy end_date) eqn:Te; simpl.
  - destruct (Hs eq_refl) as [s Hs'], (He eq_refl) as [e He'].
    destruct start_date as [ss|], end_date as [es|]; try discriminate.
    simpl in *. rewrite Hs', He'. reflexivity.
  - destruct (Hs eq_refl) as [s Hs'].
    destruct start_date as [ss|]; try discriminate.
    simpl in *. rewrite Hs'. simpl. f_equal. apply filter_ext_bool.
    intros x. unfold Period.in_range. rewrite andb_true_r. reflexivity.
  - destruct (He eq_refl) as [e He'].
    destruct end_date as [es|]; try discriminate.
    simpl in *. rewrite He'. reflexivity.
  - f_equal. symmetry. apply filter_all. reflexivity.
Qed.

Lemma name_in_posted (accounts : list ChartOfAccounts.t) (names : list string) :
  Reports.name_in accounts names
  = Period.posted accounts (fun n => bool_decide (n ∈ names)).
Proof. reflexivity. Qed.

Lemma category_in_filed (accounts : list ChartOfAccounts.t)
    (categories : list string) :
  Reports.category_in accounts categories
  = Period.filed accounts (fun c => bool_decide (c ∈ categories)).
Proof. reflexivity. Qed.

(** The figures of the four reports on the database itself. *)
Lemma reports_add_up (start_date end_date : option string) (d : db) :
  Period.usable to_python start_date ->
  Period.usable to_python end_date ->
  Period.accounts_exist d ->
  let period := Period.dated to_python start_date end_date d in
  exists tb inc bs re,
    Reports.trial_balance to_python start_date end_date d = ok tb
    /\ Reports.income_statement to_python start_date end_date d = ok inc
    /\ Reports.balance_sheet to_python start_date end_date d = ok bs
    /\ Reports.retained_earnings to_python start_date end_date d = ok re
    /\ (Reports.tb_total_debit tb = Period.debits period
        /\ Reports.tb_total_credit tb = Period.credits period
        /\ forall row, row ∈ Reports.tb_accounts tb ->
             let own := Period.named d [Reports.account__account_name row] period in
             Reports.total_debit row = Period.debits own
             /\ Reports.total_credit row = Period.credits own)
    /\ (let revenue := Period.named d ["Unearned Revenue"] period in
        let expense := Period.named d ["Accrued Expense"; "Prepaid Expenses"] period in
        Reports.is_total_revenue inc = Period.credits revenue - Period.debits revenue
        /\ Reports.is_total_expenses inc = Period.debits expense - Period.credits expense
        /\ Reports.is_net_income inc
           = Reports.is_total_revenue inc - Reports.is_total_expenses inc)
    /\ (let assets := Period.categorised d ["Assets"] period in
        let liabilities := Period.categorised d ["Liabilities"] period in
        let equity := Period.categorised d ["Equity"] period in
        Reports.bs_total_assets bs = Period.debits assets - Period.credits assets
        /\ Reports.bs_total_liabilities bs
           = Period.credits liabilities - Period.debits liabilities
        /\ Reports.bs_total_equity bs = Period.credits equity - Period.debits equity
        /\ Reports.bs_total_liabilities_and_equity bs
           = Reports.bs_total_liabilities bs + Reports.bs_total_equity bs)
    /\ (let revenue :=
          Period.named d ["Interest Revenue"; "Service Revenue"] period in
        let expense :=
          Period.named d
            ["Supplies Expense"; "Salaries Expense"; "Utilities Expense"] period in
        let dividends := Period.named d ["Dividends"] period in
        Reports.re_net_income re = Period.credits revenue - Period.debits expense
        /\ Reports.re_total_dividends re = Period.debits dividends
        /\ Reports.re_retained_earnings re
           = Reports.re_net_income re - Reports.re_total_dividends re).
Proof.
  intros Hs He Hfk period.
  unfold Reports.trial_balance, Reports.income_statement, Reports.balance_sheet,
    Reports.retained_earnings.
  rewrite (select_dated _ _ _ Hs He). fold (Period.dated to_python start_date end_date d).
  fold period. simpl.
  do 4 eexists. do 4 (split; [reflexivity|]). simpl.
  assert (Hper : Forall (fun e => is_Some (accounts d !! JournalEntry.account e)) period)
    by (apply Forall_list_filter, Hfk).
  assert (Hall : List.filter (Period.posted (accounts d) (fun _ => true)) period = period).
  { apply filter_Forall. eapply Forall_impl; [|exact Hper].
    intros e [a Ha]. unfold Period.posted. rewrite Ha. reflexivity. }
  repeat split.
  - rewrite <- (filter_all (fun _ => true) (Reports.annotate (accounts d) period))
      by reflexivity.
    rewrite (annotate_debit (accounts d) (fun _ => true)), Hall. reflexivity.
  - rewrite <- (filter_all (fun _ => true) (Reports.annotate (accounts d) period))
      by reflexivity.
    rewrite (annotate_credit (accounts d) (fun _ => true)), Hall. reflexivity.
  - unfold Period.debits, Period.named.
    rewrite <- annotate_debit, filter_own_name by (auto using annotate_names).
    unfold Reports.sum; simpl; lia.
  - unfold Period.credits, Period.named.
    rewrite <- annotate_credit, filter_own_name by (auto using annotate_names).
    unfold Reports.sum; simpl; lia.
  - rewrite sum_sub. unfold Period.debits, Period.credits, Period.named.
    rewrite <- annotate_debit, <- annotate_credit. reflexivity.
  - rewrite sum_sub. unfold Period.debits, Period.credits, Period.named.
    rewrite <- annotate_debit, <- annotate_credit. reflexivity.
  - rewrite category_in_filed. apply sum_sub.
  - rewrite category_in_filed. apply sum_sub.
  - rewrite category_in_filed. apply sum_sub.
Qed.

End ReportProperties.

(** *** Statuses do not matter *)

Lemma erased_filter (p : JournalEntry.t -> bool) (l l' : list JournalEntry.t) :
  (forall e, p (JournalEntry.set_status "" e) = p e) ->
  JournalEntry.set_status "" <$> l = JournalEntry.set_status "" <$> l' ->
  JournalEntry.set_status "" <$> List.filter p l
  = JournalEntry.set_status "" <$> List.filter p l'.
Proof.
  intros Hp Hl.
  rewrite <- (filter_ext_bool _ _ l Hp), <- (filter_ext_bool _ _ l' Hp).
  rewrite <- !filter_fmap, Hl. reflexivity.
Qed.

Lemma erased_fmap {A} (f : JournalEntry.t -> A) (l l' : list JournalEntry.t) :
  (forall e, f (JournalEntry.set_status "" e) = f e) ->
  JournalEntry.set_status "" <$> l = JournalEntry.set_status "" <$> l' ->
  f <$> l = f <$> l'.
Proof.
  intros Hf. revert l'.
  induction l as [|x l IH]; intros [|y l'] Hl; try discriminate.
  - reflexivity.
  - rewrite !fmap_cons in Hl. rewrite !fmap_cons.
    assert (Hxy : JournalEntry.set_status "" x = JournalEntry.set_status "" y)
      by congruence.
    assert (Hl' : JournalEntry.set_status "" <$> l = JournalEntry.set_status "" <$> l')
      by congruence.
    rewrite <- (Hf x), <- (Hf y), Hxy, (IH l' Hl'). reflexivity.
Qed.

Lemma erased_debits (l l' : list JournalEntry.t) :
  JournalEntry.set_status "" <$> l = JournalEntry.set_status "" <$> l' ->
  Period.debits l = Period.debits l'.
Proof.
  intros Hl. unfold Period.debits. f_equal.
  apply erased_fmap; [reflexivity | exact Hl].
Qed.

Lemma erased_credits (l l' : list JournalEntry.t) :
  JournalEntry.set_status "" <$> l = JournalEntry.set_status "" <$> l' ->
  Period.credits l = Period.credits l'.
Proof.
  intros Hl. unfold Period.credits. f_equal.
  apply erased_fmap; [reflexivity | exact Hl].
Qed.

Section StatusBlind.

Variable to_python : string -> option Date.
Variables (start_date end_date : option string) (d d' : db).
Hypothesis Hsame : Period.same_but_status d d'.

Lemma erased_dated :
  JournalEntry.set_status "" <$> Period.dated to_python start_date end_date d'
  = JournalEntry.set_status "" <$> Period.dated to_python start_date end_date d.
Proof.
  destruct Hsame as [_ He]. unfold Period.dated.
  apply erased_filter; [reflexivity | symmetry; exact He].
Qed.

Lemma erased_named (names : list string) :
  JournalEntry.set_status "" <$>
    Period.named d' names (Period.dated to_python start_date end_date d')
  = JournalEntry.set_status "" <$>
      Period.named d names (Period.dated to_python start_date end_date d).
Proof.
  unfold Period.named. destruct Hsame as [<- _].
  apply erased_filter; [reflexivity | apply erased_dated].
Qed.

Lemma erased_categorised (categories : list string) :
  JournalEntry.set_status "" <$>
    Period.categorised d' categories (Period.dated to_python start_date end_date d')
  = JournalEntry.set_status "" <$>
      Period.categorised d categories (Period.dated to_python start_date end_date d).
Proof.
  unfold Period.categorised. destruct Hsame as [<- _].
  apply erased_filter; [reflexivity | apply erased_dated].
Qed.

Lemma accounts_exist_same : Period.accounts_exist d -> Period.accounts_exist d'.
Proof.
  unfold Period.accounts_exist. destruct Hsame as [<- He]. intros H.
  assert (Hacc : JournalEntry.account <$> entries d = JournalEntry.account <$> entries d')
    by (apply erased_fmap; [reflexivity | exact He]).
  revert Hacc H. generalize (entries d) (entries d'). clear.
  intros l. induction l as [|x l IH]; intros [|y l'] Hacc H;
    try discriminate; [constructor|].
  rewrite !fmap_cons in Hacc.
  assert (Hxy : JournalEntry.account x = JournalEntry.account y) by congruence.
  assert (Hl : JournalEntry.account <$> l = JournalEntry.account <$> l')
    by congruence.
  inversion H as [|? ? Hx Hrest]; subst. constructor.
  - rewrite <- Hxy. exact Hx.
  - apply IH; assumption.
Qed.

End StatusBlind.

(** C10.  The reports add up the journal entries of the period whatever
    their status.  [d'] is any database that differs from [d] at most in the
    status of its entries (all Approved, all Pending, Denied, Rejected, ...):
    the trial balance of [d'], per account and in total, the income
    statement, the balance sheet and the retained earnings are the sums of
    the debits and credits of every entry of [d] dated in the period. *)
Theorem reports_add_up_every_status (to_python : string -> option Date)
    (start_date end_date : option string) (d d' : db) :
  Period.usable to_python start_date ->
  Period.usable to_python end_date ->
  Period.accounts_exist d ->
  Period.same_but_status d d' ->
  let period := Period.dated to_python start_date end_date d in
  exists tb inc bs re,
    Reports.trial_balance to_python start_date end_date d' = ok tb
    /\ Reports.income_statement to_python start_date end_date d' = ok inc
    /\ Reports.balance_sheet to_python start_date end_date d' = ok bs
    /\ Reports.retained_earnings to_python start_date end_date d' = ok re
    /\ (Reports.tb_total_debit tb = Period.debits period
        /\ Reports.tb_total_credit tb = Period.credits period
        /\ forall row, row ∈ Reports.tb_accounts tb ->
             let own := Period.named d [Reports.account__account_name row] period in
             Reports.total_debit row = Period.debits own
             /\ Reports.total_credit row = Period.credits own)
    /\ (let revenue := Period.named d ["Unearned Revenue"] period in
        let expense := Period.named d ["Accrued Expense"; "Prepaid Expenses"] period in
        Reports.is_total_revenue inc = Period.credits revenue - Period.debits revenue
        /\ Reports.is_total_expenses inc = Period.debits expense - Period.credits expense
        /\ Reports.is_net_income inc
           = Reports.is_total_revenue inc - Reports.is_total_expenses inc)
    /\ (let assets := Period.categorised d ["Assets"] period in
        let liabilities := Period.categorised d ["Liabilities"] period in
        let equity := Period.categorised d ["Equity"] period in
        Reports.bs_total_assets bs = Period.debits assets - Period.credits assets
        /\ Reports.bs_total_liabilities bs
           = Period.credits liabilities - Period.debits liabilities
        /\ Reports.bs_total_equity bs = Period.credits equity - Period.debits equity
        /\ Reports.bs_total_liabilities_and_equity bs
           = Reports.bs_total_liabilities bs + Reports.bs_total_equity bs)
    /\ (let revenue :=
          Period.named d ["Interest Revenue"; "Service Revenue"] period in
        let expense :=
          Period.named d
            ["Supplies Expense"; "Salaries Expense"; "Utilities Expense"] period in
        let dividends := Period.named d ["Dividends"] period in
        Reports.re_net_income re = Period.credits revenue - Period.debits expense
        /\ Reports.re_total_dividends re = Period.debits dividends
        /\ Reports.re_retained_earnings re
           = Reports.re_net_income re - Reports.re_total_dividends re).
Proof.
  intros Hs He Hfk Hsame period.
  destruct (reports_add_up to_python start_date end_date d' Hs He
              (accounts_exist_same d d' Hsame Hfk))
    as (tb & inc & bs & re & Htb & Hinc & Hbs & Hre & H).
  exists tb, inc, bs, re. do 4 (split; [assumption|]).
  pose proof (erased_dated to_python start_date end_date d d' Hsame) as Hd.
  pose proof (erased_named to_python start_date end_date d d' Hsame) as Hn.
  pose proof (erased_categorised to_python start_date end_date d d' Hsame) as Hc.
  cbv zeta in H. destruct H as ((H1 & H2 & H3) & H4 & H5 & H6).
  rewrite (erased_debits _ _ Hd) in H1. rewrite (erased_credits _ _ Hd) in H2.
  repeat match goal with
  | H : context [Period.debits (Period.named d' ?ns _)] |- _ =>
      rewrite (erased_debits _ _ (Hn ns)) in H
  | H : context [Period.credits (Period.named d' ?ns _)] |- _ =>
      rewrite (erased_credits _ _ (Hn ns)) in H
  | H : context [Period.debits (Period.categorised d' ?cs _)] |- _ =>
      rewrite (erased_debits _ _ (Hc cs)) in H
  | H : context [Period.credits (Period.categorised d' ?cs _)] |- _ =>
      rewrite (erased_credits _ _ (Hc cs)) in H
  end.
  subst period. cbv zeta.
  split; [|tauto]. split; [exact H1|]. split; [exact H2|].
  intros row Hrow. specialize (H3 row Hrow). cbv zeta in H3 |- *.
  rewrite <- (erased_debits _ _ (Hn _)), <- (erased_credits _ _ (Hn _)).
  exact H3.
Qed.

(** The reports from 10 March on the sample books, with some groups
    Rejected and the others Pending: each figure is the one of the same
    books with every group Approved. *)
Lemma reports_add_up_every_status_witness :
  exists tb inc bs re,
    Reports.trial_balance iso_date (Some "2024-03-10") (Some "")
      (Sample.march "Rejected" "Pending") = ok tb
    /\ Reports.tb_total_debit tb = 4700
    /\ Reports.tb_total_credit tb = 4700
    /\ Reports.income_statement iso_date (Some "2024-03-10") (Some "")
         (Sample.march "Rejected" "Pending") = ok inc
    /\ Reports.is_total_revenue inc = 3200
    /\ Reports.is_total_expenses inc = 1200
    /\ Reports.is_net_income inc = 2000
    /\ Reports.balance_sheet iso_date (Some "2024-03-10") (Some "")
         (Sample.march "Rejected" "Pending") = ok bs
    /\ Reports.bs_total_assets bs = 3700
    /\ Reports.bs_total_liabilities bs = 3200
    /\ Reports.bs_total_equity bs = 900
    /\ Reports.bs_total_liabilities_and_equity bs = 4100
    /\ Reports.retained_earnings iso_date (Some "2024-03-10") (Some "")
         (Sample.march "Rejected" "Pending") = ok re
    /\ Reports.re_net_income re = -400
    /\ Reports.re_total_dividends re = 300
    /\ Reports.re_retained_earnings re = -700.
Proof.
  destruct (reports_add_up_every_status iso_date (Some "2024-03-10") (Some "")
              (Sample.march "Approved" "Approved")
              (Sample.march "Rejected" "Pending"))
    as (tb & inc & bs & re & Htb & Hinc & Hbs & Hre & (Hd & Hc & _)
        & (Hir & Hie & Hin) & (Ha & Hl & Hq & Hle) & (Hn & Hv & Hr)).
  - intros _. exists 738955. reflexivity.
  - intros H. discriminate H.
  - repeat constructor; eexists; reflexivity.
  - split; reflexivity.
  - exists tb, inc, bs, re.
    rewrite Hr, Hn, Hv, Hle, Hq, Hl, Ha, Hin, Hie, Hir, Hd, Hc.
    repeat split; assumption.
Defined.

(** ** Approval *)

Lemma approve_not_pending (pk : nat) (e : JournalEntry.t) (w : world) :
  JournalEntry.status e <> "Pending" -> approve pk e w = (ok e, w).
Proof.
  intros H. unfold approve.
  destruct (String.eqb_spec (JournalEntry.status e) "Pending"); [contradiction|].
  reflexivity.
Qed.

Lemma approve_pending (p : list bool) (d : db) (msgs : list message)
    (pk : nat) (e : JournalEntry.t) (a : ChartOfAccounts.t) :
  JournalEntry.status e = "Pending" ->
  accounts d !! JournalEntry.account e = Some a ->
  exists p',
    approve pk e (mk_world p d msgs)
    = if Posting.refuses 3 p
      then (raised "DatabaseError", mk_world p' d msgs)
      else (ok (JournalEntry.set_status "Approved" e),
            mk_world p' (Posting.posted pk e a d) msgs).
Proof.
  intros Hs Ha. unfold approve. rewrite Hs. simpl.
  unfold atomic, mbind, M_bind, save_entry, save_account, related_account, write.
  destruct p as [|[] [|[] [|[] p]]]; simpl; try rewrite Ha; simpl;
    eexists; reflexivity.
Qed.

Lemma approve_pending_dangling (p : list bool) (d : db) (msgs : list message)
    (pk : nat) (e : JournalEntry.t) :
  JournalEntry.status e = "Pending" ->
  accounts d !! JournalEntry.account e = None ->
  exists exn p',
    approve pk e (mk_world p d msgs) = (raised exn, mk_world p' d msgs).
Proof.
  intros Hs Ha. unfold approve. rewrite Hs. simpl.
  unfold atomic, mbind, M_bind, save_entry, save_account, related_account, write.
  destruct p as [|[] p]; simpl; try rewrite Ha; simpl;
    do 2 eexists; reflexivity.
Qed.

(** Whatever the plan, [approve] leaves the database as it was or posted. *)
Lemma approve_store (pk : nat) (e : JournalEntry.t) (w : world) :
  store (approve pk e w).2 = store w
  \/ (JournalEntry.status e = "Pending"
      /\ exists a,
           accounts (store w) !! JournalEntry.account e = Some a
           /\ (approve pk e w).1 = ok (JournalEntry.set_status "Approved" e)
           /\ store (approve pk e w).2 = Posting.posted pk e a (store w)).
Proof.
  destruct w as [p d msgs]. simpl.
  destruct (String.eqb_spec (JournalEntry.status e) "Pending") as [Hs|Hs].
  - destruct (accounts d !! JournalEntry.account e) as [a|] eqn:Ha.
    + destruct (approve_pending p d msgs pk e a Hs Ha) as [p' ->].
      destruct (Posting.refuses 3 p); simpl; [left; reflexivity|].
      right. split; [exact Hs|]. exists a. auto.
    + destruct (approve_pending_dangling p d msgs pk e Hs Ha) as (exn & p' & ->).
      left. reflexivity.
  - rewrite approve_not_pending by assumption. left. reflexivity.
Qed.

(** Writing a row back as it was read changes nothing. *)
Lemma save_account_same (pk : nat) (a : ChartOfAccounts.t) (w : world) :
  accounts (store w) !! pk = Some a ->
  store (save_account pk a w).2 = store w.
Proof.
  intros Ha. unfold save_account, write.
  destruct w as [p [accts g es l evs] msgs]. simpl in *.
  destruct p as [|[] p]; simpl; try reflexivity;
    unfold set_accounts; simpl; rewrite (list_insert_id _ _ _ Ha); reflexivity.
Qed.

(** ** Loops *)

Section Loops.

Context {A : Type} (body : A -> M unit).
Context (R : relation db) `{!PreOrder R}.
Context (I : list A -> db -> Prop).

Hypothesis body_step :
  forall x xs w,
    I (x :: xs) (store w) ->
    R (store w) (store (body x w).2) /\ I xs (store (body x w).2).

Lemma for_each_inv (xs : list A) (w : world) :
  I xs (store w) -> R (store w) (store (for_each xs body w).2).
Proof.
  revert w. induction xs as [|x xs IH]; intros w HI; simpl.
  - reflexivity.
  - unfold mbind, M_bind.
    destruct (body_step x xs w HI) as [HR HI'].
    destruct (body x w) as [[[]|exn] w'] eqn:Hb; simpl in *.
    + etransitivity; [exact HR|]. apply IH. exact HI'.
    + exact HR.
Qed.

End Loops.

(** ** The rows of a query *)

Lemma with_pk_fst {A} (t : list A) : (with_pk t).*1 = seq 0 (length t).
Proof.
  unfold with_pk. rewrite fmap_imap.
  rewrite (imap_ext _ (fun i _ => i)) by reflexivity.
  rewrite imap_seq_0. apply list_fmap_id.
Qed.

Lemma with_pk_elem {A} (t : list A) (r : nat * A) :
  r ∈ with_pk t <-> t !! r.1 = Some r.2.
Proof.
  unfold with_pk. rewrite elem_of_lookup_imap. split.
  - intros (i & x & -> & Hx). exact Hx.
  - intros H. exists r.1, r.2. split; [destruct r; reflexivity | exact H].
Qed.

Lemma list_filter_elem {A} (p : A -> bool) (l : list A) (x : A) :
  x ∈ List.filter p l <-> x ∈ l /\ p x = true.
Proof. rewrite !list_elem_of_In. apply filter_In. Qed.

Lemma list_filter_NoDup_fst {A B} (p : A * B -> bool) (l : list (A * B)) :
  NoDup l.*1 -> NoDup (List.filter p l).*1.
Proof.
  induction l as [|x l IH]; [auto|].
  rewrite fmap_cons, list.NoDup_cons. intros [Hx Hl].
  cbn [List.filter]. destruct (p x); [|auto].
  rewrite fmap_cons. apply list.NoDup_cons. split; [|auto].
  intros Hin. apply Hx.
  apply list_elem_of_fmap in Hin as (y & Hy & Hin).
  apply list_filter_elem in Hin as [Hin _].
  apply list_elem_of_fmap. exists y. auto.
Qed.

Lemma filter_group_current (gid : option nat) (d : db) :
  current (filter_group gid (entries d)) d.
Proof.
  unfold current, filter_group. split.
  - apply list_filter_NoDup_fst. rewrite with_pk_fst. apply NoDup_seq.
  - intros r Hr. apply list_filter_elem in Hr as [Hr _].
    apply with_pk_elem. exact Hr.
Qed.

Lemma current_tail (r : nat * JournalEntry.t) rows (d d' : db) :
  current (r :: rows) d ->
  (forall pk, pk <> r.1 -> entries d' !! pk = entries d !! pk) ->
  current rows d'.
Proof.
  intros [Hnd Hcur] Hother.
  rewrite fmap_cons in Hnd. apply list.NoDup_cons in Hnd as [Hr Hnd].
  split; [exact Hnd|].
  intros r' Hr'. rewrite Hother.
  - apply Hcur. apply elem_of_cons. auto.
  - intros Heq. apply Hr. rewrite <- Heq.
    apply list_elem_of_fmap. exists r'. auto.
Qed.

(** ** journal_entry_page, one change at a time *)

Section PageChanges.

Variables strict posting rejecting : bool.

Lemma add_comment_store (gid : option nat) (w : world) :
  exists msgs, add_comment gid w = (ok tt, mk_world (plan w) (store w) msgs).
Proof.
  unfold add_comment, mbind, M_bind, read, notify. simpl.
  destruct w as [p d msgs]; simpl.
  match goal with |- context [if ?b then _ else _] => destruct b end;
    eexists; reflexivity.
Qed.

Lemma approve_body_store (r : nat * JournalEntry.t) (w : world) :
  store ((entry ← approve r.1 r.2;
          account ← related_account (JournalEntry.account entry);
          save_account (JournalEntry.account entry) account) w).2
  = store (approve r.1 r.2 w).2.
Proof.
  unfold mbind, M_bind.
  destruct (approve r.1 r.2 w) as [[entry|exn] w1]; simpl; [|reflexivity].
  unfold related_account.
  destruct (accounts (store w1) !! JournalEntry.account entry) as [a|] eqn:Ha;
    simpl; [|reflexivity].
  apply save_account_same. exact Ha.
Qed.

Lemma approve_body_step (r : nat * JournalEntry.t) rows (w : world) :
  posting = true ->
  current (r :: rows) (store w) ->
  let w' := ((entry ← approve r.1 r.2;
              account ← related_account (JournalEntry.account entry);
              save_account (JournalEntry.account entry) account) w).2 in
  rtc (change strict posting rejecting) (store w) (store w') /\ current rows (store w').
Proof.
  intros Hpost Hcur. cbv zeta. rewrite approve_body_store.
  pose proof (proj2 Hcur r (list_elem_of_here _ _)) as Hr.
  destruct (approve_store r.1 r.2 w) as [->|(Hs & a & Ha & _ & ->)].
  - split; [reflexivity|]. eapply current_tail; [exact Hcur | reflexivity].
  - split.
    + apply rtc_once. apply change_post; assumption.
    + eapply current_tail; [exact Hcur|].
      intros pk Hpk. simpl. apply list_lookup_insert_ne. congruence.
Qed.

Lemma reject_body_step (gid : option nat) (r : nat * JournalEntry.t) rows
    (w : world) :
  rejecting = true ->
  current (r :: rows) (store w) ->
  let w' := (add_comment gid ;;
             save_entry r.1 (JournalEntry.set_status "Rejected" r.2)) w in
  rtc (change strict posting rejecting) (store w) (store w'.2) /\ current rows (store w'.2).
Proof.
  intros Hrej Hcur. cbv zeta.
  pose proof (proj2 Hcur r (list_elem_of_here _ _)) as Hr.
  unfold mbind, M_bind.
  destruct (add_comment_store gid w) as [msgs ->].
  unfold save_entry, write. simpl.
  destruct (plan w) as [|[] p]; simpl.
  - split.
    + apply rtc_once. apply change_reject; assumption.
    + eapply current_tail; [exact Hcur|].
      intros pk Hpk. simpl. apply list_lookup_insert_ne. congruence.
  - split; [reflexivity|]. eapply current_tail; [exact Hcur | reflexivity].
  - split.
    + apply rtc_once. apply change_reject; assumption.
    + eapply current_tail; [exact Hcur|].
      intros pk Hpk. simpl. apply list_lookup_insert_ne. congruence.
Qed.

Lemma journal_entry_page_changes (req : page_request) (w : world) :
  (page_method req = "POST" -> pressed req = approve_button -> posting = true) ->
  (page_method req = "POST" -> pressed req = reject_button -> rejecting = true) ->
  rtc (change strict posting rejecting) (store w) (store (journal_entry_page req w).2).
Proof.
  intros Hpost Hrej. unfold journal_entry_page.
  destruct (String.eqb_spec (page_method req) "POST") as [Hm|]; [|reflexivity].
  specialize (Hpost Hm). specialize (Hrej Hm).
  destruct (pressed req); unfold mbind at 1, M_bind at 1.
  - unfold mbind at 1, M_bind at 1.
    destruct (add_comment_store (group_id req) w) as [msgs ->].
    unfold mbind at 1, M_bind at 1, read at 1. simpl.
    match goal with
    | |- context [for_each ?rows ?body ?w0] =>
        pose proof (for_each_inv body (rtc (change strict posting rejecting)) current
                      (fun x xs w => approve_body_step x xs w (Hpost eq_refl)) rows w0
                      (filter_group_current _ _)) as Hloop;
        destruct (for_each rows body w0) as [[[]|exn] w1]
    end; exact Hloop.
  - unfold mbind at 1, M_bind at 1, read at 1. simpl.
    match goal with
    | |- context [for_each ?rows ?body ?w0] =>
        pose proof (for_each_inv body (rtc (change strict posting rejecting)) current
                      (fun x xs w =>
                         reject_body_step (group_id req) x xs w (Hrej eq_refl))
                      rows w0
                      (filter_group_current _ _)) as Hloop;
        destruct (for_each rows body w0) as [[[]|exn] w1]
    end; exact Hloop.
  - reflexivity.
Qed.

End PageChanges.

(** ** The account views, one change at a time *)

Section AccountChanges.

Variables strict posting rejecting : bool.

Lemma add_account_changes (req : account_request) (w : world) :
  rtc (change strict posting rejecting) (store w) (store (add_account req w).2).
Proof.
  unfold add_account.
  destruct (is_superuser req); simpl; [|reflexivity].
  destruct (String.eqb (account_method req) "POST"); [|reflexivity].
  destruct (form req) as [a|]; [|reflexivity].
  unfold insert_account, mbind, M_bind, read, write, notify, raise. simpl.
  destruct (unique_account None a (accounts (store w))); [|reflexivity].
  destruct (plan w) as [|[] p]; simpl;
    first [reflexivity | apply rtc_once, change_add_account].
Qed.

Lemma edit_account_changes (req : account_request) (pk : nat) (w : world) :
  (strict = true ->
   forall a a', accounts (store w) !! pk = Some a -> form req = Some a' ->
     ChartOfAccounts.normal_side a' = ChartOfAccounts.normal_side a) ->
  rtc (change strict posting rejecting) (store w) (store (edit_account req pk w).2).
Proof.
  intros Hkeep. unfold edit_account, get_object_or_404, mbind, M_bind.
  destruct (accounts (store w) !! pk) as [a|] eqn:Ha; [|reflexivity].
  destruct (String.eqb (account_method req) "POST"); [|reflexivity].
  destruct (form req) as [a'|] eqn:Hf; [|reflexivity].
  unfold update_account, save_account, create_event, mbind, M_bind, read,
    write, notify, raise.
  simpl.
  destruct (unique_account (Some pk) a' (accounts (store w))); [|reflexivity].
  assert (Hedit : forall d, accounts d = accounts (store w) ->
            change strict posting rejecting d
              (set_accounts (fun t => <[pk := a']> t) d)).
  { intros d Hd. eapply change_edit_account; [rewrite Hd; exact Ha|].
    intros Hs. exact (Hkeep Hs a a' eq_refl eq_refl). }
  destruct (plan w) as [|[|] [|[|] p]]; simpl;
    first [reflexivity
          | apply rtc_once, Hedit; reflexivity
          | eapply rtc_l; [apply Hedit; reflexivity | apply rtc_once, change_event]].
Qed.

Lemma deactivate_account_changes (req : account_request) (pk : nat) (w : world) :
  rtc (change strict posting rejecting) (store w) (store (deactivate_account req pk w).2).
Proof.
  unfold deactivate_account, get_object_or_404, mbind, M_bind.
  destruct (is_superuser req); simpl; [|reflexivity].
  destruct (accounts (store w) !! pk) as [a|] eqn:Ha; [|reflexivity].
  destruct (0 <? ChartOfAccounts.balance a); [reflexivity|].
  unfold save_account, create_event, write.
  destruct (plan w) as [|[|] [|[|] p]]; simpl;
    first [reflexivity
          | apply rtc_once, change_activation; exact Ha
          | eapply rtc_l; [apply change_activation; exact Ha
                          | apply rtc_once, change_event]].
Qed.

Lemma activate_account_changes (req : account_request) (pk : nat) (w : world) :
  rtc (change strict posting rejecting) (store w) (store (activate_account req pk w).2).
Proof.
  unfold activate_account, get_object_or_404, mbind, M_bind.
  destruct (is_superuser req); simpl; [|reflexivity].
  destruct (accounts (store w) !! pk) as [a|] eqn:Ha; [|reflexivity].
  unfold save_account, create_event, write.
  destruct (plan w) as [|[|] [|[|] p]]; simpl;
    first [reflexivity
          | apply rtc_once, change_activation; exact Ha
          | eapply rtc_l; [apply change_activation; exact Ha
                          | apply rtc_once, change_event]].
Qed.

End AccountChanges.

(** ** add_journal_entry, one change at a time *)

Section EntryChanges.

Variable Decimal : string -> option Qc.
Variable to_python : string -> option Date.
Variable quantize : Qc -> money.

Lemma get_account_by_name_cases (name : option string) (w : world) :
  (exists exn, get_account_by_name name w = (raised exn, w))
  \/ (exists r,
        get_account_by_name name w = (ok r, w)
        /\ accounts (store w) !! r.1 = Some r.2
        /\ Some (ChartOfAccounts.account_name r.2) = name).
Proof.
  unfold get_account_by_name, mbind, M_bind, read. simpl.
  destruct (List.filter _ (with_pk (accounts (store w)))) as [|r [|r' rows]] eqn:Hf;
    [left; eexists; reflexivity | | left; eexists; reflexivity].
  right. exists r. split; [reflexivity|].
  assert (Hr : r ∈ List.filter
            (fun r => bool_decide (Some (ChartOfAccounts.account_name r.2) = name))
            (with_pk (accounts (store w))))
    by (rewrite Hf; apply list_elem_of_here).
  apply list_filter_elem in Hr as [Hr Hn].
  split; [apply with_pk_elem, Hr | apply bool_decide_eq_true in Hn; exact Hn].
Qed.

Lemma create_group_cases (w : world) :
  (exists exn p, create_group w = (raised exn, mk_world p (store w) (flash w)))
  \/ (exists p,
        create_group w
        = (ok (groups (store w)), mk_world p (set_groups S (store w)) (flash w))).
Proof.
  unfold create_group, mbind, M_bind, read, write. simpl.
  destruct (plan w) as [|[] p]; simpl; eauto.
Qed.

Lemma create_entry_cases (account : nat) (debit credit : money)
    (date : option string) (group : nat) (w : world) :
  (exists exn p,
     create_entry to_python account debit credit date group w
     = (raised exn, mk_world p (store w) (flash w)))
  \/ (exists day p,
        create_entry to_python account debit credit date group w
        = (ok tt,
           mk_world p
             (set_entries (fun t =>
                t ++ [JournalEntry.mk day account debit credit "Pending" (Some group)])
                (store w))
             (flash w))).
Proof.
  unfold create_entry, raise, write. destruct w as [p d msgs]. simpl.
  destruct date as [s|]; [|left; do 2 eexists; reflexivity].
  destruct (to_python s) as [day|]; [|left; do 2 eexists; reflexivity].
  destruct p as [|[] p]; simpl; eauto.
Qed.

Lemma add_journal_entry_changes (strict posting rejecting : bool) (req : entry_request) (w : world) :
  rtc (change strict posting rejecting) (store w)
    (store (add_journal_entry Decimal to_python quantize req w).2).
Proof.
  unfold add_journal_entry.
  destruct (String.eqb (entry_method req) "POST"); [|reflexivity].
  destruct (negb (truthy (debit1 req)) || negb (truthy (credit2 req)));
    [reflexivity|].
  unfold mbind at 1, M_bind at 1.
  destruct (decimal_of Decimal (debit1 req) w) as [[debit|exn] w1] eqn:Hd.
  2: { unfold decimal_of in Hd. destruct (debit1 req) as [s|];
       [destruct (Decimal s)|]; inversion Hd; reflexivity. }
  assert (w1 = w) as ->.
  { unfold decimal_of in Hd. destruct (debit1 req) as [s|];
      [destruct (Decimal s)|]; inversion Hd; reflexivity. }
  unfold mbind at 1, M_bind at 1.
  destruct (decimal_of Decimal (credit2 req) w) as [[credit|exn] w1] eqn:Hc.
  2: { unfold decimal_of in Hc. destruct (credit2 req) as [s|];
       [destruct (Decimal s)|]; inversion Hc; reflexivity. }
  assert (w1 = w) as ->.
  { unfold decimal_of in Hc. destruct (credit2 req) as [s|];
      [destruct (Decimal s)|]; inversion Hc; reflexivity. }
  destruct (bool_decide (debit ≤ 0)%Qc || bool_decide (credit ≤ 0)%Qc);
    [reflexivity|].
  destruct (bool_decide (debit = credit)) eqn:Heq; simpl; [|reflexivity].
  apply bool_decide_eq_true in Heq. subst credit.
  unfold try_except.
  match goal with
  | |- context [store (match ?body w with _ => _ end).2] =>
      assert (Hbody : rtc (change strict posting rejecting) (store w) (store (body w).2));
      [| destruct (body w) as [[resp|exn] w2]; simpl in *;
         [exact Hbody | destruct (String.eqb exn _); exact Hbody] ]
  end.
  unfold mbind at 1, M_bind at 1.
  destruct (get_account_by_name_cases (account1 req) w)
    as [[exn ->]|(a1 & -> & Ha1 & _)]; [reflexivity|].
  unfold mbind at 1, M_bind at 1.
  destruct (get_account_by_name_cases (account2 req) w)
    as [[exn ->]|(a2 & -> & Ha2 & _)]; [reflexivity|].
  destruct (String.eqb_spec (ChartOfAccounts.normal_side a1.2) "Left") as [Hl|];
    simpl; [|reflexivity].
  destruct (String.eqb_spec (ChartOfAccounts.normal_side a2.2) "Right") as [Hr|];
    simpl; [|reflexivity].
  unfold mbind at 1, M_bind at 1.
  destruct (create_group_cases w) as [(exn & p & ->)|(p & ->)]; [reflexivity|].
  unfold mbind at 1, M_bind at 1.
  match goal with
  | |- context [create_entry to_python ?a ?x ?y ?dt ?g ?w0] =>
      destruct (create_entry_cases a x y dt g w0) as [(exn & p1 & ->)|(day1 & p1 & ->)]
  end; simpl.
  { apply rtc_once, change_new_group. }
  unfold mbind at 1, M_bind at 1.
  match goal with
  | |- context [create_entry to_python ?a ?x ?y ?dt ?g ?w0] =>
      destruct (create_entry_cases a x y dt g w0) as [(exn & p2 & ->)|(day2 & p2 & ->)]
  end; simpl.
  { apply rtc_once. eapply change_new_entry; eauto. }
  apply rtc_once.
  match goal with
  | |- change _ _ _ _ ?d' =>
      replace d' with
        (set_entries (fun t => t ++
           [JournalEntry.mk day1 a1.1 (quantize debit) 0 "Pending" (Some (groups (store w)));
            JournalEntry.mk day2 a2.1 0 (quantize debit) "Pending" (Some (groups (store w)))])
           (set_groups S (store w)))
  end.
  - eapply change_new_pair; eauto.
  - unfold set_entries; simpl. rewrite <- app_assoc. reflexivity.
Qed.

End EntryChanges.

(** ** Invariants, change by change *)

Lemma same_shapes_refl (t : list JournalEntry.t) : Inv.same_shapes t t.
Proof. intros i x Hx. exists x. auto. Qed.

Lemma same_shapes_restatus (t : list JournalEntry.t) (pk : nat)
    (e : JournalEntry.t) (s : string) :
  t !! pk = Some e ->
  Inv.same_shapes t (<[pk := JournalEntry.set_status s e]> t).
Proof.
  intros He i x' Hx'.
  apply list_lookup_insert_Some in Hx' as [(-> & <- & _)|[_ Hx']].
  - exists e. auto.
  - exists x'. auto.
Qed.

Lemma sides_kept_refl (t : list ChartOfAccounts.t) : Inv.sides_kept t t.
Proof. intros k a Ha. exists a. auto. Qed.

Lemma sides_kept_app (t : list ChartOfAccounts.t) (a : ChartOfAccounts.t) :
  Inv.sides_kept t (t ++ [a]).
Proof.
  intros k x Hx. exists x. split; [|reflexivity].
  apply lookup_app_l_Some. exact Hx.
Qed.

Lemma sides_kept_insert (t : list ChartOfAccounts.t) (pk : nat)
    (a a' : ChartOfAccounts.t) :
  t !! pk = Some a ->
  ChartOfAccounts.normal_side a' = ChartOfAccounts.normal_side a ->
  Inv.sides_kept t (<[pk := a']> t).
Proof.
  intros Ha Hside k x Hx.
  destruct (decide (pk = k)) as [->|Hne].
  - exists a'. split.
    + apply list_lookup_insert_eq. eapply lookup_lt_Some, Hx.
    + congruence.
  - exists x. split; [|reflexivity].
    rewrite list_lookup_insert_ne by assumption. exact Hx.
Qed.

Lemma pair_same_shapes (d d' : db) (i j : nat) (e1' e2' : JournalEntry.t) :
  Inv.same_shapes (entries d) (entries d') ->
  Pairs.pair d' i j e1' e2' ->
  exists e1 e2,
    Pairs.pair d i j e1 e2
    /\ Inv.shape e1 = Inv.shape e1' /\ Inv.shape e2 = Inv.shape e2'.
Proof.
  intros Hsh (Hij & H1 & H2 & Hg & Hgg).
  destruct (Hsh _ _ H1) as (e1 & He1 & Hs1).
  destruct (Hsh _ _ H2) as (e2 & He2 & Hs2).
  exists e1, e2. split; [|auto].
  unfold Inv.shape in Hs1, Hs2.
  injection Hs1 as _ _ _ _ Hg1. injection Hs2 as _ _ _ _ Hg2.
  unfold Pairs.pair. rewrite Hg1, Hg2. auto.
Qed.

Lemma grouped_same_shapes (d d' : db) :
  Inv.same_shapes (entries d) (entries d') ->
  (groups d <= groups d')%nat ->
  Inv.grouped d -> Inv.grouped d'.
Proof.
  intros Hsh Hle Hinv i e' He'.
  destruct (Hsh _ _ He') as (e & He & Hs).
  destruct (Hinv _ _ He) as (g & Hg & Hlt).
  exists g. unfold Inv.shape in Hs. injection Hs as _ _ _ _ Hgg.
  split; [congruence | lia].
Qed.

Lemma totals_same_shapes (d d' : db) :
  Inv.same_shapes (entries d) (entries d') ->
  Inv.totals_match d -> Inv.totals_match d'.
Proof.
  intros Hsh Hinv i j e1' e2' Hp.
  destruct (pair_same_shapes _ _ _ _ _ _ Hsh Hp) as (e1 & e2 & Hp0 & Hs1 & Hs2).
  specialize (Hinv _ _ _ _ Hp0). unfold Pairs.matching_totals in *.
  unfold Inv.shape in Hs1, Hs2.
  injection Hs1 as _ _ Hd _ _. injection Hs2 as _ _ _ Hc _. congruence.
Qed.

Lemma sides_same_shapes (d d' : db) :
  Inv.same_shapes (entries d) (entries d') ->
  Inv.sides_kept (accounts d) (accounts d') ->
  Inv.sides_fixed d -> Inv.sides_fixed d'.
Proof.
  intros Hsh Hk Hinv i j e1' e2' Hp.
  destruct (pair_same_shapes _ _ _ _ _ _ Hsh Hp) as (e1 & e2 & Hp0 & Hs1 & Hs2).
  destruct (Hinv _ _ _ _ Hp0) as (a1 & a2 & Ha1 & Ha2 & Hl & Hr).
  destruct (Hk _ _ Ha1) as (a1' & Ha1' & Hl').
  destruct (Hk _ _ Ha2) as (a2' & Ha2' & Hr').
  unfold Inv.shape in Hs1, Hs2.
  injection Hs1 as _ Hacc1 _ _ _. injection Hs2 as _ Hacc2 _ _ _.
  exists a1', a2'. rewrite <- Hacc1, <- Hacc2. repeat split; congruence.
Qed.

(** A pair in a table that grew by entries of a new group is an old pair
    or a pair of new entries. *)
Lemma pair_app (d : db) (new : list JournalEntry.t) (i j : nat)
    (e1 e2 : JournalEntry.t) :
  Inv.grouped d ->
  Forall (fun e => JournalEntry.group e = Some (groups d)) new ->
  Pairs.pair (set_entries (fun t => t ++ new) (set_groups S d)) i j e1 e2 ->
  Pairs.pair d i j e1 e2
  \/ (length (entries d) <= i
      /\ new !! (i - length (entries d))%nat = Some e1
      /\ new !! (j - length (entries d))%nat = Some e2)%nat.
Proof.
  intros Hgr Hnew (Hij & H1 & H2 & Hg & Hgg). simpl in H1, H2.
  apply lookup_app_Some in H1 as [H1|[Hi H1]];
    apply lookup_app_Some in H2 as [H2|[Hj H2]].
  - left. unfold Pairs.pair. auto.
  - exfalso. destruct (Hgr _ _ H1) as (g & Hg1 & Hlt).
    rewrite list.Forall_forall in Hnew.
    pose proof (Hnew e2 (list_elem_of_lookup_2 _ _ _ H2)) as Hg2.
    rewrite Hgg, Hg2 in Hg1. injection Hg1 as <-. lia.
  - exfalso. apply lookup_lt_Some in H2. lia.
  - right. auto.
Qed.

Lemma change_grouped (strict posting rejecting : bool) (d d' : db) :
  change strict posting rejecting d d' -> Inv.grouped d -> Inv.grouped d'.
Proof.
  intros Hch Hinv.
  destruct Hch;
    try (eapply grouped_same_shapes; [| |exact Hinv]; simpl;
         [first [apply same_shapes_refl | apply same_shapes_restatus; assumption]
         | lia]).
  - intros i x Hx. simpl in *.
    apply lookup_app_Some in Hx as [Hx|[_ Hx]].
    + destruct (Hinv _ _ Hx) as (g & Hg & Hlt). exists g. split; [auto|lia].
    + apply list_lookup_singleton_Some in Hx as [_ <-].
      exists (groups d). split; [assumption|lia].
  - intros i x Hx. simpl in *.
    apply lookup_app_Some in Hx as [Hx|[_ Hx]].
    + destruct (Hinv _ _ Hx) as (g & Hg & Hlt). exists g. split; [auto|lia].
    + exists (groups d). split; [|lia].
      destruct (i - length (entries d))%nat as [|[|n]]; simpl in Hx;
        [injection Hx as <-; assumption
        | injection Hx as <-; assumption
        | discriminate].
Qed.

Lemma change_totals (strict posting rejecting : bool) (d d' : db) :
  change strict posting rejecting d d' -> Inv.grouped d -> Inv.totals_match d -> Inv.totals_match d'.
Proof.
  intros Hch Hgr Hinv.
  destruct Hch;
    try (eapply totals_same_shapes; [|exact Hinv]; simpl;
         first [apply same_shapes_refl | apply same_shapes_restatus; assumption]).
  - intros i j x1 x2 Hp.
    pose proof Hp as (Hij & _).
    destruct (pair_app d [e] i j x1 x2 Hgr) as [Hp0|(Hi & Hn1 & Hn2)];
      [repeat constructor; assumption | exact Hp | apply Hinv in Hp0; exact Hp0 |].
    destruct (i - length (entries d))%nat as [|n] eqn:Ei,
             (j - length (entries d))%nat as [|m] eqn:Ej;
      simpl in *; try discriminate; lia.
  - intros i j x1 x2 Hp.
    pose proof Hp as (Hij & _).
    destruct (pair_app d [e1; e2] i j x1 x2 Hgr) as [Hp0|(Hi & Hn1 & Hn2)];
      [repeat constructor; assumption | exact Hp | apply Hinv in Hp0; exact Hp0 |].
    destruct (i - length (entries d))%nat as [|[|n]] eqn:Ei,
             (j - length (entries d))%nat as [|[|m]] eqn:Ej;
      simpl in *; try discriminate; try lia.
    injection Hn1 as <-. injection Hn2 as <-. assumption.
Qed.

Lemma change_sides (posting rejecting : bool) (d d' : db) :
  change true posting rejecting d d' -> Inv.grouped d -> Inv.sides_fixed d -> Inv.sides_fixed d'.
Proof.
  intros Hch Hgr Hinv.
  destruct Hch;
    try (eapply sides_same_shapes; [| |exact Hinv]; simpl;
         [first [apply same_shapes_refl | apply same_shapes_restatus; assumption]
         |first [apply sides_kept_refl | apply sides_kept_app
                | eapply sides_kept_insert; eauto; fail]]).
  - intros i j x1 x2 Hp.
    pose proof Hp as (Hij & _).
    destruct (pair_app d [e] i j x1 x2 Hgr) as [Hp0|(Hi & Hn1 & Hn2)];
      [repeat constructor; assumption | exact Hp | apply Hinv in Hp0; exact Hp0 |].
    destruct (i - length (entries d))%nat as [|n] eqn:Ei,
             (j - length (entries d))%nat as [|m] eqn:Ej;
      simpl in *; try discriminate; lia.
  - intros i j x1 x2 Hp.
    pose proof Hp as (Hij & _).
    destruct (pair_app d [e1; e2] i j x1 x2 Hgr) as [Hp0|(Hi & Hn1 & Hn2)];
      [repeat constructor; assumption | exact Hp | apply Hinv in Hp0; exact Hp0 |].
    destruct (i - length (entries d))%nat as [|[|n]] eqn:Ei,
             (j - length (entries d))%nat as [|[|m]] eqn:Ej;
      simpl in *; try discriminate; try lia.
    injection Hn1 as <-. injection Hn2 as <-.
    exists a1, a2. auto.
Qed.

Lemma ledger_derived_app (d : db) (new : list JournalEntry.t) :
  Forall (fun e => JournalEntry.status e = "Pending") new ->
  Inv.ledger_derived d ->
  Inv.ledger_derived (set_entries (fun t => t ++ new) (set_groups S d)).
Proof.
  intros Hnew (Hnd & Hrows & Happ). split; [exact Hnd|]. split.
  - intros row Hrow. destruct (Hrows row Hrow) as (pk & e & Hj & He & Hrest).
    exists pk, e. split; [exact Hj|]. split; [|exact Hrest].
    simpl. apply lookup_app_l_Some. exact He.
  - intros pk e He Hs. simpl in He.
    apply lookup_app_Some in He as [He|[_ He]].
    + exact (Happ pk e He Hs).
    + rewrite list.Forall_forall in Hnew.
      pose proof (Hnew e (list_elem_of_lookup_2 _ _ _ He)) as Hp.
      rewrite Hp in Hs. discriminate.
Qed.

Lemma change_ledger (strict posting rejecting : bool) (d d' : db) :
  change strict posting rejecting d d' -> Inv.ledger_derived d -> Inv.ledger_derived d'.
Proof.
  intros Hch Hinv.
  destruct Hch as [d a|d pk a a' Ha Hs|d pk a b Ha|d|d e a Hg Hs Ha Hl
                  |d e1 e2 a1 a2 Hg1 Hg2 Hs1 Hs2 Hm Ha1 Ha2 Hl Hr
                  |d pk e a _ He Hs Ha|d pk e _ He|d r];
    try exact Hinv.
  - apply ledger_derived_app; [repeat constructor; assumption | exact Hinv].
  - apply ledger_derived_app; [repeat constructor; assumption | exact Hinv].
  - destruct Hinv as (Hnd & Hrows & Happ).
    assert (Hfresh : forall row, row ∈ ledger d ->
              GeneralLedger.journal_entry row <> Some pk).
    { intros row Hrow Hj.
      destruct (Hrows row Hrow) as (pk' & e' & Hj' & He' & Hs' & _).
      rewrite Hj in Hj'. injection Hj' as <-.
      rewrite He in He'. injection He' as <-. contradiction. }
    split; [|split].
    + unfold Posting.posted. cbn [ledger].
      rewrite fmap_app. apply list.NoDup_app. split; [exact Hnd|]. split.
      * intros j Hj Hj'. apply list_elem_of_singleton in Hj'. subst j.
        apply list_elem_of_fmap in Hj as (row & Hj & Hrow).
        exact (Hfresh row Hrow (eq_sym Hj)).
      * apply list.NoDup_singleton.
    + intros row Hrow. simpl in Hrow.
      apply elem_of_app in Hrow as [Hrow|Hrow].
      * destruct (Hrows row Hrow) as (pk' & e' & Hj' & He' & Hrest).
        exists pk', e'. split; [exact Hj'|]. split; [|exact Hrest].
        simpl. rewrite list_lookup_insert_ne; [exact He'|].
        intros <-. exact (Hfresh row Hrow Hj').
      * apply list_elem_of_singleton in Hrow. subst row.
        exists pk, (JournalEntry.set_status "Approved" e). simpl.
        split; [reflexivity|]. split.
        -- apply list_lookup_insert_eq. eapply lookup_lt_Some, He.
        -- repeat split. discriminate.
    + intros k x Hx Hsx. simpl in Hx.
      apply list_lookup_insert_Some in Hx as [(-> & <- & _)|[Hne Hx]].
      * exists (Posting.ledger_row k e
                  (ChartOfAccounts.balance (Posting.account_after a e))).
        split; [|reflexivity]. unfold Posting.posted. cbn [ledger].
        apply elem_of_app. right. apply list_elem_of_singleton. reflexivity.
      * destruct (Happ k x Hx Hsx) as (row & Hrow & Hj).
        exists row. split; [|exact Hj]. simpl. apply elem_of_app. auto.
  - destruct Hinv as (Hnd & Hrows & Happ).
    split; [exact Hnd|]. split.
    + intros row Hrow.
      destruct (Hrows row Hrow) as (pk' & e' & Hj' & He' & Hs' & Hf).
      destruct (decide (pk = pk')) as [<-|Hne].
      * rewrite He in He'. injection He' as <-.
        exists pk, (JournalEntry.set_status "Rejected" e). simpl.
        split; [exact Hj'|]. split.
        -- apply list_lookup_insert_eq. eapply lookup_lt_Some, He.
        -- split; [discriminate | exact Hf].
      * exists pk', e'. split; [exact Hj'|]. split; [|auto].
        simpl. rewrite list_lookup_insert_ne by assumption. exact He'.
    + intros k x Hx Hsx. simpl in Hx.
      apply list_lookup_insert_Some in Hx as [(-> & <- & _)|[Hne Hx]].
      * discriminate.
      * exact (Happ k x Hx Hsx).
Qed.

(** The ledger only grows. *)
Lemma change_ledger_prefix (strict posting rejecting : bool) (d d' : db) :
  change strict posting rejecting d d' -> ledger d `prefix_of` ledger d'.
Proof.
  intros Hch. destruct Hch; simpl; try reflexivity.
  apply prefix_app_r. reflexivity.
Qed.

Lemma changes_ledger_prefix (strict posting rejecting : bool) (d d' : db) :
  rtc (change strict posting rejecting) d d' -> ledger d `prefix_of` ledger d'.
Proof.
  induction 1 as [|d d1 d2 H1 _ IH]; [reflexivity|].
  etransitivity; [eapply change_ledger_prefix; exact H1 | exact IH].
Qed.

Lemma changes_invariants (strict posting rejecting : bool) (d d' : db) :
  rtc (change strict posting rejecting) d d' ->
  Inv.grouped d /\ Inv.totals_match d /\ Inv.ledger_derived d ->
  Inv.grouped d' /\ Inv.totals_match d' /\ Inv.ledger_derived d'.
Proof.
  induction 1 as [|d d1 d2 H1 _ IH]; [auto|].
  intros (Hg & Ht & Hl). apply IH. split; [|split].
  - eapply change_grouped; eassumption.
  - eapply change_totals; eassumption.
  - eapply change_ledger; eassumption.
Qed.

Lemma changes_sides (posting rejecting : bool) (d d' : db) :
  rtc (change true posting rejecting) d d' ->
  Inv.grouped d /\ Inv.sides_fixed d ->
  Inv.grouped d' /\ Inv.sides_fixed d'.
Proof.
  induction 1 as [|d d1 d2 H1 _ IH]; [auto|].
  intros (Hg & Hs). apply IH. split.
  - eapply change_grouped; eassumption.
  - eapply change_sides; eassumption.
Qed.

(** Without posting the ledger stays as it is. *)
Lemma changes_ledger_same (strict rejecting : bool) (d d' : db) :
  rtc (change strict false rejecting) d d' -> ledger d' = ledger d.
Proof.
  induction 1 as [|d d1 d2 H1 _ IH]; [reflexivity|].
  rewrite IH. destruct H1; try reflexivity. discriminate.
Qed.

(** ** Requests as sequences of changes *)

Section Reachability.

Variable Decimal : string -> option Qc.
Variable to_python : string -> option Date.
Variable quantize : Qc -> money.

Lemma serve_changes (strict posting rejecting : bool) (r : request)
    (p : list bool) (d : db) :
  (strict = true -> keeps_sides d r) ->
  (approves r -> posting = true) ->
  (rejects r -> rejecting = true) ->
  rtc (change strict posting rejecting) d (serve Decimal to_python quantize r p d).
Proof.
  intros Hkeep Hpost Hrej. unfold serve, view.
  destruct r as [req|req pk|req pk|req pk|req|req].
  - apply (add_account_changes strict posting rejecting req (mk_world p d [])).
  - apply (edit_account_changes strict posting rejecting req pk (mk_world p d [])).
    intros Hs a a' Ha Hf. exact (Hkeep Hs a a' Ha Hf).
  - apply (deactivate_account_changes strict posting rejecting req pk (mk_world p d [])).
  - apply (activate_account_changes strict posting rejecting req pk (mk_world p d [])).
  - apply (add_journal_entry_changes Decimal to_python quantize strict posting rejecting req
             (mk_world p d [])).
  - apply (journal_entry_page_changes strict posting rejecting req (mk_world p d [])).
    + intros Hm Hb. apply Hpost. split; assumption.
    + intros Hm Hb. apply Hrej. split; assumption.
Qed.

Lemma empty_invariants :
  Inv.grouped empty_db /\ Inv.totals_match empty_db
  /\ Inv.ledger_derived empty_db /\ Inv.sides_fixed empty_db.
Proof.
  split; [|split; [|split]].
  - intros i e He. discriminate.
  - intros i j e1 e2 (_ & He & _). discriminate.
  - split; [constructor|]. split.
    + intros row Hrow. apply elem_of_nil in Hrow. contradiction.
    + intros pk e He. discriminate.
  - intros i j e1 e2 (_ & He & _). discriminate.
Qed.

Lemma reachable_invariants (d : db) :
  reachable Decimal to_python quantize d ->
  Inv.grouped d /\ Inv.totals_match d /\ Inv.ledger_derived d.
Proof.
  induction 1 as [|r p d _ IH].
  - pose proof empty_invariants. tauto.
  - eapply changes_invariants; [|exact IH].
    apply (serve_changes false true true); [discriminate | reflexivity..].
Qed.

Lemma reachable_keeping_invariants (d : db) :
  reachable_keeping_sides Decimal to_python quantize d ->
  Inv.grouped d /\ Inv.sides_fixed d.
Proof.
  induction 1 as [|r p d _ IH Hkeep].
  - pose proof empty_invariants. tauto.
  - eapply changes_sides; [|exact IH].
    apply (serve_changes true true true); [intros _; exact Hkeep | reflexivity..].
Qed.

End Reachability.

(** ** The claims about approval and the ledger *)

Lemma approve_pending_no_fault (d : db) (msgs : list message)
    (pk : nat) (e : JournalEntry.t) (a : ChartOfAccounts.t) :
  JournalEntry.status e = "Pending" ->
  accounts d !! JournalEntry.account e = Some a ->
  approve pk e (mk_world [] d msgs)
  = (ok (JournalEntry.set_status "Approved" e),
     mk_world [] (Posting.posted pk e a d) msgs).
Proof.
  intros Hs Ha. unfold approve. rewrite Hs. simpl.
  unfold atomic, mbind, M_bind, save_entry, save_account, related_account, write.
  simpl. rewrite Ha. reflexivity.
Qed.

(** C1.  Approving a Pending entry sets its status to Approved, adds its
    debit and credit to the running totals of its account and sets the
    balance of the account to initial balance + debit - credit; approving
    again, the same instance or any entry that is not Pending, changes
    nothing. *)
Theorem approve_posts_once (d : db) (msgs : list message) (pk : nat)
    (e : JournalEntry.t) (a : ChartOfAccounts.t) :
  entries d !! pk = Some e ->
  JournalEntry.status e = "Pending" ->
  accounts d !! JournalEntry.account e = Some a ->
  let e' := JournalEntry.set_status "Approved" e in
  exists a' d',
    approve pk e (mk_world [] d msgs) = (ok e', mk_world [] d' msgs)
    /\ JournalEntry.status e' = "Approved"
    /\ entries d' !! pk = Some e'
    /\ accounts d' !! JournalEntry.account e = Some a'
    /\ ChartOfAccounts.debit a' = ChartOfAccounts.debit a + JournalEntry.debit e
    /\ ChartOfAccounts.credit a' = ChartOfAccounts.credit a + JournalEntry.credit e
    /\ ChartOfAccounts.initial_balance a' = ChartOfAccounts.initial_balance a
    /\ ChartOfAccounts.balance a'
       = ChartOfAccounts.initial_balance a'
         + ChartOfAccounts.debit a' - ChartOfAccounts.credit a'
    /\ approve pk e' (mk_world [] d' msgs) = (ok e', mk_world [] d' msgs)
    /\ (forall k x w,
          JournalEntry.status x <> "Pending" -> approve k x w = (ok x, w)).
Proof.
  intros He Hs Ha e'.
  exists (Posting.account_after a e), (Posting.posted pk e a d).
  split; [apply approve_pending_no_fault; assumption|].
  split; [reflexivity|].
  split; [apply list_lookup_insert_eq; eapply lookup_lt_Some, He|].
  split; [apply list_lookup_insert_eq; eapply lookup_lt_Some, Ha|].
  do 4 (split; [reflexivity|]).
  split; [apply approve_not_pending; discriminate|].
  intros k x w. apply approve_not_pending.
Qed.

Lemma approve_posts_once_witness :
  exists a' d',
    approve 0 (Sample.entry1 "Pending") (mk_world [] Sample.submitted [])
    = (ok (Sample.entry1 "Approved"), mk_world [] d' [])
    /\ accounts d' !! 0%nat = Some a'
    /\ ChartOfAccounts.debit a' = 10000
    /\ ChartOfAccounts.balance a' = 10000
    /\ approve 0 (Sample.entry1 "Approved") (mk_world [] d' [])
       = (ok (Sample.entry1 "Approved"), mk_world [] d' []).
Proof.
  destruct (approve_posts_once Sample.submitted [] 0 (Sample.entry1 "Pending")
              Sample.cash_account eq_refl eq_refl eq_refl)
    as (a' & d' & H1 & _ & _ & H4 & H5 & H6 & H7 & H8 & H9 & _).
  exists a', d'. repeat split; try assumption.
  rewrite H8, H7, H5, H6. reflexivity.
Defined.

(** C4.  Approval is all or nothing.  Under any fault plan, approving a
    Pending entry either makes the three writes together (the entry is
    Approved, the totals and the balance of its account are updated, one
    ledger row is added), which happens when the account exists and none of
    the three writes is refused, or raises and leaves the database exactly
    as it was. *)
Theorem approve_is_atomic (p : list bool) (d : db) (msgs : list message)
    (pk : nat) (e : JournalEntry.t) :
  entries d !! pk = Some e ->
  JournalEntry.status e = "Pending" ->
  let r := approve pk e (mk_world p d msgs) in
  (exists a,
     accounts d !! JournalEntry.account e = Some a
     /\ Posting.refuses 3 p = false
     /\ r.1 = ok (JournalEntry.set_status "Approved" e)
     /\ entries (store r.2) = <[pk := JournalEntry.set_status "Approved" e]> (entries d)
     /\ accounts (store r.2)
        = <[JournalEntry.account e := Posting.account_after a e]> (accounts d)
     /\ ledger (store r.2)
        = ledger d
          ++ [Posting.ledger_row pk e
                (ChartOfAccounts.balance (Posting.account_after a e))]
     /\ groups (store r.2) = groups d)
  \/ (exists exn,
        (accounts d !! JournalEntry.account e = None \/ Posting.refuses 3 p = true)
        /\ r.1 = raised exn
        /\ store r.2 = d).
Proof.
  intros He Hs r. subst r.
  destruct (accounts d !! JournalEntry.account e) as [a|] eqn:Ha.
  - destruct (approve_pending p d msgs pk e a Hs Ha) as [p' ->].
    destruct (Posting.refuses 3 p) eqn:Hp; simpl.
    + right. exists "DatabaseError". auto.
    + left. exists a. repeat split.
  - destruct (approve_pending_dangling p d msgs pk e Hs Ha) as (exn & p' & ->).
    right. exists exn. auto.
Qed.

(** The ledger insert is refused: the entry and the account, already
    written, are put back. *)
Lemma approve_is_atomic_witness :
  store (approve 0 (Sample.entry1 "Pending")
           (mk_world [false; false; true] Sample.submitted [])).2
  = Sample.submitted.
Proof.
  destruct (approve_is_atomic [false; false; true] Sample.submitted [] 0
              (Sample.entry1 "Pending") eq_refl eq_refl)
    as [(a & _ & Hp & _)|(exn & _ & _ & Hd)].
  - discriminate Hp.
  - exact Hd.
Defined.

Section LedgerClaims.

Variable Decimal : string -> option Qc.
Variable to_python : string -> option Date.
Variable quantize : Qc -> money.

(** C5.  The general ledger is derived, approval-triggered and append-only.
    (1) Approving a Pending entry adds exactly one row, which carries the
    identifier, debit and credit of the entry and the balance of its account
    as the approval leaves it; [approve] on any other entry adds none.
    (2) Every request leaves the old rows in place, in order, at the head of
    the ledger; a request that is not an approval leaves the ledger as it
    is.  (3) In every reachable database no two rows belong to the same
    entry, every row carries the debit and credit of an entry that is no
    longer Pending, and every Approved entry has its row. *)
Theorem ledger_is_derived_append_only :
  (forall d msgs pk e a,
     entries d !! pk = Some e ->
     JournalEntry.status e = "Pending" ->
     accounts d !! JournalEntry.account e = Some a ->
     exists d' row a',
       (approve pk e (mk_world [] d msgs)).2 = mk_world [] d' msgs
       /\ ledger d' = ledger d ++ [row]
       /\ GeneralLedger.journal_entry row = Some pk
       /\ GeneralLedger.account row = JournalEntry.account e
       /\ GeneralLedger.debit row = JournalEntry.debit e
       /\ GeneralLedger.credit row = JournalEntry.credit e
       /\ accounts d' !! JournalEntry.account e = Some a'
       /\ GeneralLedger.balance row = ChartOfAccounts.balance a')
  /\ (forall pk e w,
        JournalEntry.status e <> "Pending" ->
        ledger (store (approve pk e w).2) = ledger (store w))
  /\ (forall r p d,
        ledger d `prefix_of` ledger (serve Decimal to_python quantize r p d))
  /\ (forall r p d,
        ~ approves r ->
        ledger (serve Decimal to_python quantize r p d) = ledger d)
  /\ (forall d,
        reachable Decimal to_python quantize d -> Inv.ledger_derived d).
Proof.
  split; [|split; [|split; [|split]]].
  - intros d msgs pk e a He Hs Ha.
    exists (Posting.posted pk e a d),
           (Posting.ledger_row pk e
              (ChartOfAccounts.balance (Posting.account_after a e))),
           (Posting.account_after a e).
    rewrite (approve_pending_no_fault d msgs pk e a Hs Ha).
    repeat split.
    apply list_lookup_insert_eq. eapply lookup_lt_Some, Ha.
  - intros pk e w Hs. rewrite approve_not_pending by assumption. reflexivity.
  - intros r p d. eapply changes_ledger_prefix.
    apply (serve_changes Decimal to_python quantize false true true);
      [discriminate | reflexivity..].
  - intros r p d Hna. eapply changes_ledger_same.
    apply (serve_changes Decimal to_python quantize false false true);
      [discriminate | intros H; contradiction | reflexivity].
  - intros d Hd. apply (reachable_invariants Decimal to_python quantize d Hd).
Qed.

(** C3, as amended.  In every reachable database the two entries of a
    group, approved or not, have matching totals: the debit of the first is
    the credit of the second.  Their accounts have the normal sides Left and
    Right, in that order, in every database reached without editing the
    normal side of an account. *)
Theorem pairs_match_and_sides_last (d : db) (i j : nat)
    (e1 e2 : JournalEntry.t) :
  reachable Decimal to_python quantize d ->
  Pairs.pair d i j e1 e2 ->
  Pairs.matching_totals e1 e2
  /\ (reachable_keeping_sides Decimal to_python quantize d ->
      Pairs.sides d e1 e2 "Left" "Right").
Proof.
  intros Hd Hp. split.
  - destruct (reachable_invariants Decimal to_python quantize d Hd) as (_ & Ht & _).
    exact (Ht i j e1 e2 Hp).
  - intros Hk.
    destruct (reachable_keeping_invariants Decimal to_python quantize d Hk)
      as (_ & Hs).
    exact (Hs i j e1 e2 Hp).
Qed.

End LedgerClaims.

Lemma sample_reachable :
  reachable plain_decimal iso_date half_even_cents Sample.approved
  /\ reachable_keeping_sides plain_decimal iso_date half_even_cents Sample.approved
  /\ reachable plain_decimal iso_date half_even_cents Sample.edited.
Proof.
  unfold Sample.edited, Sample.approved, Sample.submitted, Sample.opened,
    Sample.run.
  split; [|split].
  - repeat apply reachable_serve. apply reachable_empty.
  - repeat (apply keeping_serve; [|exact I]). apply keeping_empty.
  - repeat apply reachable_serve. apply reachable_empty.
Qed.

Lemma pairs_match_and_sides_last_witness :
  Pairs.matching_totals (Sample.entry1 "Approved") (Sample.entry2 "Approved")
  /\ Pairs.sides Sample.approved
       (Sample.entry1 "Approved") (Sample.entry2 "Approved") "Left" "Right".
Proof.
  destruct (pairs_match_and_sides_last plain_decimal iso_date half_even_cents
              Sample.approved 0 1
              (Sample.entry1 "Approved") (Sample.entry2 "Approved")
              (proj1 sample_reachable))
    as [Hm Hs].
  - vm_compute. repeat split; try lia. eexists; reflexivity.
  - split; [exact Hm | exact (Hs (proj1 (proj2 sample_reachable)))].
Defined.

(** C3, as stated, fails: after the approved pair of the sample books, the
    cash account is edited to the normal side Right; the database is
    reachable and both accounts of the approved pair are on the right. *)
Lemma edited_account_breaks_sides :
  reachable plain_decimal iso_date half_even_cents Sample.edited
  /\ ~ Pairs.approved_pairs_balanced Sample.edited.
Proof.
  split; [apply sample_reachable|].
  intros H.
  destruct (H 0%nat 1%nat (Sample.entry1 "Approved") (Sample.entry2 "Approved"))
    as [_ [Hs|Hs]].
  - vm_compute. repeat split; try lia. eexists; reflexivity.
  - reflexivity.
  - reflexivity.
  - destruct Hs as (a1 & a2 & Ha1 & _ & Hl & _).
    vm_compute in Ha1. injection Ha1 as <-. discriminate Hl.
  - destruct Hs as (a1 & a2 & _ & Ha2 & _ & Hl).
    vm_compute in Ha2. injection Ha2 as <-. discriminate Hl.
Qed.

(** C2.  Approval can be undone: the reject button of the journal entry page
    sets Rejected on every entry of the group, approved or not.  On the
    sample books the approved pair becomes Rejected while the totals of the
    accounts and the two ledger rows written by the approval stay. *)
Theorem reject_overwrites_approval :
  entries Sample.approved
  = [Sample.entry1 "Approved"; Sample.entry2 "Approved"]
  /\ entries Sample.rejected
     = [Sample.entry1 "Rejected"; Sample.entry2 "Rejected"]
  /\ accounts Sample.rejected = accounts Sample.approved
  /\ ledger Sample.rejected = ledger Sample.approved
  /\ GeneralLedger.journal_entry <$> ledger Sample.rejected
     = [Some 0%nat; Some 1%nat].
Proof. vm_compute. repeat split. Qed.

(** C6.  The checks listed in the docstring all pass and yet no pair is
    created: without [date1] the view creates the group, fails on the first
    entry and ends in an unhandled error, leaving a group without entries
    and no message; without [date2] it leaves a group with one entry.  With
    both dates the same request creates the group and the two Pending
    entries.  An amount that is not a number ends the request before any
    check, also without a message. *)
Theorem missing_date_leaves_group_without_pair :
  let view req :=
    add_journal_entry plain_decimal iso_date half_even_cents req
      (mk_world [] Sample.opened []) in
  let no_date1 := view (Sample.submit None) in
  let no_date2 :=
    view (mk_entry_request "POST" (Some "Cash") (Some "100.00")
            (Some "2024-03-01") (Some "Bank Loan") (Some "100.00") None) in
  let complete := view (Sample.submit (Some "2024-03-01")) in
  let not_a_number :=
    view (mk_entry_request "POST" (Some "Cash") (Some "abc")
            (Some "2024-03-01") (Some "Bank Loan") (Some "100.00")
            (Some "2024-03-01")) in
  (no_date1.1 = raised "IntegrityError"
   /\ flash no_date1.2 = []
   /\ groups (store no_date1.2) = 1%nat
   /\ entries (store no_date1.2) = [])
  /\ (no_date2.1 = raised "IntegrityError"
      /\ flash no_date2.2 = []
      /\ groups (store no_date2.2) = 1%nat
      /\ entries (store no_date2.2) = [Sample.entry1 "Pending"])
  /\ (complete.1 = ok (redirect "journal_entry_page")
      /\ groups (store complete.2) = 1%nat
      /\ entries (store complete.2)
         = [Sample.entry1 "Pending"; Sample.entry2 "Pending"])
  /\ (not_a_number.1 = raised "decimal.InvalidOperation"
      /\ flash not_a_number.2 = []
      /\ store not_a_number.2 = Sample.opened).
Proof. vm_compute. repeat split. Qed.


(** ** Statuses that no longer change *)

(** Without a rejection, an entry that is no longer Pending stays as it
    is. *)
Lemma change_keeps_settled (strict posting : bool) (d d' : db) (k : nat)
    (x : JournalEntry.t) :
  change strict posting false d d' ->
  entries d !! k = Some x ->
  JournalEntry.status x <> "Pending" ->
  entries d' !! k = Some x.
Proof.
  intros Hch Hx Hs.
  destruct Hch as [d a|d pk a a' Ha Hside|d pk a b Ha|d|d e a Hg Hse Ha Hl
                  |d e1 e2 a1 a2 Hg1 Hg2 Hs1 Hs2 Hm Ha1 Ha2 Hl Hr
                  |d pk e a _ He Hse Ha|d pk e Hrej He|d r];
    simpl; try exact Hx.
  - apply lookup_app_l_Some. exact Hx.
  - apply lookup_app_l_Some. exact Hx.
  - rewrite list_lookup_insert_ne; [exact Hx|].
    intros <-. rewrite He in Hx. injection Hx as <-. contradiction.
  - discriminate Hrej.
Qed.

Lemma changes_keep_settled (strict posting : bool) (d d' : db) (k : nat)
    (x : JournalEntry.t) :
  rtc (change strict posting false) d d' ->
  entries d !! k = Some x ->
  JournalEntry.status x <> "Pending" ->
  entries d' !! k = Some x.
Proof.
  induction 1 as [|d d1 d2 H1 _ IH]; [auto|].
  intros Hx Hs. apply IH; [|exact Hs].
  eapply change_keeps_settled; eassumption.
Qed.


(** ** add_journal_entry, check by check *)

Lemma names_unique_lookup (d : db) (i j : nat) (x y : ChartOfAccounts.t) :
  Entry.names_unique d ->
  accounts d !! i = Some x -> accounts d !! j = Some y ->
  ChartOfAccounts.account_name x = ChartOfAccounts.account_name y ->
  i = j.
Proof.
  intros Hnd Hx Hy Hn.
  eapply NoDup_lookup; [exact Hnd| |].
  - rewrite list_lookup_fmap, Hx. reflexivity.
  - rewrite list_lookup_fmap, Hy. simpl. congruence.
Qed.

Lemma with_pk_NoDup {A} (t : list A) : NoDup (with_pk t).
Proof.
  eapply NoDup_fmap_1 with (f := fst). rewrite with_pk_fst. apply NoDup_seq.
Qed.

Lemma list_filter_NoDup {A} (p : A -> bool) (l : list A) :
  NoDup l -> NoDup (List.filter p l).
Proof.
  induction l as [|x l IH]; [auto|].
  rewrite list.NoDup_cons. intros [Hx Hl]. cbn [List.filter].
  destruct (p x); [|auto]. apply list.NoDup_cons. split; [|auto].
  intros Hin. apply list_filter_elem in Hin as [Hin _]. contradiction.
Qed.

(** Under the unique constraint a name selects its row or nothing. *)
Lemma filter_name_unique (name : option string) (d : db)
    (r : nat * ChartOfAccounts.t) :
  Entry.names_unique d ->
  accounts d !! r.1 = Some r.2 ->
  Some (ChartOfAccounts.account_name r.2) = name ->
  List.filter
    (fun r => bool_decide (Some (ChartOfAccounts.account_name r.2) = name))
    (with_pk (accounts d))
  = [r].
Proof.
  intros Hnd Hr Hn.
  set (p := fun r : nat * ChartOfAccounts.t =>
              bool_decide (Some (ChartOfAccounts.account_name r.2) = name)).
  assert (Hin : r ∈ List.filter p (with_pk (accounts d))).
  { apply list_filter_elem. split; [apply with_pk_elem, Hr|].
    unfold p. apply bool_decide_eq_true. exact Hn. }
  assert (Hall : forall r', r' ∈ List.filter p (with_pk (accounts d)) -> r' = r).
  { intros r' Hr'. apply list_filter_elem in Hr' as [Hr' Hp].
    apply with_pk_elem in Hr'. unfold p in Hp. apply bool_decide_eq_true in Hp.
    assert (Hi : r'.1 = r.1).
    { eapply names_unique_lookup; eauto. congruence. }
    destruct r as [i x], r' as [j y]. simpl in *. subst j. congruence. }
  pose proof (list_filter_NoDup p _ (with_pk_NoDup (accounts d))) as Hnodup.
  destruct (List.filter p (with_pk (accounts d))) as [|r1 [|r2 l]].
  - apply elem_of_nil in Hin. contradiction.
  - apply list_elem_of_singleton in Hin. congruence.
  - exfalso. apply list.NoDup_cons in Hnodup as [Hr1 _]. apply Hr1.
    rewrite (Hall r1) by apply list_elem_of_here.
    rewrite (Hall r2) by (apply list_elem_of_further, list_elem_of_here).
    apply list_elem_of_here.
Qed.

Lemma filter_name_none (name : option string) (d : db) :
  (forall r, accounts d !! r.1 = Some r.2 ->
             Some (ChartOfAccounts.account_name r.2) <> name) ->
  List.filter
    (fun r => bool_decide (Some (ChartOfAccounts.account_name r.2) = name))
    (with_pk (accounts d))
  = [].
Proof.
  intros Hnone.
  destruct (List.filter _ (with_pk (accounts d))) as [|r l] eqn:Hf; [reflexivity|].
  exfalso.
  assert (Hin : r ∈ List.filter
            (fun r => bool_decide (Some (ChartOfAccounts.account_name r.2) = name))
            (with_pk (accounts d)))
    by (rewrite Hf; apply list_elem_of_here).
  apply list_filter_elem in Hin as [Hin Hp].
  apply bool_decide_eq_true in Hp. apply with_pk_elem in Hin.
  exact (Hnone r Hin Hp).
Qed.

Section EntryChecks.

Variable Decimal : string -> option Qc.
Variable to_python : string -> option Date.
Variable quantize : Qc -> money.

Lemma decimal_of_present (v : option string) (q : Qc) (w : world) :
  v ≫= Decimal = Some q -> decimal_of Decimal v w = (ok q, w).
Proof.
  destruct v as [s|]; simpl; [|discriminate].
  unfold decimal_of. intros ->. reflexivity.
Qed.

Lemma get_account_by_name_unique (name : option string)
    (r : nat * ChartOfAccounts.t) (w : world) :
  Entry.names_unique (store w) ->
  accounts (store w) !! r.1 = Some r.2 ->
  Some (ChartOfAccounts.account_name r.2) = name ->
  get_account_by_name name w = (ok r, w).
Proof.
  intros Hnd Hr Hn. unfold get_account_by_name, mbind, M_bind, read. simpl.
  rewrite (filter_name_unique name (store w) r Hnd Hr Hn). reflexivity.
Qed.

(** When every check of the docstring passes and both dates are dates, the
    view creates one group and the two Pending entries, the first on
    account1 with the amount as debit, the second on account2 with the
    amount as credit, and redirects. *)
Theorem add_journal_entry_creates (req : entry_request) (d : db)
    (msgs : list message) (amount : Qc) (a1 a2 : nat * ChartOfAccounts.t)
    (day1 day2 : Date) :
  entry_method req = "POST" ->
  Entry.checks_pass Decimal req d amount a1 a2 ->
  Entry.names_unique d ->
  date1 req ≫= to_python = Some day1 ->
  date2 req ≫= to_python = Some day2 ->
  add_journal_entry Decimal to_python quantize req (mk_world [] d msgs)
  = (ok (redirect "journal_entry_page"),
     mk_world []
       (set_entries
          (fun t => t ++ Entry.pair_of quantize d amount a1 a2 day1 day2)
          (set_groups S d))
       msgs).
Proof.
  intros Hm (Hd & Hc & Hdq & Hcq & Hpos & Ha1 & Hn1 & Ha2 & Hn2 & Hl & Hr)
    Hnd Hday1 Hday2.
  unfold add_journal_entry. rewrite Hm, Hd, Hc. simpl.
  unfold mbind at 1, M_bind at 1. rewrite (decimal_of_present _ _ _ Hdq).
  unfold mbind at 1, M_bind at 1. rewrite (decimal_of_present _ _ _ Hcq).
  rewrite (bool_decide_eq_false_2 (amount ≤ 0)%Qc)
    by (apply Qclt_not_le; exact Hpos).
  rewrite (bool_decide_eq_true_2 (amount = amount)) by reflexivity. simpl.
  unfold try_except.
  unfold mbind at 1, M_bind at 1.
  rewrite (get_account_by_name_unique _ a1) by assumption.
  unfold mbind at 1, M_bind at 1.
  rewrite (get_account_by_name_unique _ a2) by assumption.
  rewrite Hl, Hr. simpl.
  unfold create_group, create_entry, mbind, M_bind, read, write. simpl.
  destruct (date1 req) as [s1|]; [|discriminate]. simpl in Hday1. rewrite Hday1.
  destruct (date2 req) as [s2|]; [|discriminate]. simpl in Hday2. rewrite Hday2.
  simpl. unfold set_entries, Entry.pair_of. simpl. rewrite <- app_assoc.
  reflexivity.
Qed.

(** When a check of the docstring fails (and the amounts, when present, are
    numbers), the view queues one error message, renders the form again and
    writes nothing. *)
Theorem add_journal_entry_rejects (req : entry_request) (p : list bool) (d : db)
    (msgs : list message) :
  entry_method req = "POST" ->
  Entry.names_unique d ->
  Entry.amounts_are_numbers Decimal req ->
  (forall amount a1 a2, ~ Entry.checks_pass Decimal req d amount a1 a2) ->
  exists text,
    add_journal_entry Decimal to_python quantize req (mk_world p d msgs)
    = (ok (render add_journal_entry_page),
       mk_world p d (msgs ++ [(error, text)])).
Proof.
  intros Hm Hnd Hnum Hfail. unfold add_journal_entry. rewrite Hm.
  destruct (truthy (debit1 req)) eqn:Hd; simpl; [|eexists; reflexivity].
  destruct (truthy (credit2 req)) eqn:Hc; simpl; [|eexists; reflexivity].
  destruct (Hnum Hd Hc) as [[dq Hdq] [cq Hcq]].
  unfold mbind at 1, M_bind at 1. rewrite (decimal_of_present _ _ _ Hdq).
  unfold mbind at 1, M_bind at 1. rewrite (decimal_of_present _ _ _ Hcq).
  destruct (decide (dq ≤ 0)%Qc) as [Hle|Hpos].
  { rewrite (bool_decide_eq_true_2 _ Hle). simpl. eexists; reflexivity. }
  rewrite (bool_decide_eq_false_2 _ Hpos). simpl.
  destruct (bool_decide (cq ≤ 0)%Qc); simpl; [eexists; reflexivity|].
  destruct (decide (dq = cq)) as [<-|Hne].
  2: { rewrite (bool_decide_eq_false_2 _ Hne). simpl. eexists; reflexivity. }
  rewrite (bool_decide_eq_true_2 (dq = dq)) by reflexivity. simpl.
  apply Qcnot_le_lt in Hpos.
  unfold try_except. unfold mbind at 1, M_bind at 1.
  unfold get_account_by_name at 1, mbind at 1, M_bind at 1, read at 1. simpl.
  destruct (List.filter _ (with_pk (accounts d))) as [|r1 l1] eqn:Hf1;
    [simpl; eexists; reflexivity|].
  assert (Hr1 : accounts d !! r1.1 = Some r1.2
                /\ Some (ChartOfAccounts.account_name r1.2) = account1 req).
  { assert (Hin : r1 ∈ r1 :: l1) by apply list_elem_of_here.
    rewrite <- Hf1 in Hin. apply list_filter_elem in Hin as [Hin Hp].
    split; [apply with_pk_elem, Hin | apply bool_decide_eq_true in Hp; exact Hp]. }
  destruct Hr1 as [Ha1 Hn1].
  rewrite (filter_name_unique _ d r1 Hnd Ha1 Hn1) in Hf1.
  injection Hf1 as <-. simpl.
  unfold mbind at 1, M_bind at 1.
  unfold get_account_by_name at 1, mbind at 1, M_bind at 1, read at 1. simpl.
  destruct (List.filter _ (with_pk (accounts d))) as [|r2 l2] eqn:Hf2;
    [simpl; eexists; reflexivity|].
  assert (Hr2 : accounts d !! r2.1 = Some r2.2
                /\ Some (ChartOfAccounts.account_name r2.2) = account2 req).
  { assert (Hin : r2 ∈ r2 :: l2) by apply list_elem_of_here.
    rewrite <- Hf2 in Hin. apply list_filter_elem in Hin as [Hin Hp].
    split; [apply with_pk_elem, Hin | apply bool_decide_eq_true in Hp; exact Hp]. }
  destruct Hr2 as [Ha2 Hn2].
  rewrite (filter_name_unique _ d r2 Hnd Ha2 Hn2) in Hf2.
  injection Hf2 as <-. simpl.
  destruct (String.eqb_spec (ChartOfAccounts.normal_side r1.2) "Left") as [Hl|];
    simpl; [|eexists; reflexivity].
  destruct (String.eqb_spec (ChartOfAccounts.normal_side r2.2) "Right") as [Hr|];
    simpl; [|eexists; reflexivity].
  exfalso. apply (Hfail dq r1 r2). unfold Entry.checks_pass. auto 12.
Qed.

(** The view writes to the database only when every check of the docstring
    passes, whatever the dates and the fault plan. *)
Theorem add_journal_entry_writes_only_if (req : entry_request) (w : world) :
  store (add_journal_entry Decimal to_python quantize req w).2 <> store w ->
  entry_method req = "POST"
  /\ exists amount a1 a2,
       Entry.checks_pass Decimal req (store w) amount a1 a2.
Proof.
  unfold add_journal_entry.
  destruct (String.eqb_spec (entry_method req) "POST") as [Hm|];
    [|intros H; contradiction H; reflexivity].
  destruct (truthy (debit1 req)) eqn:Hd; simpl;
    [|intros H; contradiction H; reflexivity].
  destruct (truthy (credit2 req)) eqn:Hc; simpl;
    [|intros H; contradiction H; reflexivity].
  unfold mbind at 1, M_bind at 1.
  destruct (debit1 req ≫= Decimal) as [dq|] eqn:Hdq.
  2: { destruct (debit1 req) as [s|]; [|discriminate]. simpl in Hdq.
       unfold decimal_of. rewrite Hdq. intros H; contradiction H; reflexivity. }
  rewrite (decimal_of_present _ _ _ Hdq).
  unfold mbind at 1, M_bind at 1.
  destruct (credit2 req ≫= Decimal) as [cq|] eqn:Hcq.
  2: { destruct (credit2 req) as [s|]; [|discriminate]. simpl in Hcq.
       unfold decimal_of. rewrite Hcq. intros H; contradiction H; reflexivity. }
  rewrite (decimal_of_present _ _ _ Hcq).
  destruct (decide (dq ≤ 0)%Qc) as [Hle|Hpos].
  { rewrite (bool_decide_eq_true_2 _ Hle). simpl.
    intros H; contradiction H; reflexivity. }
  rewrite (bool_decide_eq_false_2 _ Hpos). simpl.
  destruct (bool_decide (cq ≤ 0)%Qc); simpl;
    [intros H; contradiction H; reflexivity|].
  destruct (decide (dq = cq)) as [<-|Hne].
  2: { rewrite (bool_decide_eq_false_2 _ Hne). simpl.
       intros H; contradiction H; reflexivity. }
  rewrite (bool_decide_eq_true_2 (dq = dq)) by reflexivity. simpl.
  apply Qcnot_le_lt in Hpos.
  intros Hchanged. split; [exact Hm|]. revert Hchanged.
  unfold try_except. unfold mbind at 1, M_bind at 1.
  destruct (get_account_by_name_cases (account1 req) w)
    as [[exn ->]|(a1 & -> & Ha1 & Hn1)].
  { destruct (String.eqb exn _); intros H; contradiction H; reflexivity. }
  unfold mbind at 1, M_bind at 1.
  destruct (get_account_by_name_cases (account2 req) w)
    as [[exn ->]|(a2 & -> & Ha2 & Hn2)].
  { destruct (String.eqb exn _); intros H; contradiction H; reflexivity. }
  destruct (String.eqb_spec (ChartOfAccounts.normal_side a1.2) "Left") as [Hl|];
    simpl; [|intros H; contradiction H; reflexivity].
  destruct (String.eqb_spec (ChartOfAccounts.normal_side a2.2) "Right") as [Hr|];
    simpl; [|intros H; contradiction H; reflexivity].
  intros _. exists dq, a1, a2. unfold Entry.checks_pass. auto 12.
Qed.

End EntryChecks.

Lemma sample_amount : plain_decimal "100.00" = Some (Q2Qc 100).
Proof. vm_compute. f_equal. apply Qc_is_canon. reflexivity. Qed.

Lemma sample_checks_pass (date1 : option string) :
  Entry.checks_pass plain_decimal (Sample.submit date1)
    Sample.opened (Q2Qc 100) (0%nat, Sample.cash_account)
    (1%nat, Sample.loan_account).
Proof.
  unfold Entry.checks_pass.
  repeat split; try reflexivity; exact sample_amount.
Qed.

Lemma sample_names_unique : Entry.names_unique Sample.opened.
Proof.
  unfold Entry.names_unique. vm_compute.
  apply list.NoDup_cons. split; [|apply list.NoDup_singleton].
  intros H. apply list_elem_of_singleton in H. discriminate H.
Qed.

Lemma add_journal_entry_creates_witness :
  entries
    (store
       (add_journal_entry plain_decimal iso_date half_even_cents
          (Sample.submit (Some "2024-03-01")) (mk_world [] Sample.opened [])).2)
  = [Sample.entry1 "Pending"; Sample.entry2 "Pending"].
Proof.
  rewrite (add_journal_entry_creates plain_decimal iso_date half_even_cents
             (Sample.submit (Some "2024-03-01")) Sample.opened [] (Q2Qc 100)
             (0%nat, Sample.cash_account) (1%nat, Sample.loan_account)
             738946 738946 eq_refl (sample_checks_pass _) sample_names_unique
             eq_refl eq_refl).
  reflexivity.
Defined.

Lemma add_journal_entry_rejects_witness :
  exists text,
    add_journal_entry plain_decimal iso_date half_even_cents
      (mk_entry_request "POST" (Some "Cash") (Some "100.00") (Some "2024-03-01")
         (Some "Bank Loan") (Some "90.00") (Some "2024-03-01"))
      (mk_world [] Sample.opened [])
    = (ok (render add_journal_entry_page),
       mk_world [] Sample.opened [(error, text)]).
Proof.
  apply (add_journal_entry_rejects plain_decimal iso_date half_even_cents
           (mk_entry_request "POST" (Some "Cash") (Some "100.00")
              (Some "2024-03-01") (Some "Bank Loan") (Some "90.00")
              (Some "2024-03-01"))
           [] Sample.opened []).
  - reflexivity.
  - exact sample_names_unique.
  - intros _ _. split; eexists; reflexivity.
  - intros amount a1 a2 (_ & _ & Hd & Hc & _).
    simpl in Hd, Hc. rewrite <- Hd in Hc. vm_compute in Hc.
    discriminate Hc.
Defined.

Lemma add_journal_entry_writes_only_if_witness :
  exists amount a1 a2,
    Entry.checks_pass plain_decimal (Sample.submit None) Sample.opened
      amount a1 a2.
Proof.
  apply (add_journal_entry_writes_only_if plain_decimal iso_date half_even_cents
           (Sample.submit None) (mk_world [] Sample.opened [])).
  vm_compute. discriminate.
Defined.

(** ** Further properties of the login, the ratios and the journal page *)

Lemma authenticate_wrong (us : gmap string CustomUser.t) (name : string)
    (pw : option string) (user : CustomUser.t) :
  us !! name = Some user ->
  pw <> Some (CustomUser.password user) ->
  Login.authenticate us (Some name) pw = None.
Proof.
  intros Hu Hpw. unfold Login.authenticate.
  destruct pw as [p|]; [|reflexivity]. rewrite Hu. cbv beta iota.
  destruct (String.eqb_spec (CustomUser.password user) p) as [Heq|];
    [congruence | reflexivity].
Qed.

(** A wrong password for an existing user, below the threshold: the stored
    counter of failed attempts is one more than before. *)
Theorem wrong_password_is_counted (today : Date) (req : Login.request)
    (st : Login.site) (name : string) (user : CustomUser.t) :
  Login.method req = "POST" ->
  Login.post_username req = Some name ->
  Login.users st !! name = Some user ->
  CustomUser.username user = name ->
  Login.post_password req <> Some (CustomUser.password user) ->
  CustomUser.failed_login_attempts user + 1 < 5 ->
  exists stored,
    Login.users (Login.login_user today req st).1 !! name = Some stored
    /\ CustomUser.failed_login_attempts stored
       = CustomUser.failed_login_attempts user + 1.
Proof.
  intros Hm Hn Hu Hname Hpw Hlt.
  apply failed_login_counts with (user := user); try assumption.
  apply authenticate_wrong with (user := user); assumption.
Qed.

Lemma wrong_password_is_counted_witness :
  exists stored,
    Login.users
      (Login.login_user 100 Sample.bad_login
         (Login.mk_site
            {["alice" := CustomUser.set_failed_login_attempts 2 Sample.alice]}
            None [])).1 !! "alice" = Some stored
    /\ CustomUser.failed_login_attempts stored = 3.
Proof.
  apply (wrong_password_is_counted 100 Sample.bad_login
           (Login.mk_site
              {["alice" := CustomUser.set_failed_login_attempts 2 Sample.alice]}
              None [])
           "alice" (CustomUser.set_failed_login_attempts 2 Sample.alice)).
  - reflexivity.
  - reflexivity.
  - reflexivity.
  - reflexivity.
  - discriminate.
  - reflexivity.
Defined.

(** A wrong password that brings the counter to 5 or more: the counter is
    stored as 0, and the user is stored as suspended exactly when both
    suspension dates are set and today lies between them. *)
Theorem threshold_suspends_within_window_only (today : Date)
    (req : Login.request) (st : Login.site) (name : string)
    (user : CustomUser.t) :
  Login.method req = "POST" ->
  Login.post_username req = Some name ->
  Login.users st !! name = Some user ->
  CustomUser.username user = name ->
  Login.post_password req <> Some (CustomUser.password user) ->
  5 <= CustomUser.failed_login_attempts user + 1 ->
  exists stored,
    Login.users (Login.login_user today req st).1 !! name = Some stored
    /\ CustomUser.failed_login_attempts stored = 0
    /\ (CustomUser.is_suspended stored = true <->
        exists s e,
          CustomUser.suspension_start_date user = Some s
          /\ CustomUser.suspension_end_date user = Some e
          /\ s <= today <= e).
Proof.
  intros Hm Hn Hu Hname Hpw Hge.
  destruct (failed_login_threshold today req st name user Hm Hn Hu Hname
              (authenticate_wrong _ _ _ _ Hu Hpw) Hge)
    as (stored & Hst & Hz & Hs).
  exists stored. split; [exact Hst|]. split; [exact Hz|].
  rewrite Hs.
  destruct (CustomUser.suspension_start_date user) as [s|],
           (CustomUser.suspension_end_date user) as [e|].
  - rewrite within_spec. split.
    + intros H. exists s, e. auto.
    + intros (s' & e' & Hs' & He' & H). congruence.
  - split; [discriminate | intros (? & ? & ? & ? & _); discriminate].
  - split; [discriminate | intros (? & ? & ? & ? & _); discriminate].
  - split; [discriminate | intros (? & ? & ? & ? & _); discriminate].
Qed.

Lemma threshold_suspends_within_window_only_witness :
  exists stored,
    Login.users (Login.login_user 100 Sample.bad_login Sample.site).1 !! "alice"
    = Some stored
    /\ CustomUser.failed_login_attempts stored = 0
    /\ CustomUser.is_suspended stored <> true.
Proof.
  destruct (threshold_suspends_within_window_only 100 Sample.bad_login
              Sample.site "alice" Sample.alice)
    as (stored & Hst & Hz & Hs).
  - reflexivity.
  - reflexivity.
  - reflexivity.
  - reflexivity.
  - discriminate.
  - discriminate.
  - exists stored. split; [exact Hst|]. split; [exact Hz|].
    intros H. apply Hs in H as (s & e & Hstart & _). discriminate Hstart.
Defined.

Lemma refresh_username (today : Date) (user : CustomUser.t)
    (us : gmap string CustomUser.t) :
  CustomUser.username (Login.refresh_suspension today user us).1
  = CustomUser.username user.
Proof.
  unfold Login.refresh_suspension.
  destruct (CustomUser.suspension_start_date user) as [s|]; [|reflexivity].
  destruct (CustomUser.suspension_end_date user) as [e|]; [|reflexivity].
  unfold CustomUser.save. simpl. rewrite clean_username.
  destruct (CustomUser.within s today e); [reflexivity|].
  destruct (e <? today); reflexivity.
Qed.

(** A login with the right password that finds the user not suspended: the
    user is logged in and the counter of failed attempts is stored as 0. *)
Theorem good_password_resets_counter (today : Date) (req : Login.request)
    (st : Login.site) (name : string) (user : CustomUser.t) :
  Login.method req = "POST" ->
  Login.post_username req = Some name ->
  Login.users st !! name = Some user ->
  CustomUser.username user = name ->
  Login.post_password req = Some (CustomUser.password user) ->
  CustomUser.is_active user = true ->
  CustomUser.is_suspended
    (Login.refresh_suspension today user (Login.users st)).1 = false ->
  exists stored,
    Login.users (Login.login_user today req st).1 !! name = Some stored
    /\ CustomUser.failed_login_attempts stored = 0
    /\ Login.session_user (Login.login_user today req st).1 = Some name
    /\ (Login.login_user today req st).2 = redirect "home".
Proof.
  intros Hm Hn Hu Hname Hpw Hact Hfree.
  unfold Login.login_user. rewrite Hm, Hn, Hpw. simpl. rewrite Hu.
  rewrite String.eqb_refl, Hact. simpl.
  pose proof (refresh_username today user (Login.users st)) as Hrn.
  destruct (Login.refresh_suspension today user (Login.users st)) as [user' us].
  simpl in Hfree, Hrn. rewrite Hfree. simpl.
  rewrite clean_username. simpl. rewrite Hrn, Hname.
  eexists. split; [apply lookup_insert_eq|].
  split; [|split; reflexivity].
  unfold CustomUser.clean. simpl. rewrite Hfree. reflexivity.
Qed.

Lemma good_password_resets_counter_witness :
  exists stored,
    Login.users (Login.login_user 100 Sample.good_login Sample.site).1 !! "alice"
    = Some stored
    /\ CustomUser.failed_login_attempts stored = 0.
Proof.
  destruct (good_password_resets_counter 100 Sample.good_login Sample.site
              "alice" Sample.alice eq_refl eq_refl eq_refl eq_refl eq_refl
              eq_refl eq_refl)
    as (stored & Hst & Hz & _).
  exists stored. auto.
Defined.

(** [calculate_ratios] raises exactly when the assets and the liabilities
    add up to something and the equity to nothing; on every other chart it
    returns its dictionary. *)
Theorem calculate_ratios_raises_exactly (accounts : list ChartOfAccounts.t) :
  let t := fold_left Ratios.assign accounts Ratios.initial in
  if negb (Ratios.total_assets t =? 0) && negb (Ratios.total_liabilities t =? 0)
     && (Ratios.shareholder_equity t =? 0)
  then Ratios.calculate_ratios accounts = raised "decimal.DivisionByZero"
  else exists ratios, Ratios.calculate_ratios accounts = ok ratios.
Proof. exact (calculate_ratios_cases accounts). Qed.

Section Settled.

Variable Decimal : string -> option Qc.
Variable to_python : string -> option Date.
Variable quantize : Qc -> money.

(** An entry that is no longer Pending (Approved, Rejected, Denied) is left
    as it is by every request except a press of the reject button. *)
Theorem settled_entries_change_by_reject_only (r : request) (p : list bool)
    (d : db) (k : nat) (x : JournalEntry.t) :
  entries d !! k = Some x ->
  JournalEntry.status x <> "Pending" ->
  ~ rejects r ->
  entries (serve Decimal to_python quantize r p d) !! k = Some x.
Proof.
  intros Hx Hs Hr.
  eapply (changes_keep_settled false true); [|exact Hx|exact Hs].
  apply serve_changes; [discriminate | reflexivity | intros H; contradiction].
Qed.

End Settled.

Lemma settled_entries_change_by_reject_only_witness :
  entries (Sample.run (JournalEntryPage (Sample.press approve_button))
             Sample.approved) !! 0%nat
  = Some (Sample.entry1 "Approved").
Proof.
  apply (settled_entries_change_by_reject_only plain_decimal iso_date
           half_even_cents (JournalEntryPage (Sample.press approve_button))
           [] Sample.approved 0 (Sample.entry1 "Approved")).
  - reflexivity.
  - discriminate.
  - intros [_ H]. discriminate H.
Defined.

(** ** Requests as sequences of detailed changes *)

Lemma step_change (whole : bool) (d d' : db) :
  step whole d d' -> change false true true d d'.
Proof.
  destruct 1.
  - apply change_add_account.
  - eapply change_edit_account; [eassumption | discriminate].
  - apply change_activation; assumption.
  - apply change_new_group.
  - eapply change_new_entry; eassumption.
  - eapply change_new_pair; eassumption.
  - apply change_post; auto.
  - apply change_reject; auto.
  - apply change_event.
Qed.

Lemma steps_changes (whole : bool) (d d' : db) :
  rtc (step whole) d d' -> rtc (change false true true) d d'.
Proof.
  induction 1 as [|d d1 d2 H1 _ IH]; [reflexivity|].
  eapply rtc_l; [eapply step_change; exact H1 | exact IH].
Qed.

Section PageSteps.

Variable whole : bool.

Lemma approve_body_steps (r : nat * JournalEntry.t) rows (w : world) :
  current (r :: rows) (store w) ->
  let w' := ((entry ← approve r.1 r.2;
              account ← related_account (JournalEntry.account entry);
              save_account (JournalEntry.account entry) account) w).2 in
  rtc (step whole) (store w) (store w') /\ current rows (store w').
Proof.
  intros Hcur. cbv zeta. rewrite approve_body_store.
  pose proof (proj2 Hcur r (list_elem_of_here _ _)) as Hr.
  destruct (approve_store r.1 r.2 w) as [->|(Hs & a & Ha & _ & ->)].
  - split; [reflexivity|]. eapply current_tail; [exact Hcur | reflexivity].
  - split.
    + apply rtc_once. apply step_post; assumption.
    + eapply current_tail; [exact Hcur|].
      intros pk Hpk. simpl. apply list_lookup_insert_ne. congruence.
Qed.

Lemma reject_body_steps (gid : option nat) (r : nat * JournalEntry.t) rows
    (w : world) :
  current (r :: rows) (store w) ->
  let w' := (add_comment gid ;;
             save_entry r.1 (JournalEntry.set_status "Rejected" r.2)) w in
  rtc (step whole) (store w) (store w'.2) /\ current rows (store w'.2).
Proof.
  intros Hcur. cbv zeta.
  pose proof (proj2 Hcur r (list_elem_of_here _ _)) as Hr.
  unfold mbind, M_bind.
  destruct (add_comment_store gid w) as [msgs ->].
  unfold save_entry, write. simpl.
  destruct (plan w) as [|[] p]; simpl.
  - split.
    + apply rtc_once. apply step_reject; assumption.
    + eapply current_tail; [exact Hcur|].
      intros pk Hpk. simpl. apply list_lookup_insert_ne. congruence.
  - split; [reflexivity|]. eapply current_tail; [exact Hcur | reflexivity].
  - split.
    + apply rtc_once. apply step_reject; assumption.
    + eapply current_tail; [exact Hcur|].
      intros pk Hpk. simpl. apply list_lookup_insert_ne. congruence.
Qed.

Lemma journal_entry_page_steps (req : page_request) (w : world) :
  rtc (step whole) (store w) (store (journal_entry_page req w).2).
Proof.
  unfold journal_entry_page.
  destruct (String.eqb_spec (page_method req) "POST") as [Hm|]; [|reflexivity].
  destruct (pressed req); unfold mbind at 1, M_bind at 1.
  - unfold mbind at 1, M_bind at 1.
    destruct (add_comment_store (group_id req) w) as [msgs ->].
    unfold mbind at 1, M_bind at 1, read at 1. simpl.
    match goal with
    | |- context [for_each ?rows ?body ?w0] =>
        pose proof (for_each_inv body (rtc (step whole)) current
                      (fun x xs w => approve_body_steps x xs w) rows w0
                      (filter_group_current _ _)) as Hloop;
        destruct (for_each rows body w0) as [[[]|exn] w1]
    end; exact Hloop.
  - unfold mbind at 1, M_bind at 1, read at 1. simpl.
    match goal with
    | |- context [for_each ?rows ?body ?w0] =>
        pose proof (for_each_inv body (rtc (step whole)) current
                      (fun x xs w => reject_body_steps (group_id req) x xs w)
                      rows w0
                      (filter_group_current _ _)) as Hloop;
        destruct (for_each rows body w0) as [[[]|exn] w1]
    end; exact Hloop.
  - reflexivity.
Qed.

Lemma add_account_steps (req : account_request) (w : world) :
  rtc (step whole) (store w) (store (add_account req w).2).
Proof.
  unfold add_account.
  destruct (is_superuser req); simpl; [|reflexivity].
  destruct (String.eqb (account_method req) "POST"); [|reflexivity].
  destruct (form req) as [a|]; [|reflexivity].
  unfold insert_account, mbind, M_bind, read, write, notify, raise. simpl.
  destruct (unique_account None a (accounts (store w))) eqn:Hfree; [|reflexivity].
  destruct (plan w) as [|[] p]; simpl;
    first [reflexivity | apply rtc_once, step_add_account; exact Hfree].
Qed.

Lemma edit_account_steps (req : account_request) (pk : nat) (w : world) :
  rtc (step whole) (store w) (store (edit_account req pk w).2).
Proof.
  unfold edit_account, get_object_or_404, mbind, M_bind.
  destruct (accounts (store w) !! pk) as [a|] eqn:Ha; [|reflexivity].
  destruct (String.eqb (account_method req) "POST"); [|reflexivity].
  destruct (form req) as [a'|] eqn:Hf; [|reflexivity].
  unfold update_account, save_account, create_event, mbind, M_bind, read,
    write, notify, raise.
  simpl.
  destruct (unique_account (Some pk) a' (accounts (store w))) eqn:Hfree;
    [|reflexivity].
  destruct (plan w) as [|[|] [|[|] p]]; simpl;
    first [reflexivity
          | apply rtc_once; eapply step_edit_account; [exact Ha | exact Hfree]
          | eapply rtc_l; [eapply step_edit_account; [exact Ha | exact Hfree]
                          | apply rtc_once, step_event]].
Qed.

Lemma deactivate_account_steps (req : account_request) (pk : nat) (w : world) :
  rtc (step whole) (store w) (store (deactivate_account req pk w).2).
Proof.
  unfold deactivate_account, get_object_or_404, mbind, M_bind.
  destruct (is_superuser req); simpl; [|reflexivity].
  destruct (accounts (store w) !! pk) as [a|] eqn:Ha; [|reflexivity].
  destruct (0 <? ChartOfAccounts.balance a); [reflexivity|].
  unfold save_account, create_event, write.
  destruct (plan w) as [|[|] [|[|] p]]; simpl;
    first [reflexivity
          | apply rtc_once, step_activation; exact Ha
          | eapply rtc_l; [apply step_activation; exact Ha
                          | apply rtc_once, step_event]].
Qed.

Lemma activate_account_steps (req : account_request) (pk : nat) (w : world) :
  rtc (step whole) (store w) (store (activate_account req pk w).2).
Proof.
  unfold activate_account, get_object_or_404, mbind, M_bind.
  destruct (is_superuser req); simpl; [|reflexivity].
  destruct (accounts (store w) !! pk) as [a|] eqn:Ha; [|reflexivity].
  unfold save_account, create_event, write.
  destruct (plan w) as [|[|] [|[|] p]]; simpl;
    first [reflexivity
          | apply rtc_once, step_activation; exact Ha
          | eapply rtc_l; [apply step_activation; exact Ha
                          | apply rtc_once, step_event]].
Qed.

End PageSteps.

Section EntrySteps.

Variable Decimal : string -> option Qc.
Variable to_python : string -> option Date.
Variable quantize : Qc -> money.

(** With no write refused, an entry is created exactly when its date is a
    date. *)
Lemma create_entry_no_fault (account : nat) (debit credit : money)
    (date : option string) (group : nat) (d : db) (msgs : list message) :
  create_entry to_python account debit credit date group (mk_world [] d msgs)
  = match date ≫= to_python with
    | Some day =>
        (ok tt,
         mk_world []
           (set_entries (fun t =>
              t ++ [JournalEntry.mk day account debit credit "Pending" (Some group)])
              d)
           msgs)
    | None =>
        (raised (match date with
                 | None => "IntegrityError"
                 | Some _ => "ValidationError"
                 end),
         mk_world [] d msgs)
    end.
Proof.
  unfold create_entry. destruct date as [s|]; simpl; [|reflexivity].
  destruct (to_python s); reflexivity.
Qed.

Lemma add_journal_entry_steps (whole : bool) (req : entry_request) (w : world) :
  (whole = true ->
   plan w = []
   /\ (is_Some (date1 req ≫= to_python) -> is_Some (date2 req ≫= to_python))) ->
  rtc (step whole) (store w)
    (store (add_journal_entry Decimal to_python quantize req w).2).
Proof.
  intros Hwhole. unfold add_journal_entry.
  destruct (String.eqb (entry_method req) "POST"); [|reflexivity].
  destruct (negb (truthy (debit1 req)) || negb (truthy (credit2 req)));
    [reflexivity|].
  unfold mbind at 1, M_bind at 1.
  destruct (decimal_of Decimal (debit1 req) w) as [[debit|exn] w1] eqn:Hd.
  2: { unfold decimal_of in Hd. destruct (debit1 req) as [s|];
       [destruct (Decimal s)|]; inversion Hd; reflexivity. }
  assert (w1 = w) as ->.
  { unfold decimal_of in Hd. destruct (debit1 req) as [s|];
      [destruct (Decimal s)|]; inversion Hd; reflexivity. }
  unfold mbind at 1, M_bind at 1.
  destruct (decimal_of Decimal (credit2 req) w) as [[credit|exn] w1] eqn:Hc.
  2: { unfold decimal_of in Hc. destruct (credit2 req) as [s|];
       [destruct (Decimal s)|]; inversion Hc; reflexivity. }
  assert (w1 = w) as ->.
  { unfold decimal_of in Hc. destruct (credit2 req) as [s|];
      [destruct (Decimal s)|]; inversion Hc; reflexivity. }
  destruct (bool_decide (debit ≤ 0)%Qc || bool_decide (credit ≤ 0)%Qc);
    [reflexivity|].
  destruct (bool_decide (debit = credit)) eqn:Heq; simpl; [|reflexivity].
  apply bool_decide_eq_true in Heq. subst credit.
  unfold try_except.
  match goal with
  | |- context [store (match ?body w with _ => _ end).2] =>
      assert (Hbody : rtc (step whole) (store w) (store (body w).2));
      [| destruct (body w) as [[resp|exn] w2]; simpl in *;
         [exact Hbody | destruct (String.eqb exn _); exact Hbody] ]
  end.
  unfold mbind at 1, M_bind at 1.
  destruct (get_account_by_name_cases (account1 req) w)
    as [[exn ->]|(a1 & -> & Ha1 & _)]; [reflexivity|].
  unfold mbind at 1, M_bind at 1.
  destruct (get_account_by_name_cases (account2 req) w)
    as [[exn ->]|(a2 & -> & Ha2 & _)]; [reflexivity|].
  destruct (String.eqb_spec (ChartOfAccounts.normal_side a1.2) "Left") as [Hl|];
    simpl; [|reflexivity].
  destruct (String.eqb_spec (ChartOfAccounts.normal_side a2.2) "Right") as [Hr|];
    simpl; [|reflexivity].
  assert (Hpair : forall day1 day2,
    step whole (store w)
      (set_entries (fun t => t ++
         [JournalEntry.mk day2 a2.1 0 (quantize debit) "Pending"
            (Some (groups (store w)))])
         (set_entries (fun t => t ++
            [JournalEntry.mk day1 a1.1 (quantize debit) 0 "Pending"
               (Some (groups (store w)))])
            (set_groups S (store w))))).
  { intros day1 day2.
    match goal with
    | |- step _ _ ?d' =>
        replace d' with
          (set_entries (fun t => t ++
             [JournalEntry.mk day1 a1.1 (quantize debit) 0 "Pending"
                (Some (groups (store w)));
              JournalEntry.mk day2 a2.1 0 (quantize debit) "Pending"
                (Some (groups (store w)))])
             (set_groups S (store w)))
    end.
    - eapply step_new_pair; eauto.
    - unfold set_entries; simpl. rewrite <- app_assoc. reflexivity. }
  destruct whole eqn:Hw.
  - destruct (Hwhole eq_refl) as [Hp Hdates].
    destruct w as [p d msgs]. simpl in Hp. subst p.
    unfold mbind at 1, M_bind at 1.
    unfold create_group, mbind at 1, M_bind at 1, read, write. simpl.
    unfold mbind at 1, M_bind at 1.
    rewrite create_entry_no_fault.
    destruct (date1 req ≫= to_python) as [day1|] eqn:H1; simpl.
    2: { apply rtc_once, step_new_group. }
    destruct (Hdates (ex_intro _ _ eq_refl)) as [day2 H2].
    unfold mbind at 1, M_bind at 1.
    rewrite create_entry_no_fault, H2. simpl.
    apply rtc_once. apply (Hpair day1 day2).
  - unfold mbind at 1, M_bind at 1.
    destruct (create_group_cases w) as [(exn & p & ->)|(p & ->)]; [reflexivity|].
    unfold mbind at 1, M_bind at 1.
    match goal with
    | |- context [create_entry to_python ?a ?x ?y ?dt ?g ?w0] =>
        destruct (create_entry_cases to_python a x y dt g w0)
          as [(exn & p1 & ->)|(day1 & p1 & ->)]
    end; simpl.
    { apply rtc_once, step_new_group. }
    unfold mbind at 1, M_bind at 1.
    match goal with
    | |- context [create_entry to_python ?a ?x ?y ?dt ?g ?w0] =>
        destruct (create_entry_cases to_python a x y dt g w0)
          as [(exn & p2 & ->)|(day2 & p2 & ->)]
    end; simpl.
    { apply rtc_once. eapply step_new_entry; eauto. }
    apply rtc_once. apply (Hpair day1 day2).
Qed.

Lemma serve_steps (whole : bool) (r : request) (p : list bool) (d : db) :
  (whole = true -> completes to_python r p) ->
  rtc (step whole) d (serve Decimal to_python quantize r p d).
Proof.
  intros Hc. unfold serve, view.
  destruct r as [req|req pk|req pk|req pk|req|req].
  - apply (add_account_steps whole req (mk_world p d [])).
  - apply (edit_account_steps whole req pk (mk_world p d [])).
  - apply (deactivate_account_steps whole req pk (mk_world p d [])).
  - apply (activate_account_steps whole req pk (mk_world p d [])).
  - apply (add_journal_entry_steps whole req (mk_world p d [])).
    intros Hw. exact (Hc Hw).
  - apply (journal_entry_page_steps whole req (mk_world p d [])).
Qed.

Lemma reachable_steps (d : db) :
  reachable Decimal to_python quantize d -> rtc (step false) empty_db d.
Proof.
  induction 1 as [|r p d _ IH]; [reflexivity|].
  etransitivity; [exact IH|]. apply serve_steps. discriminate.
Qed.

Lemma reachable_whole_steps (d : db) :
  reachable_whole Decimal to_python quantize d -> rtc (step true) empty_db d.
Proof.
  induction 1 as [|r p d _ IH Hc]; [reflexivity|].
  etransitivity; [exact IH|]. apply serve_steps. intros _. exact Hc.
Qed.

Lemma reachable_whole_reachable (d : db) :
  reachable_whole Decimal to_python quantize d ->
  reachable Decimal to_python quantize d.
Proof. induction 1; constructor; assumption. Qed.

End EntrySteps.

(** ** Integrity of the chart and of the foreign keys, step by step *)

Lemma unique_account_spec (skip : option nat) (a : ChartOfAccounts.t)
    (t : list ChartOfAccounts.t) :
  unique_account skip a t = true ->
  forall k r, t !! k = Some r -> Some k <> skip ->
    ChartOfAccounts.account_name r <> ChartOfAccounts.account_name a
    /\ ChartOfAccounts.account_number r <> ChartOfAccounts.account_number a.
Proof.
  unfold unique_account. rewrite forallb_forall. intros Hall k r Hr Hk.
  specialize (Hall (k, r)). simpl in Hall.
  rewrite <- list_elem_of_In, with_pk_elem in Hall. specialize (Hall Hr).
  rewrite bool_decide_eq_false_2 in Hall by exact Hk. simpl in Hall.
  apply andb_true_iff in Hall as [Hn Hm].
  apply negb_true_iff in Hn, Hm. split.
  - intros Heq. rewrite Heq, String.eqb_refl in Hn. discriminate.
  - intros Heq. rewrite Heq, Nat.eqb_refl in Hm. discriminate.
Qed.

(** A column stays free of duplicates when a row is appended or rewritten
    with a value no other row has. *)
Lemma NoDup_fmap_app_one {A B} (f : A -> B) (t : list A) (a : A) :
  NoDup (f <$> t) ->
  (forall k r, t !! k = Some r -> f r <> f a) ->
  NoDup (f <$> (t ++ [a])).
Proof.
  intros Hnd Hfree. rewrite fmap_app. apply list.NoDup_app.
  split; [exact Hnd|]. split; [|apply list.NoDup_singleton].
  intros x Hx Hx'. apply list_elem_of_singleton in Hx'. subst x.
  apply list_elem_of_fmap in Hx as (r & Heq & Hr).
  apply list_elem_of_lookup in Hr as [k Hk].
  apply (Hfree k r Hk). symmetry. exact Heq.
Qed.

Lemma NoDup_fmap_insert {A B} (f : A -> B) (t : list A) (pk : nat) (a : A) :
  NoDup (f <$> t) ->
  (forall k r, t !! k = Some r -> k <> pk -> f r <> f a) ->
  NoDup (f <$> <[pk := a]> t).
Proof.
  intros Hnd Hfree. apply NoDup_alt. intros i j x Hi Hj.
  rewrite list_lookup_fmap in Hi, Hj.
  destruct (<[pk := a]> t !! i) as [ri|] eqn:Hri; [|discriminate].
  destruct (<[pk := a]> t !! j) as [rj|] eqn:Hrj; [|discriminate].
  simpl in Hi, Hj. injection Hi as Hi. injection Hj as Hj.
  apply list_lookup_insert_Some in Hri as [(Hi' & Hai & _)|[Hne Hri]];
    apply list_lookup_insert_Some in Hrj as [(Hj' & Haj & _)|[Hne' Hrj]].
  - congruence.
  - exfalso. apply (Hfree j rj Hrj); congruence.
  - exfalso. apply (Hfree i ri Hri); congruence.
  - eapply (proj1 (NoDup_alt _) Hnd i j x); rewrite list_lookup_fmap.
    + rewrite Hri. simpl. congruence.
    + rewrite Hrj. simpl. congruence.
Qed.

Lemma fmap_insert_same {A B} (f : A -> B) (t : list A) (pk : nat) (a a' : A) :
  t !! pk = Some a -> f a' = f a -> f <$> <[pk := a']> t = f <$> t.
Proof.
  intros Ha Hf. rewrite list_fmap_insert, Hf. apply list_insert_id.
  rewrite list_lookup_fmap, Ha. reflexivity.
Qed.

Lemma step_unique (whole : bool) (d d' : db) :
  step whole d d' ->
  Entry.names_unique d /\ Chart.numbers_unique d ->
  Entry.names_unique d' /\ Chart.numbers_unique d'.
Proof.
  unfold Entry.names_unique, Chart.numbers_unique.
  intros Hstep [Hn Hm].
  destruct Hstep as [d a Hfree|d pk a a' Ha Hfree|d pk a b Ha| | | |d pk e a He Hs Ha| |];
    simpl; try (split; assumption).
  - pose proof (unique_account_spec _ _ _ Hfree) as Hspec.
    split; apply NoDup_fmap_app_one; try assumption;
      intros k r Hr; apply (Hspec k r Hr); discriminate.
  - pose proof (unique_account_spec _ _ _ Hfree) as Hspec.
    split; apply NoDup_fmap_insert; try assumption;
      intros k r Hr Hk; apply (Hspec k r Hr); congruence.
  - rewrite !(fmap_insert_same _ _ _ a) by (assumption || reflexivity).
    split; assumption.
  - rewrite !(fmap_insert_same _ _ _ a) by (assumption || reflexivity).
    split; assumption.
Qed.

Lemma is_Some_lookup_insert {A} (t : list A) (pk k : nat) (a : A) :
  is_Some (t !! k) -> is_Some (<[pk := a]> t !! k).
Proof.
  rewrite !lookup_lt_is_Some, length_insert. auto.
Qed.

Lemma is_Some_lookup_app {A} (t new : list A) (k : nat) :
  is_Some (t !! k) -> is_Some ((t ++ new) !! k).
Proof.
  rewrite !lookup_lt_is_Some, length_app. lia.
Qed.

Lemma step_foreign_keys (whole : bool) (d d' : db) :
  step whole d d' ->
  Period.accounts_exist d /\ Chart.ledger_accounts_exist d ->
  Period.accounts_exist d' /\ Chart.ledger_accounts_exist d'.
Proof.
  unfold Period.accounts_exist, Chart.ledger_accounts_exist.
  intros Hstep [He Hl].
  destruct Hstep as [d a Hfree|d pk a a' Ha Hfree|d pk a b Ha|d
                    |d e a _ _ _ _ Ha _|d e1 e2 a1 a2 _ _ _ _ _ _ _ Ha1 Ha2 _ _
                    |d pk e a Hpk Hs Ha|d pk e Hpk|d r];
    simpl.
  - split; (eapply Forall_impl; [|eassumption]); intros x Hx;
      apply is_Some_lookup_app, Hx.
  - split; (eapply Forall_impl; [|eassumption]); intros x Hx;
      apply is_Some_lookup_insert, Hx.
  - split; (eapply Forall_impl; [|eassumption]); intros x Hx;
      apply is_Some_lookup_insert, Hx.
  - split; assumption.
  - split; [|assumption].
    apply Forall_app. split; [assumption|].
    constructor; [eexists; exact Ha | constructor].
  - split; [|assumption].
    apply Forall_app. split; [assumption|].
    constructor; [eexists; exact Ha1|].
    constructor; [eexists; exact Ha2 | constructor].
  - split.
    + apply Forall_insert.
      * eapply Forall_impl; [|exact He]. intros x Hx.
        apply is_Some_lookup_insert, Hx.
      * simpl. apply is_Some_lookup_insert. eexists; exact Ha.
    + apply Forall_app. split.
      * eapply Forall_impl; [|exact Hl]. intros x Hx.
        apply is_Some_lookup_insert, Hx.
      * constructor; [|constructor]. simpl.
        apply is_Some_lookup_insert. eexists; exact Ha.
  - split; [|assumption].
    apply Forall_insert; [assumption|]. simpl.
    rewrite list.Forall_forall in He.
    apply (He e). eapply list_elem_of_lookup_2. exact Hpk.
  - split; assumption.
Qed.

Lemma steps_integrity (whole : bool) (d d' : db) :
  rtc (step whole) d d' ->
  (Entry.names_unique d /\ Chart.numbers_unique d)
  /\ (Period.accounts_exist d /\ Chart.ledger_accounts_exist d) ->
  (Entry.names_unique d' /\ Chart.numbers_unique d')
  /\ (Period.accounts_exist d' /\ Chart.ledger_accounts_exist d').
Proof.
  induction 1 as [|d d1 d2 H1 _ IH]; [auto|].
  intros [Hu Hf]. apply IH. split.
  - eapply step_unique; eassumption.
  - eapply step_foreign_keys; eassumption.
Qed.

Lemma empty_integrity :
  (Entry.names_unique empty_db /\ Chart.numbers_unique empty_db)
  /\ (Period.accounts_exist empty_db /\ Chart.ledger_accounts_exist empty_db).
Proof. repeat split; constructor. Qed.

Section Integrity.

Variable Decimal : string -> option Qc.
Variable to_python : string -> option Date.
Variable quantize : Qc -> money.

(** The unique constraints of the chart hold in every reachable database:
    no two accounts share a name or a number, whatever was added, edited,
    activated, deactivated or posted. *)
Theorem account_names_and_numbers_stay_unique (d : db) :
  reachable Decimal to_python quantize d ->
  Entry.names_unique d /\ Chart.numbers_unique d.
Proof.
  intros Hd.
  apply (steps_integrity false empty_db d
           (reachable_steps Decimal to_python quantize d Hd) empty_integrity).
Qed.

(** The foreign keys hold in every reachable database: every journal entry
    and every ledger row points to an account of the chart. *)
Theorem entries_and_ledger_rows_have_accounts (d : db) :
  reachable Decimal to_python quantize d ->
  Period.accounts_exist d /\ Chart.ledger_accounts_exist d.
Proof.
  intros Hd.
  apply (steps_integrity false empty_db d
           (reachable_steps Decimal to_python quantize d Hd) empty_integrity).
Qed.

End Integrity.

Lemma account_names_and_numbers_stay_unique_witness :
  Entry.names_unique Sample.approved /\ Chart.numbers_unique Sample.approved.
Proof.
  apply (account_names_and_numbers_stay_unique plain_decimal iso_date
           half_even_cents Sample.approved).
  apply sample_reachable.
Defined.

Lemma entries_and_ledger_rows_have_accounts_witness :
  Period.accounts_exist Sample.edited /\ Chart.ledger_accounts_exist Sample.edited.
Proof.
  apply (entries_and_ledger_rows_have_accounts plain_decimal iso_date
           half_even_cents Sample.edited).
  apply sample_reachable.
Defined.

(** ** The shape of the pairs and the balance of the journal *)

Lemma step_grouped (whole : bool) (d d' : db) :
  step whole d d' -> Inv.grouped d -> Inv.grouped d'.
Proof. intros H. eapply change_grouped, step_change, H. Qed.

Lemma paired_same_shapes (d d' : db) :
  Inv.same_shapes (entries d) (entries d') ->
  Chart.paired d -> Chart.paired d'.
Proof.
  intros Hsh Hinv i j e1' e2' Hp.
  destruct (pair_same_shapes _ _ _ _ _ _ Hsh Hp) as (e1 & e2 & Hp0 & Hs1 & Hs2).
  destruct (Hinv _ _ _ _ Hp0) as (Hj & Hc & Hd).
  unfold Inv.shape in Hs1, Hs2.
  injection Hs1 as _ _ _ Hc1 _. injection Hs2 as _ _ Hd2 _ _.
  repeat split; congruence.
Qed.

Lemma step_paired (whole : bool) (d d' : db) :
  step whole d d' -> Inv.grouped d -> Chart.paired d -> Chart.paired d'.
Proof.
  intros Hstep Hgr Hinv.
  destruct Hstep as [d a Hfree|d pk a a' Ha Hfree|d pk a b Ha|d
                    |d e a _ Hg _ _ _ _|d e1 e2 a1 a2 Hg1 Hg2 _ _ _ Hc1 Hd2 _ _ _ _
                    |d pk e a Hpk Hs Ha|d pk e Hpk|d r];
    try exact Hinv.
  - intros i j x1 x2 Hp.
    destruct (pair_app d [e] i j x1 x2 Hgr) as [Hold|(Hi & H1 & H2)];
      [repeat constructor; assumption | exact Hp | exact (Hinv _ _ _ _ Hold) |].
    exfalso. destruct Hp as (Hij & _).
    apply lookup_lt_Some in H1, H2. simpl in H1, H2. lia.
  - intros i j x1 x2 Hp.
    destruct (pair_app d [e1; e2] i j x1 x2 Hgr) as [Hold|(Hi & H1 & H2)];
      [repeat constructor; assumption | exact Hp | exact (Hinv _ _ _ _ Hold) |].
    destruct Hp as (Hij & _).
    pose proof (lookup_lt_Some _ _ _ H1) as L1.
    pose proof (lookup_lt_Some _ _ _ H2) as L2. simpl in L1, L2.
    assert ((i - length (entries d))%nat = 0%nat) as Ei by lia.
    assert ((j - length (entries d))%nat = 1%nat) as Ej by lia.
    rewrite Ei in H1. rewrite Ej in H2. simpl in H1, H2.
    injection H1 as <-. injection H2 as <-.
    repeat split; [lia | assumption | assumption].
  - eapply paired_same_shapes; [|exact Hinv].
    simpl. apply same_shapes_restatus. exact Hpk.
  - eapply paired_same_shapes; [|exact Hinv].
    simpl. apply same_shapes_restatus. exact Hpk.
Qed.

Lemma steps_paired (whole : bool) (d d' : db) :
  rtc (step whole) d d' ->
  Inv.grouped d /\ Chart.paired d -> Inv.grouped d' /\ Chart.paired d'.
Proof.
  induction 1 as [|d d1 d2 H1 _ IH]; [auto|].
  intros [Hg Hp]. apply IH. split.
  - eapply step_grouped; eassumption.
  - eapply step_paired; eassumption.
Qed.

Lemma step_balanced (d d' : db) :
  step true d d' -> Chart.balanced d -> Chart.balanced d'.
Proof.
  unfold Chart.balanced, Period.debits, Period.credits.
  intros Hstep Hinv.
  destruct Hstep as [d a Hfree|d pk a a' Ha Hfree|d pk a b Ha|d
                    |d e a Hw _ _ _ _ _|d e1 e2 a1 a2 _ _ _ _ Hm Hc1 Hd2 _ _ _ _
                    |d pk e a Hpk Hs Ha|d pk e Hpk|d r];
    simpl; try exact Hinv.
  - discriminate Hw.
  - rewrite !fmap_app, !sum_app, Hinv. unfold Reports.sum. csimpl. lia.
  - rewrite !(fmap_insert_same _ _ _ e) by (assumption || reflexivity).
    exact Hinv.
  - rewrite !(fmap_insert_same _ _ _ e) by (assumption || reflexivity).
    exact Hinv.
Qed.

Lemma steps_balanced (d d' : db) :
  rtc (step true) d d' -> Chart.balanced d -> Chart.balanced d'.
Proof.
  induction 1 as [|d d1 d2 H1 _ IH]; [auto|].
  intros Hb. apply IH. eapply step_balanced; eassumption.
Qed.

(** The category tests of the balance sheet exclude one another. *)
Lemma category_cases (accounts : list ChartOfAccounts.t) (e : JournalEntry.t) :
  let test c := Period.filed accounts (fun x => bool_decide (x ∈ c)) e in
  (test ["Assets"], test ["Liabilities"], test ["Equity"],
   test ["Assets"; "Liabilities"; "Equity"])
  ∈ [(true, false, false, true); (false, true, false, true);
     (false, false, true, true); (false, false, false, false)].
Proof.
  cbv zeta. unfold Period.filed.
  destruct (accounts !! JournalEntry.account e) as [a|];
    [|repeat first [apply list_elem_of_here | apply list_elem_of_further]].
  repeat case_bool_decide;
    repeat match goal with
    | H : _ ∈ _ |- _ => apply list_elem_of_In in H; simpl in H
    | H : ¬ _ ∈ _ |- _ => rewrite list_elem_of_In in H; simpl in H
    end;
    try (exfalso; intuition congruence);
    repeat first [apply list_elem_of_here | apply list_elem_of_further].
Qed.

(** The entries split by the category of their account. *)
Lemma sum_by_category (f : JournalEntry.t -> money)
    (accounts : list ChartOfAccounts.t) (l : list JournalEntry.t) :
  Reports.sum (f <$> l)
  = Reports.sum (f <$> List.filter
        (Period.filed accounts (fun c => bool_decide (c ∈ ["Assets"]))) l)
    + Reports.sum (f <$> List.filter
        (Period.filed accounts (fun c => bool_decide (c ∈ ["Liabilities"]))) l)
    + Reports.sum (f <$> List.filter
        (Period.filed accounts (fun c => bool_decide (c ∈ ["Equity"]))) l)
    + Reports.sum (f <$> List.filter
        (fun e =>
           negb (Period.filed accounts
                   (fun c => bool_decide (c ∈ ["Assets"; "Liabilities"; "Equity"]))
                   e)) l).
Proof.
  induction l as [|e l IH]; [reflexivity|].
  cbn [List.filter].
  pose proof (category_cases accounts e) as Hc. cbv beta zeta in Hc.
  destruct (Period.filed accounts (fun c => bool_decide (c ∈ ["Assets"])) e),
           (Period.filed accounts (fun c => bool_decide (c ∈ ["Liabilities"])) e),
           (Period.filed accounts (fun c => bool_decide (c ∈ ["Equity"])) e),
           (Period.filed accounts
              (fun c => bool_decide (c ∈ ["Assets"; "Liabilities"; "Equity"])) e);
    try (exfalso;
         repeat (apply elem_of_cons in Hc as [Hc|Hc]; [discriminate Hc|]);
         apply elem_of_nil in Hc; exact Hc);
    csimpl; unfold Reports.sum in *; csimpl; lia.
Qed.

Lemma dated_without_bounds (to_python : string -> option Date)
    (start_date end_date : option string) (d : db) :
  truthy start_date = false -> truthy end_date = false ->
  Period.dated to_python start_date end_date d = entries d.
Proof.
  intros Hs He. unfold Period.dated, Period.bound. rewrite Hs, He.
  apply filter_all. reflexivity.
Qed.

Lemma usable_without_bound (to_python : string -> option Date)
    (v : option string) :
  truthy v = false -> Period.usable to_python v.
Proof. intros Hv Ht. congruence. Qed.

Section Books.

Variable Decimal : string -> option Qc.
Variable to_python : string -> option Date.
Variable quantize : Qc -> money.

Lemma reachable_paired (d : db) :
  reachable Decimal to_python quantize d -> Inv.grouped d /\ Chart.paired d.
Proof.
  intros Hd.
  apply (steps_paired false empty_db d
           (reachable_steps Decimal to_python quantize d Hd)).
  split.
  - intros i e He. discriminate.
  - intros i j e1 e2 (_ & He & _). discriminate.
Qed.

(** In every reachable database the two entries of a group are neighbours
    in the table, the first carries only a debit and the second only a
    credit. *)
Theorem pairs_are_neighbours (d : db) (i j : nat) (e1 e2 : JournalEntry.t) :
  reachable Decimal to_python quantize d ->
  Pairs.pair d i j e1 e2 ->
  j = S i /\ JournalEntry.credit e1 = 0 /\ JournalEntry.debit e2 = 0.
Proof.
  intros Hd Hp. exact (proj2 (reachable_paired d Hd) i j e1 e2 Hp).
Qed.

Lemma reachable_whole_balanced (d : db) :
  reachable_whole Decimal to_python quantize d ->
  Chart.balanced d /\ Period.accounts_exist d.
Proof.
  intros Hd. split.
  - apply (steps_balanced empty_db d
             (reachable_whole_steps Decimal to_python quantize d Hd)).
    reflexivity.
  - apply (steps_integrity true empty_db d
             (reachable_whole_steps Decimal to_python quantize d Hd)
             empty_integrity).
Qed.

(** The trial balance balances: without a date range, over a database in
    which no request stopped between the two entries of a pair, the total
    debit is the total credit. *)
Theorem trial_balance_balances (start_date end_date : option string) (d : db) :
  reachable_whole Decimal to_python quantize d ->
  truthy start_date = false ->
  truthy end_date = false ->
  exists tb,
    Reports.trial_balance to_python start_date end_date d = ok tb
    /\ Reports.tb_total_debit tb = Reports.tb_total_credit tb.
Proof.
  intros Hd Hs He.
  destruct (reachable_whole_balanced d Hd) as [Hbal Hfk].
  pose proof (reports_add_up to_python start_date end_date d
                (usable_without_bound _ _ Hs) (usable_without_bound _ _ He) Hfk)
    as Hrep.
  cbv zeta in Hrep. rewrite (dated_without_bounds _ _ _ _ Hs He) in Hrep.
  destruct Hrep as (tb & _ & _ & _ & Htb & _ & _ & _ & (Hdeb & Hcre & _) & _).
  exists tb. split; [exact Htb|]. rewrite Hdeb, Hcre. exact Hbal.
Qed.

(** The balance sheet, without a date range and over such a database: the
    total of the assets differs from the total of the liabilities and the
    equity by the net credit of the entries posted to accounts of other
    categories; the sheet balances when there are none. *)
Theorem balance_sheet_is_off_by_other_categories
    (start_date end_date : option string) (d : db) :
  reachable_whole Decimal to_python quantize d ->
  truthy start_date = false ->
  truthy end_date = false ->
  exists bs,
    Reports.balance_sheet to_python start_date end_date d = ok bs
    /\ Reports.bs_total_assets bs - Reports.bs_total_liabilities_and_equity bs
       = Period.credits (Chart.off_balance_sheet d (entries d))
         - Period.debits (Chart.off_balance_sheet d (entries d)).
Proof.
  intros Hd Hs He.
  destruct (reachable_whole_balanced d Hd) as [Hbal Hfk].
  pose proof (reports_add_up to_python start_date end_date d
                (usable_without_bound _ _ Hs) (usable_without_bound _ _ He) Hfk)
    as Hrep.
  cbv zeta in Hrep. rewrite (dated_without_bounds _ _ _ _ Hs He) in Hrep.
  destruct Hrep
    as (_ & _ & bs & _ & _ & _ & Hbs & _ & _ & _ & (Ha & Hl & Hq & Hle) & _).
  exists bs. split; [exact Hbs|].
  rewrite Hle, Ha, Hl, Hq.
  unfold Chart.balanced, Period.debits, Period.credits, Period.categorised,
    Chart.off_balance_sheet in *.
  rewrite (sum_by_category JournalEntry.debit (accounts d)) in Hbal.
  rewrite (sum_by_category JournalEntry.credit (accounts d)) in Hbal.
  lia.
Qed.

End Books.

Lemma sample_reachable_whole :
  reachable_whole plain_decimal iso_date half_even_cents Sample.approved.
Proof.
  unfold Sample.approved, Sample.submitted, Sample.opened, Sample.run.
  apply whole_serve; [|exact I].
  apply whole_serve; [|split; [reflexivity | intros _; eexists; reflexivity]].
  apply whole_serve; [|exact I].
  apply whole_serve; [|exact I].
  apply whole_empty.
Qed.

Lemma pairs_are_neighbours_witness :
  JournalEntry.credit (Sample.entry1 "Approved") = 0
  /\ JournalEntry.debit (Sample.entry2 "Approved") = 0.
Proof.
  destruct (pairs_are_neighbours plain_decimal iso_date half_even_cents
              Sample.approved 0 1
              (Sample.entry1 "Approved") (Sample.entry2 "Approved")
              (proj1 sample_reachable))
    as (_ & Hc & Hd).
  - vm_compute. repeat split; try lia. eexists; reflexivity.
  - split; assumption.
Defined.

Lemma trial_balance_balances_witness :
  exists tb,
    Reports.trial_balance iso_date None (Some "") Sample.approved = ok tb
    /\ Reports.tb_total_debit tb = Reports.tb_total_credit tb.
Proof.
  apply (trial_balance_balances plain_decimal iso_date half_even_cents
           None (Some "") Sample.approved sample_reachable_whole);
    reflexivity.
Defined.

Lemma sales_reachable_whole :
  reachable_whole plain_decimal iso_date half_even_cents Later.sales.
Proof.
  unfold Later.sales, Sample.run.
  apply whole_serve; [|split; [reflexivity | intros _; eexists; reflexivity]].
  apply whole_serve; [|exact I].
  apply whole_serve; [|exact I].
  apply whole_empty.
Qed.

(** After a sale of 100.00 for cash the sheet shows assets of 100.00 and
    neither liabilities nor equity: it is off by the 100.00 credited to the
    revenue account. *)
Lemma balance_sheet_is_off_by_other_categories_witness :
  exists bs,
    Reports.balance_sheet iso_date None None Later.sales = ok bs
    /\ Reports.bs_total_assets bs = 10000
    /\ Reports.bs_total_liabilities_and_equity bs = 0
    /\ Reports.bs_total_assets bs - Reports.bs_total_liabilities_and_equity bs
       = 10000.
Proof.
  destruct (balance_sheet_is_off_by_other_categories plain_decimal iso_date
              half_even_cents None None Later.sales sales_reachable_whole
              eq_refl eq_refl) as (bs & Hbs & Hoff).
  exists bs. split; [exact Hbs|].
  assert (Hnet : Period.credits (Chart.off_balance_sheet Later.sales
                                   (entries Later.sales))
                 - Period.debits (Chart.off_balance_sheet Later.sales
                                    (entries Later.sales)) = 10000)
    by reflexivity.
  rewrite Hnet in Hoff.
  assert (Hle : Reports.bs_total_liabilities_and_equity bs = 0).
  { assert (Hrun : Reports.balance_sheet iso_date None None Later.sales
                   = ok (Reports.mk_balance_sheet
                           (Reports.bs_asset_entries bs) [] [] 
                           (Reports.bs_total_assets bs) 0 0 0)).
    { rewrite Hbs. f_equal. vm_compute in Hbs. injection Hbs as <-. reflexivity. }
    rewrite Hbs in Hrun. injection Hrun as H. rewrite H. reflexivity. }
  split; [lia|]. split; [exact Hle | exact Hoff].
Defined.

(** ** Reports on a date that is not one *)

Section BadDates.

Variable to_python : string -> option Date.

Lemma unusable_cases (v : option string) :
  ~ Period.usable to_python v ->
  truthy v = true /\ Reports.lookup_value to_python v = raised "ValidationError".
Proof.
  unfold Period.usable, Reports.lookup_value. intros Hn.
  destruct (truthy v) eqn:Ht; [|exfalso; apply Hn; discriminate].
  split; [reflexivity|].
  destruct v as [s|]; [|discriminate Ht]. simpl in Hn.
  destruct (to_python s) as [day|]; [|reflexivity].
  exfalso. apply Hn. intros _. eexists; reflexivity.
Qed.

Lemma select_raises (start_date end_date : option string)
    (l : list JournalEntry.t) :
  ~ Period.usable to_python start_date \/ ~ Period.usable to_python end_date ->
  Reports.select to_python start_date end_date l = raised "ValidationError".
Proof.
  unfold Reports.select. intros [Hs|He].
  - destruct (unusable_cases _ Hs) as [Ht Hl]. rewrite Ht, Hl.
    destruct (truthy end_date); reflexivity.
  - destruct (unusable_cases _ He) as [Ht Hl]. rewrite Ht, Hl.
    destruct (truthy start_date) eqn:Hts; simpl; [|reflexivity].
    destruct (Reports.lookup_value to_python start_date) as [s|exn] eqn:Hls;
      [reflexivity|].
    unfold Reports.lookup_value in Hls.
    destruct start_date as [s|]; [|discriminate Hts].
    destruct (to_python s); [discriminate Hls|].
    injection Hls as <-. reflexivity.
Qed.

(** A start or end date that is given and is not a date makes each of the
    four reports raise [ValidationError]: no report is rendered. *)
Theorem reports_raise_on_a_date_that_is_not_one
    (start_date end_date : option string) (d : db) :
  ~ Period.usable to_python start_date \/ ~ Period.usable to_python end_date ->
  Reports.trial_balance to_python start_date end_date d = raised "ValidationError"
  /\ Reports.income_statement to_python start_date end_date d
     = raised "ValidationError"
  /\ Reports.balance_sheet to_python start_date end_date d
     = raised "ValidationError"
  /\ Reports.retained_earnings to_python start_date end_date d
     = raised "ValidationError".
Proof.
  intros H.
  unfold Reports.trial_balance, Reports.income_statement, Reports.balance_sheet,
    Reports.retained_earnings.
  rewrite (select_raises _ _ _ H). repeat split.
Qed.

End BadDates.

Lemma reports_raise_on_a_date_that_is_not_one_witness :
  Reports.trial_balance iso_date (Some "2024-03-01") (Some "31/03/2024")
    Sample.approved
  = raised "ValidationError".
Proof.
  apply (reports_raise_on_a_date_that_is_not_one iso_date
           (Some "2024-03-01") (Some "31/03/2024") Sample.approved).
  right. intros H. destruct (H eq_refl) as [day Hday]. discriminate Hday.
Defined.

(** ** The ledger page *)

Lemma insert_by_date_perm (e : JournalEntry.t) (l : list JournalEntry.t) :
  LedgerView.insert_by_date e l ≡ₚ e :: l.
Proof.
  induction l as [|x l IH]; simpl; [reflexivity|].
  destruct (JournalEntry.date e <=? JournalEntry.date x); [reflexivity|].
  rewrite IH. apply Permutation_swap.
Qed.

Lemma order_by_date_perm (l : list JournalEntry.t) :
  LedgerView.order_by_date l ≡ₚ l.
Proof.
  induction l as [|x l IH]; simpl; [reflexivity|].
  rewrite insert_by_date_perm, IH. reflexivity.
Qed.

Lemma in_date_order_cons (x : JournalEntry.t) (l : list JournalEntry.t) :
  LedgerView.in_date_order (x :: l)
  <-> Forall (fun y => JournalEntry.date x <= JournalEntry.date y) l
      /\ LedgerView.in_date_order l.
Proof.
  unfold LedgerView.in_date_order. split.
  - intros H. split.
    + apply list.Forall_forall. intros y Hy.
      apply list_elem_of_lookup in Hy as [k Hk].
      apply (H 0%nat (S k) x y); [lia | reflexivity | exact Hk].
    + intros i j a b Hij Ha Hb. apply (H (S i) (S j) a b); [lia | exact Ha | exact Hb].
  - intros [Hall Hl] i j a b Hij Ha Hb.
    destruct i as [|i], j as [|j]; simpl in Ha, Hb.
    + injection Ha as <-. injection Hb as <-. lia.
    + injection Ha as <-. rewrite list.Forall_forall in Hall.
      apply Hall. eapply list_elem_of_lookup_2. exact Hb.
    + lia.
    + apply (Hl i j a b); [lia | exact Ha | exact Hb].
Qed.

Lemma insert_by_date_order (e : JournalEntry.t) (l : list JournalEntry.t) :
  LedgerView.in_date_order l ->
  LedgerView.in_date_order (LedgerView.insert_by_date e l).
Proof.
  induction l as [|x l IH]; simpl; intros Hl.
  - apply in_date_order_cons. split; [constructor|].
    intros i j a b _ Ha. discriminate Ha.
  - destruct (Z.leb_spec (JournalEntry.date e) (JournalEntry.date x)) as [Hle|Hgt].
    + apply in_date_order_cons. split; [|exact Hl].
      apply in_date_order_cons in Hl as [Hall _].
      constructor; [exact Hle|].
      eapply Forall_impl; [|exact Hall]. simpl. intros y Hy. lia.
    + apply in_date_order_cons in Hl as [Hall Hl].
      apply in_date_order_cons. split; [|apply IH, Hl].
      rewrite insert_by_date_perm. constructor; [lia | exact Hall].
Qed.

Lemma order_by_date_order (l : list JournalEntry.t) :
  LedgerView.in_date_order (LedgerView.order_by_date l).
Proof.
  induction l as [|x l IH]; simpl.
  - intros i j a b _ Ha. discriminate Ha.
  - apply insert_by_date_order, IH.
Qed.

Lemma balances_fst (b : money) (l : list JournalEntry.t) :
  (LedgerView.balances b l).*1 = l.
Proof.
  revert b. induction l as [|e l IH]; intros b; [reflexivity|].
  cbn [LedgerView.balances]. rewrite fmap_cons, IH. reflexivity.
Qed.

Lemma balances_lookup (b : money) (l : list JournalEntry.t) (k : nat)
    (e : JournalEntry.t) (x : money) :
  LedgerView.balances b l !! k = Some (e, x) ->
  x = b + Period.debits (take (S k) l) - Period.credits (take (S k) l).
Proof.
  unfold Period.debits, Period.credits, Reports.sum.
  revert b k. induction l as [|y l IH]; intros b k; [discriminate|].
  rewrite firstn_cons, !fmap_cons. cbn [LedgerView.balances foldr].
  destruct k as [|k].
  - intros H. injection H as _ <-. rewrite take_0. csimpl. lia.
  - intros H. apply (IH _ k) in H. rewrite H. lia.
Qed.

Lemma balances_last_cons (b : money) (y : JournalEntry.t)
    (l : list JournalEntry.t) :
  list.last (LedgerView.balances b (y :: l)).*2
  = Some (b + Period.debits (y :: l) - Period.credits (y :: l)).
Proof.
  unfold Period.debits, Period.credits, Reports.sum.
  revert b y. induction l as [|z l IH]; intros b y.
  - simpl. f_equal. lia.
  - specialize (IH (b + JournalEntry.debit y - JournalEntry.credit y) z).
    cbn [LedgerView.balances] in IH |- *.
    rewrite !fmap_cons. rewrite !fmap_cons in IH.
    cbn [snd] in IH |- *. rewrite last_cons_cons, IH. f_equal. csimpl. lia.
Qed.

Lemma balances_last (b : money) (l : list JournalEntry.t) :
  l <> [] ->
  list.last (LedgerView.balances b l).*2
  = Some (b + Period.debits l - Period.credits l).
Proof.
  destruct l as [|y l]; [contradiction|]. intros _. apply balances_last_cons.
Qed.

Lemma sum_perm {A} (f : A -> money) (l l' : list A) :
  l ≡ₚ l' -> Reports.sum (f <$> l) = Reports.sum (f <$> l').
Proof.
  unfold Reports.sum.
  induction 1; csimpl; lia.
Qed.

Lemma of_account_filter (account_id : nat) (t : list JournalEntry.t) :
  LedgerView.of_account account_id t
  = filter (fun e => JournalEntry.account e = account_id) t.
Proof.
  unfold LedgerView.of_account.
  induction t as [|e t IH]; [reflexivity|].
  cbn [List.filter]. rewrite filter_cons, IH.
  destruct (Nat.eqb_spec (JournalEntry.account e) account_id) as [Heq|Hne];
    destruct (decide (JournalEntry.account e = account_id));
    congruence.
Qed.

(** The ledger page of an account that does not exist is a 404.  The page
    of an account lists every journal entry of the account, whatever its
    status, exactly once and in date order: its rows are a rearrangement of
    the rows of the journal whose account is this one. *)
Theorem ledger_lists_the_account_in_date_order (account_id : nat) (d : db) :
  match accounts d !! account_id with
  | None => LedgerView.ledger account_id d = raised "Http404"
  | Some a =>
      exists ctx,
        LedgerView.ledger account_id d = ok ctx
        /\ LedgerView.account ctx = a
        /\ (LedgerView.journal_entries ctx).*1
           ≡ₚ filter (fun e => JournalEntry.account e = account_id) (entries d)
        /\ LedgerView.in_date_order (LedgerView.journal_entries ctx).*1
  end.
Proof.
  unfold LedgerView.ledger.
  destruct (accounts d !! account_id) as [a|]; [|reflexivity].
  eexists. split; [reflexivity|]. simpl. rewrite balances_fst.
  split; [reflexivity|]. split.
  - rewrite order_by_date_perm. rewrite of_account_filter. reflexivity.
  - apply order_by_date_order.
Qed.

(** The cash account of the sample books after the second submission: the
    page lists the approved entry and the pending one. *)
Lemma ledger_lists_the_account_in_date_order_witness :
  exists ctx,
    LedgerView.ledger 0 Later.resubmitted = ok ctx
    /\ ChartOfAccounts.account_name (LedgerView.account ctx) = "Cash"
    /\ (LedgerView.journal_entries ctx).*1
       ≡ₚ [Sample.entry1 "Approved"; Later.pending_entry].
Proof.
  pose proof (ledger_lists_the_account_in_date_order 0 Later.resubmitted) as H.
  destruct (accounts Later.resubmitted !! 0%nat) as [a|] eqn:Ha;
    [|vm_compute in Ha; discriminate Ha].
  destruct H as (ctx & Hctx & Hacc & Hperm & _).
  exists ctx. split; [exact Hctx|]. split.
  - rewrite Hacc. vm_compute in Ha. injection Ha as <-. reflexivity.
  - rewrite Hperm. reflexivity.
Defined.

(** The balance shown on a row of the ledger page is the initial balance of
    the account plus the debits minus the credits of the rows down to it;
    the last balance is the initial balance plus all the debits minus all
    the credits of the entries of the account, Pending and Rejected ones
    included. *)
Theorem ledger_balances_run_from_the_initial_balance (account_id : nat)
    (d : db) (a : ChartOfAccounts.t) (ctx : LedgerView.context) :
  accounts d !! account_id = Some a ->
  LedgerView.ledger account_id d = ok ctx ->
  let rows := LedgerView.journal_entries ctx in
  let own := LedgerView.of_account account_id (entries d) in
  (forall k e b,
     rows !! k = Some (e, b) ->
     b = ChartOfAccounts.initial_balance a
         + Period.debits (take (S k) rows.*1)
         - Period.credits (take (S k) rows.*1))
  /\ (own <> [] ->
      list.last rows.*2
      = Some (ChartOfAccounts.initial_balance a
              + Period.debits own - Period.credits own)).
Proof.
  intros Ha Hctx rows own. subst rows own.
  unfold LedgerView.ledger in Hctx. rewrite Ha in Hctx.
  injection Hctx as <-. simpl. split.
  - intros k e b Hk. rewrite balances_fst. eapply balances_lookup, Hk.
  - intros Hne.
    pose proof (order_by_date_perm (LedgerView.of_account account_id (entries d)))
      as Hperm.
    rewrite balances_last.
    + unfold Period.debits, Period.credits.
      rewrite (sum_perm JournalEntry.debit _ _ Hperm).
      rewrite (sum_perm JournalEntry.credit _ _ Hperm). reflexivity.
    + intros Hnil. rewrite Hnil in Hperm. apply Hne.
      symmetry in Hperm. apply Permutation_nil_r in Hperm. exact Hperm.
Qed.

Lemma ledger_balances_run_from_the_initial_balance_witness :
  exists ctx,
    LedgerView.ledger 0 Sample.submitted = ok ctx
    /\ list.last (LedgerView.journal_entries ctx).*2 = Some 10000
    /\ ChartOfAccounts.balance <$> accounts Sample.submitted !! 0%nat = Some 0.
Proof.
  eexists. split; [reflexivity|]. split; [|reflexivity].
  destruct (ledger_balances_run_from_the_initial_balance 0 Sample.submitted
              Sample.cash_account _ eq_refl eq_refl) as [_ H].
  rewrite H by discriminate. reflexivity.
Defined.

(** ** The pending entries of the home page *)

Section Pending.

Variable Decimal : string -> option Qc.
Variable to_python : string -> option Date.
Variable quantize : Qc -> money.

(** In every reachable database an entry listed as pending has not been
    posted: no row of the general ledger belongs to it. *)
Theorem pending_entries_are_not_in_the_ledger (d : db)
    (r : nat * JournalEntry.t) (row : GeneralLedger.t) :
  reachable Decimal to_python quantize d ->
  r ∈ journal_entry_data d ->
  row ∈ ledger d ->
  GeneralLedger.journal_entry row <> Some r.1.
Proof.
  intros Hd Hr Hrow Heq.
  destruct (reachable_invariants Decimal to_python quantize d Hd)
    as (_ & _ & _ & Hrows & _).
  destruct (Hrows row Hrow) as (pk & e & Hpk & He & Hs & _).
  apply list_filter_elem in Hr as [Hr Hp].
  apply with_pk_elem in Hr.
  rewrite Heq in Hpk. injection Hpk as <-.
  rewrite Hr in He. injection He as <-.
  apply String.eqb_eq in Hp. contradiction.
Qed.

End Pending.

Lemma pending_entries_are_not_in_the_ledger_witness :
  GeneralLedger.journal_entry Later.first_row <> Some 2%nat.
Proof.
  apply (pending_entries_are_not_in_the_ledger plain_decimal iso_date
           half_even_cents Later.resubmitted (2%nat, Later.pending_entry)
           Later.first_row).
  - apply reachable_serve, sample_reachable.
  - vm_compute. apply list_elem_of_here.
  - vm_compute. apply list_elem_of_here.
Defined.

(** ** A press of a button, entry by entry *)

Lemma rewritten_length (g : JournalEntry.t -> JournalEntry.t)
    (rows : list (nat * JournalEntry.t)) (t : list JournalEntry.t) :
  length (Decision.rewritten g rows t) = length t.
Proof.
  unfold Decision.rewritten. revert t.
  induction rows as [|r rows IH]; intros t; simpl; [reflexivity|].
  rewrite IH. apply length_insert.
Qed.

Lemma rewritten_other (g : JournalEntry.t -> JournalEntry.t)
    (rows : list (nat * JournalEntry.t)) (t : list JournalEntry.t) (pk : nat) :
  pk ∉ rows.*1 -> Decision.rewritten g rows t !! pk = t !! pk.
Proof.
  unfold Decision.rewritten. revert t.
  induction rows as [|r rows IH]; intros t Hpk; simpl; [reflexivity|].
  rewrite fmap_cons in Hpk. apply not_elem_of_cons in Hpk as [Hne Hpk].
  rewrite IH by exact Hpk. apply list_lookup_insert_ne. congruence.
Qed.

Lemma rewritten_row (g : JournalEntry.t -> JournalEntry.t)
    (rows : list (nat * JournalEntry.t)) (t : list JournalEntry.t)
    (r : nat * JournalEntry.t) :
  NoDup rows.*1 -> r ∈ rows -> (r.1 < length t)%nat ->
  Decision.rewritten g rows t !! r.1 = Some (g r.2).
Proof.
  revert t.
  induction rows as [|x rows IH]; intros t Hnd Hr Hlt.
  - apply elem_of_nil in Hr. contradiction.
  - rewrite fmap_cons in Hnd. apply list.NoDup_cons in Hnd as [Hx Hnd].
    change (Decision.rewritten g (x :: rows) t)
      with (Decision.rewritten g rows (<[x.1 := g x.2]> t)).
    apply elem_of_cons in Hr as [->|Hr].
    + rewrite rewritten_other by exact Hx.
      apply list_lookup_insert_eq. exact Hlt.
    + apply IH; [exact Hnd | exact Hr | rewrite length_insert; exact Hlt].
Qed.

Lemma set_entries_id (d : db) : set_entries (fun t => t) d = d.
Proof. destruct d; reflexivity. Qed.

Lemma reject_body_no_fault (gid : option nat) (r : nat * JournalEntry.t)
    (d : db) (msgs : list message) :
  exists msgs1,
    (add_comment gid ;;
     save_entry r.1 (JournalEntry.set_status "Rejected" r.2)) (mk_world [] d msgs)
    = (ok tt,
       mk_world []
         (set_entries
            (fun t => <[r.1 := JournalEntry.set_status "Rejected" r.2]> t) d)
         msgs1).
Proof.
  unfold mbind, M_bind.
  destruct (add_comment_store gid (mk_world [] d msgs)) as [msgs1 ->].
  exists msgs1. reflexivity.
Qed.

Lemma reject_loop (gid : option nat) (rows : list (nat * JournalEntry.t))
    (d : db) (msgs : list message) :
  exists msgs',
    for_each rows
      (fun r => add_comment gid ;;
                save_entry r.1 (JournalEntry.set_status "Rejected" r.2))
      (mk_world [] d msgs)
    = (ok tt,
       mk_world []
         (set_entries
            (Decision.rewritten (JournalEntry.set_status "Rejected") rows) d)
         msgs').
Proof.
  revert d msgs. induction rows as [|r rows IH]; intros d msgs.
  - exists msgs. simpl. unfold mret, M_ret.
    change (Decision.rewritten _ [] ) with (fun t : list JournalEntry.t => t).
    rewrite set_entries_id. reflexivity.
  - cbn [for_each]. unfold mbind at 1, M_bind at 1.
    destruct (reject_body_no_fault gid r d msgs) as [msgs1 ->].
    destruct (IH (set_entries
                    (fun t => <[r.1 := JournalEntry.set_status "Rejected" r.2]> t) d)
                 msgs1) as [msgs' ->].
    exists msgs'. reflexivity.
Qed.

Lemma approve_body_no_fault (r : nat * JournalEntry.t) (d : db)
    (msgs : list message) :
  entries d !! r.1 = Some r.2 ->
  is_Some (accounts d !! JournalEntry.account r.2) ->
  exists d1,
    (entry ← approve r.1 r.2;
     account ← related_account (JournalEntry.account entry);
     save_account (JournalEntry.account entry) account) (mk_world [] d msgs)
    = (ok tt, mk_world [] d1 msgs)
    /\ entries d1 = <[r.1 := Decision.approved r.2]> (entries d)
    /\ (forall k, is_Some (accounts d !! k) -> is_Some (accounts d1 !! k)).
Proof.
  intros Hr [a Ha]. unfold Decision.approved, mbind, M_bind.
  destruct (String.eqb_spec (JournalEntry.status r.2) "Pending") as [Hs|Hs].
  - rewrite (approve_pending_no_fault d msgs r.1 r.2 a Hs Ha).
    unfold related_account. simpl.
    rewrite list_lookup_insert_eq by (eapply lookup_lt_Some, Ha).
    unfold save_account, write. simpl.
    eexists. split; [reflexivity|]. split; [reflexivity|].
    intros k Hk. simpl. apply is_Some_lookup_insert, is_Some_lookup_insert, Hk.
  - rewrite approve_not_pending by exact Hs.
    unfold related_account. simpl. rewrite Ha.
    unfold save_account, write. simpl.
    eexists. split; [reflexivity|]. split.
    + simpl. symmetry. apply list_insert_id. exact Hr.
    + intros k Hk. simpl. apply is_Some_lookup_insert, Hk.
Qed.

Lemma approve_loop (rows : list (nat * JournalEntry.t)) (d : db)
    (msgs : list message) :
  current rows d ->
  (forall r, r ∈ rows -> is_Some (accounts d !! JournalEntry.account r.2)) ->
  exists d',
    for_each rows
      (fun r =>
         entry ← approve r.1 r.2;
         account ← related_account (JournalEntry.account entry);
         save_account (JournalEntry.account entry) account)
      (mk_world [] d msgs)
    = (ok tt, mk_world [] d' msgs)
    /\ entries d' = Decision.rewritten Decision.approved rows (entries d).
Proof.
  revert d. induction rows as [|r rows IH]; intros d Hcur Hfk.
  - exists d. split; reflexivity.
  - cbn [for_each]. unfold mbind at 1, M_bind at 1.
    pose proof (proj2 Hcur r (list_elem_of_here _ _)) as Hr.
    destruct (approve_body_no_fault r d msgs Hr (Hfk r (list_elem_of_here _ _)))
      as (d1 & -> & He & Hkeep).
    destruct (IH d1) as (d' & -> & He').
    + eapply current_tail; [exact Hcur|].
      intros pk Hpk. rewrite He. apply list_lookup_insert_ne. congruence.
    + intros x Hx. apply Hkeep, Hfk. apply elem_of_cons. auto.
    + exists d'. split; [reflexivity|]. rewrite He', He. reflexivity.
Qed.

Lemma filter_group_elem (gid : option nat) (t : list JournalEntry.t)
    (r : nat * JournalEntry.t) :
  r ∈ filter_group gid t <-> t !! r.1 = Some r.2 /\ JournalEntry.group r.2 = gid.
Proof.
  unfold filter_group. rewrite list_filter_elem, with_pk_elem.
  rewrite bool_decide_eq_true. reflexivity.
Qed.

(** A row of the table after the rows of a group were written back. *)
Lemma rewritten_group (g : JournalEntry.t -> JournalEntry.t) (gid : option nat)
    (t : list JournalEntry.t) (pk : nat) (e : JournalEntry.t) :
  t !! pk = Some e ->
  Decision.rewritten g (filter_group gid t) t !! pk
  = Some (if bool_decide (JournalEntry.group e = gid) then g e else e).
Proof.
  intros He. case_bool_decide as Hg.
  - apply (rewritten_row g _ t (pk, e)).
    + apply list_filter_NoDup_fst. rewrite with_pk_fst. apply NoDup_seq.
    + apply filter_group_elem. auto.
    + eapply lookup_lt_Some, He.
  - rewrite rewritten_other; [exact He|].
    intros Hin. apply list_elem_of_fmap in Hin as (r & -> & Hr).
    apply filter_group_elem in Hr as [Hr Hgr]. congruence.
Qed.

Lemma page_press_entries (req : page_request) (d : db) :
  Period.accounts_exist d ->
  page_method req = "POST" ->
  entries (serve_page req d)
  = match pressed req with
    | approve_button =>
        Decision.rewritten Decision.approved
          (filter_group (group_id req) (entries d)) (entries d)
    | reject_button =>
        Decision.rewritten (JournalEntry.set_status "Rejected")
          (filter_group (group_id req) (entries d)) (entries d)
    | no_button => entries d
    end.
Proof.
  intros Hfk Hm. unfold serve_page, journal_entry_page. rewrite Hm. simpl.
  destruct (pressed req); unfold mbind at 1, M_bind at 1.
  - unfold mbind at 1, M_bind at 1.
    destruct (add_comment_store (group_id req) (mk_world [] d [])) as [msgs ->].
    unfold mbind at 1, M_bind at 1, read at 1. simpl.
    destruct (approve_loop (filter_group (group_id req) (entries d)) d msgs)
      as (d' & -> & He).
    + apply filter_group_current.
    + intros r Hr. apply filter_group_elem in Hr as [Hr _].
      unfold Period.accounts_exist in Hfk. rewrite list.Forall_forall in Hfk.
      apply Hfk. eapply list_elem_of_lookup_2, Hr.
    + exact He.
  - unfold mbind at 1, M_bind at 1, read at 1. simpl.
    destruct (reject_loop (group_id req) (filter_group (group_id req) (entries d))
                d []) as [msgs' ->].
    reflexivity.
  - reflexivity.
Qed.

Lemma page_press_lookup (req : page_request) (d : db) (pk : nat)
    (e : JournalEntry.t) :
  Period.accounts_exist d ->
  page_method req = "POST" ->
  entries d !! pk = Some e ->
  entries (serve_page req d) !! pk
  = Some (Decision.decided (pressed req) (group_id req) e).
Proof.
  intros Hfk Hm He. rewrite (page_press_entries req d Hfk Hm).
  unfold Decision.decided.
  destruct (pressed req).
  - apply rewritten_group. exact He.
  - apply rewritten_group. exact He.
  - rewrite He. case_bool_decide; reflexivity.
Qed.

Lemma page_press_length (req : page_request) (d : db) :
  Period.accounts_exist d ->
  page_method req = "POST" ->
  length (entries (serve_page req d)) = length (entries d).
Proof.
  intros Hfk Hm. rewrite (page_press_entries req d Hfk Hm).
  destruct (pressed req); try apply rewritten_length. reflexivity.
Qed.

(** A press of a button on the journal entry page, with no write refused:
    every entry of the group is decided, a Pending one becomes Approved on
    approve, every one becomes Rejected on reject; the entries of the other
    groups stay as they are. *)
Theorem press_decides_the_entries_of_the_group (req : page_request) (d : db)
    (pk : nat) (e : JournalEntry.t) :
  Period.accounts_exist d ->
  page_method req = "POST" ->
  entries d !! pk = Some e ->
  entries (serve_page req d) !! pk
  = Some (Decision.decided (pressed req) (group_id req) e).
Proof. exact (page_press_lookup req d pk e). Qed.

Lemma sample_accounts_exist : Period.accounts_exist Later.resubmitted.
Proof. repeat constructor; eexists; reflexivity. Qed.

Lemma press_decides_the_entries_of_the_group_witness :
  entries (serve_page (mk_page_request "POST" approve_button (Some 1%nat))
             Later.resubmitted) !! 2%nat
  = Some (JournalEntry.set_status "Approved" Later.pending_entry).
Proof.
  apply (press_decides_the_entries_of_the_group
           (mk_page_request "POST" approve_button (Some 1%nat))
           Later.resubmitted 2 Later.pending_entry sample_accounts_exist);
    reflexivity.
Defined.

(** After a press of the approve or of the reject button, no entry of the
    group is left in the pending entries of the home page. *)
Theorem decided_group_leaves_the_pending_list (req : page_request) (d : db)
    (r : nat * JournalEntry.t) :
  Period.accounts_exist d ->
  page_method req = "POST" ->
  pressed req <> no_button ->
  r ∈ journal_entry_data (serve_page req d) ->
  JournalEntry.group r.2 <> group_id req.
Proof.
  intros Hfk Hm Hb Hr Hg.
  apply list_filter_elem in Hr as [Hr Hp]. apply with_pk_elem in Hr.
  apply String.eqb_eq in Hp.
  pose proof (lookup_lt_Some _ _ _ Hr) as Hlt.
  rewrite (page_press_length req d Hfk Hm) in Hlt.
  apply lookup_lt_is_Some in Hlt as [e He].
  rewrite (page_press_lookup req d r.1 e Hfk Hm He) in Hr.
  injection Hr as Hr. rewrite <- Hr in Hp, Hg. clear Hr.
  unfold Decision.decided, Decision.approved in Hp, Hg.
  case_bool_decide as Hge.
  - destruct (pressed req); [| discriminate Hp | contradiction].
    destruct (String.eqb_spec (JournalEntry.status e) "Pending");
      [discriminate Hp | contradiction].
  - contradiction.
Qed.

Lemma decided_group_leaves_the_pending_list_witness :
  JournalEntry.group Later.pending_entry <> Some 0%nat.
Proof.
  apply (decided_group_leaves_the_pending_list
           (mk_page_request "POST" reject_button (Some 0%nat))
           Later.resubmitted (2%nat, Later.pending_entry) sample_accounts_exist).
  - reflexivity.
  - discriminate.
  - vm_compute. apply list_elem_of_here.
Defined.

(** ** More of the login *)

Lemma clean_attempts (today : Date) (u : CustomUser.t) :
  CustomUser.failed_login_attempts (CustomUser.clean today u)
  = CustomUser.failed_login_attempts u.
Proof.
  unfold CustomUser.clean.
  destruct (CustomUser.is_suspended u); simpl; [|reflexivity].
  destruct (CustomUser.suspension_start_date u),
           (CustomUser.suspension_end_date u); reflexivity.
Qed.

Lemma authenticate_right (us : gmap string CustomUser.t) (name : string)
    (user : CustomUser.t) :
  us !! name = Some user ->
  CustomUser.is_active user = true ->
  Login.authenticate us (Some name) (Some (CustomUser.password user)) = Some user.
Proof.
  intros Hu Ha. unfold Login.authenticate. rewrite Hu.
  rewrite String.eqb_refl, Ha. reflexivity.
Qed.

Lemma authenticate_Some (us : gmap string CustomUser.t)
    (name pw : option string) (user : CustomUser.t) :
  Login.authenticate us name pw = Some user ->
  exists n,
    name = Some n /\ us !! n = Some user
    /\ pw = Some (CustomUser.password user)
    /\ CustomUser.is_active user = true.
Proof.
  unfold Login.authenticate.
  destruct name as [n|]; [|discriminate].
  destruct pw as [p|]; [|discriminate].
  destruct (us !! n) as [u|] eqn:Hu; [|discriminate].
  destruct (String.eqb_spec (CustomUser.password u) p) as [Hp|]; [|discriminate].
  destruct (CustomUser.is_active u) eqn:Ha; [|discriminate].
  simpl. intros H. injection H as <-. exists n. rewrite Hp. auto.
Qed.

(** A login with the right password while the suspension window is open is
    refused: the user is stored as suspended, nobody is logged in, the
    counter of failed attempts is not touched. *)
Theorem suspended_login_is_refused (today : Date) (req : Login.request)
    (st : Login.site) (name : string) (user : CustomUser.t) (s e : Date) :
  Login.method req = "POST" ->
  Login.post_username req = Some name ->
  Login.users st !! name = Some user ->
  CustomUser.username user = name ->
  Login.post_password req = Some (CustomUser.password user) ->
  CustomUser.is_active user = true ->
  CustomUser.suspension_start_date user = Some s ->
  CustomUser.suspension_end_date user = Some e ->
  s <= today <= e ->
  (Login.login_user today req st).2 = redirect "login"
  /\ Login.session_user (Login.login_user today req st).1 = Login.session_user st
  /\ Login.messages (Login.login_user today req st).1
     = Login.messages st
       ++ [(error,
            "Your account has been suspended. Reach out to an admin to unlock it.")]
  /\ Login.users (Login.login_user today req st).1 !! name
     = Some (CustomUser.set_is_suspended true user).
Proof.
  intros Hm Hn Hu Hname Hpw Hact Hs He Hin.
  unfold Login.login_user. rewrite Hm, Hn, Hpw. cbn [String.eqb Ascii.eqb Bool.eqb].
  rewrite (authenticate_right _ _ _ Hu Hact).
  unfold Login.refresh_suspension. rewrite Hs, He.
  rewrite (proj2 (within_spec s today e) Hin).
  unfold CustomUser.save, CustomUser.clean. simpl. rewrite Hs, He. simpl.
  rewrite (proj2 (within_spec s today e) Hin). simpl.
  repeat split. rewrite Hname. apply lookup_insert_eq.
Qed.

Lemma suspended_login_is_refused_witness :
  (Login.login_user 100 Cases.carol_login Cases.carol_site).2 = redirect "login"
  /\ Login.session_user (Login.login_user 100 Cases.carol_login Cases.carol_site).1
     = None.
Proof.
  destruct (suspended_login_is_refused 100 Cases.carol_login Cases.carol_site
              "carol" Cases.carol 90 110 eq_refl eq_refl eq_refl eq_refl
              eq_refl eq_refl eq_refl eq_refl)
    as (H1 & H2 & _).
  - lia.
  - split; assumption.
Defined.

(** A login with the right password after the end of the suspension window
    lifts the suspension: the user is logged in and stored as not
    suspended, without suspension dates, with the counter at 0. *)
Theorem expired_suspension_is_lifted_at_login (today : Date)
    (req : Login.request) (st : Login.site) (name : string)
    (user : CustomUser.t) (s e : Date) :
  Login.method req = "POST" ->
  Login.post_username req = Some name ->
  Login.users st !! name = Some user ->
  CustomUser.username user = name ->
  Login.post_password req = Some (CustomUser.password user) ->
  CustomUser.is_active user = true ->
  CustomUser.suspension_start_date user = Some s ->
  CustomUser.suspension_end_date user = Some e ->
  e < today ->
  (Login.login_user today req st).2 = redirect "home"
  /\ Login.session_user (Login.login_user today req st).1 = Some name
  /\ Login.users (Login.login_user today req st).1 !! name
     = Some (Lockout.cleared user).
Proof.
  intros Hm Hn Hu Hname Hpw Hact Hs He Hlt.
  unfold Login.login_user. rewrite Hm, Hn, Hpw. cbn [String.eqb Ascii.eqb Bool.eqb].
  rewrite (authenticate_right _ _ _ Hu Hact).
  unfold Login.refresh_suspension. rewrite Hs, He.
  assert (CustomUser.within s today e = false) as ->.
  { unfold CustomUser.within. apply andb_false_iff. right.
    apply Z.leb_gt. exact Hlt. }
  rewrite (proj2 (Z.ltb_lt e today) Hlt).
  unfold CustomUser.save, CustomUser.clean. simpl.
  rewrite Hname. repeat split. apply lookup_insert_eq.
Qed.

Lemma expired_suspension_is_lifted_at_login_witness :
  Login.users (Login.login_user 111 Cases.carol_login Cases.carol_site).1 !! "carol"
  = Some (Lockout.cleared Cases.carol).
Proof.
  apply (expired_suspension_is_lifted_at_login 111 Cases.carol_login
           Cases.carol_site "carol" Cases.carol 90 110 eq_refl eq_refl eq_refl
           eq_refl eq_refl eq_refl eq_refl eq_refl).
  lia.
Defined.

(** [login_user] logs a user in only on a POST with the password of an
    active user: whenever the session changes, the request carried the
    stored password of the user named and that user is active. *)
Theorem login_needs_the_right_password (today : Date) (req : Login.request)
    (st : Login.site) :
  Login.session_user (Login.login_user today req st).1 <> Login.session_user st ->
  Login.method req = "POST"
  /\ exists name user,
       Login.post_username req = Some name
       /\ Login.users st !! name = Some user
       /\ Login.post_password req = Some (CustomUser.password user)
       /\ CustomUser.is_active user = true.
Proof.
  unfold Login.login_user.
  destruct (String.eqb_spec (Login.method req) "POST") as [Hm|];
    [|intros H; contradiction H; reflexivity].
  destruct (Login.authenticate (Login.users st) (Login.post_username req)
              (Login.post_password req)) as [user|] eqn:Hauth.
  - intros _. split; [exact Hm|].
    apply authenticate_Some in Hauth as (n & Hn & Hu & Hp & Ha).
    exists n, user. auto.
  - intros H. exfalso. apply H.
    destruct (Login.get_user (Login.users st) (Login.post_username req))
      as [user|]; [|reflexivity].
    cbv zeta.
    destruct (5 <=? _); destruct (CustomUser.save _ _ _); reflexivity.
Qed.

Lemma login_needs_the_right_password_witness :
  Login.method Sample.good_login = "POST"
  /\ exists name user,
       Login.post_username Sample.good_login = Some name
       /\ Login.users Sample.site !! name = Some user
       /\ Login.post_password Sample.good_login = Some (CustomUser.password user)
       /\ CustomUser.is_active user = true.
Proof.
  apply (login_needs_the_right_password 100 Sample.good_login Sample.site).
  discriminate.
Defined.

Lemma bounded_insert (us : gmap string CustomUser.t) (k : string)
    (u : CustomUser.t) :
  Lockout.bounded us ->
  0 <= CustomUser.failed_login_attempts u < 5 ->
  Lockout.bounded (<[k := u]> us).
Proof.
  intros Hb Hu name x Hx.
  destruct (decide (k = name)) as [->|Hne].
  - rewrite lookup_insert_eq in Hx. injection Hx as <-. exact Hu.
  - rewrite lookup_insert_ne in Hx by exact Hne. exact (Hb name x Hx).
Qed.

Lemma bounded_save (today : Date) (u : CustomUser.t)
    (us : gmap string CustomUser.t) :
  Lockout.bounded us ->
  0 <= CustomUser.failed_login_attempts u < 5 ->
  Lockout.bounded (CustomUser.save today u us).2
  /\ CustomUser.failed_login_attempts (CustomUser.save today u us).1
     = CustomUser.failed_login_attempts u.
Proof.
  intros Hb Hu. unfold CustomUser.save. simpl. split.
  - apply bounded_insert; [exact Hb | rewrite clean_attempts; exact Hu].
  - apply clean_attempts.
Qed.

Lemma bounded_refresh (today : Date) (u : CustomUser.t)
    (us : gmap string CustomUser.t) :
  Lockout.bounded us ->
  0 <= CustomUser.failed_login_attempts u < 5 ->
  Lockout.bounded (Login.refresh_suspension today u us).2.
Proof.
  intros Hb Hu. unfold Login.refresh_suspension.
  destruct (CustomUser.suspension_start_date u) as [s|]; [|exact Hb].
  destruct (CustomUser.suspension_end_date u) as [e|]; [|exact Hb].
  apply bounded_save; [exact Hb|].
  destruct (CustomUser.within s today e); [exact Hu|].
  destruct (e <? today); exact Hu.
Qed.

(** The counter of failed attempts stays below the threshold: when every
    stored counter is between 0 and 4, it is so after any request to
    [login_user]. *)
Theorem failed_attempts_stay_below_five (today : Date) (req : Login.request)
    (st : Login.site) :
  Lockout.bounded (Login.users st) ->
  Lockout.bounded (Login.users (Login.login_user today req st).1).
Proof.
  intros Hb. unfold Login.login_user.
  destruct (String.eqb (Login.method req) "POST"); [|exact Hb].
  destruct (Login.authenticate (Login.users st) (Login.post_username req)
              (Login.post_password req)) as [user|] eqn:Hauth.
  - apply authenticate_Some in Hauth as (n & _ & Hu & _ & _).
    pose proof (bounded_refresh today user (Login.users st) Hb (Hb n user Hu))
      as Hr.
    destruct (Login.refresh_suspension today user (Login.users st)) as [user' us].
    simpl in Hr.
    destruct (negb (CustomUser.is_suspended user')); [|exact Hr].
    pose proof (bounded_save today
                  (CustomUser.set_failed_login_attempts 0 user') us Hr) as Hs.
    destruct (CustomUser.save today
                (CustomUser.set_failed_login_attempts 0 user') us) as [u2 us2].
    simpl in *. apply Hs. lia.
  - destruct (Login.get_user (Login.users st) (Login.post_username req))
      as [user|] eqn:Hget; [|exact Hb].
    assert (0 <= CustomUser.failed_login_attempts user < 5) as Hu.
    { unfold Login.get_user in Hget.
      destruct (Login.post_username req) as [n|]; [|discriminate].
      exact (Hb n user Hget). }
    cbv zeta.
    match goal with
    | |- context [5 <=? ?x] => destruct (Z.leb_spec 5 x) as [Hge|Hlt]
    end;
      (match goal with
       | |- context [CustomUser.save today ?u ?us] =>
           pose proof (bounded_save today u us Hb) as Hs;
           destruct (CustomUser.save today u us) as [u2 us2]
       end;
       simpl in *; apply Hs; lia).
Qed.

Lemma failed_attempts_stay_below_five_witness :
  Lockout.bounded
    (Login.users (Login.login_user 100 Sample.bad_login Sample.site).1).
Proof.
  apply (failed_attempts_stay_below_five 100 Sample.bad_login Sample.site).
  intros name u Hu. unfold Sample.site in Hu. simpl in Hu.
  apply lookup_singleton_Some in Hu as [_ <-]. simpl. lia.
Defined.

(** A wrong password below the threshold and a username that does not exist
    get the same answer: the same redirect and the same message, so that the
    answer does not tell whether the username exists; the unknown username
    leaves the table of users as it is. *)
Theorem unknown_user_looks_like_a_wrong_password (today : Date)
    (req req' : Login.request) (st : Login.site) (name : string)
    (user : CustomUser.t) :
  Login.method req = "POST" ->
  Login.post_username req = Some name ->
  Login.users st !! name = Some user ->
  Login.post_password req <> Some (CustomUser.password user) ->
  CustomUser.failed_login_attempts user + 1 < 5 ->
  Login.method req' = "POST" ->
  Login.get_user (Login.users st) (Login.post_username req') = None ->
  (Login.login_user today req st).2 = (Login.login_user today req' st).2
  /\ Login.messages (Login.login_user today req st).1
     = Login.messages (Login.login_user today req' st).1
  /\ Login.users (Login.login_user today req' st).1 = Login.users st
  /\ Login.session_user (Login.login_user today req' st).1 = Login.session_user st.
Proof.
  intros Hm Hn Hu Hpw Hlt Hm' Hnone.
  unfold Login.login_user. rewrite Hm, Hm', Hn. cbn [String.eqb Ascii.eqb Bool.eqb].
  rewrite (authenticate_wrong _ _ _ _ Hu Hpw).
  assert (Login.authenticate (Login.users st) (Login.post_username req')
            (Login.post_password req') = None) as ->.
  { unfold Login.authenticate, Login.get_user in *.
    destruct (Login.post_username req') as [n|]; [|reflexivity].
    rewrite Hnone. destruct (Login.post_password req'); reflexivity. }
  rewrite Hnone. simpl. rewrite Hu. simpl.
  destruct (Z.leb_spec 5 (CustomUser.failed_login_attempts user + 1)); [lia|].
  repeat split.
Qed.

Lemma unknown_user_looks_like_a_wrong_password_witness :
  (Login.login_user 100
     (Login.mk_request "POST" (Some "carol") (Some "guess")) Cases.carol_site).2
  = (Login.login_user 100 Cases.stranger_login Cases.carol_site).2
  /\ Login.users (Login.login_user 100 Cases.stranger_login Cases.carol_site).1
     = Login.users Cases.carol_site.
Proof.
  destruct (unknown_user_looks_like_a_wrong_password 100
              (Login.mk_request "POST" (Some "carol") (Some "guess"))
              Cases.stranger_login Cases.carol_site "carol" Cases.carol
              eq_refl eq_refl eq_refl)
    as (H1 & _ & H3 & _).
  - discriminate.
  - simpl. lia.
  - reflexivity.
  - reflexivity.
  - split; assumption.
Defined.

(** ** Saving twice *)

Lemma clean_twice (today : Date) (u : CustomUser.t) :
  CustomUser.clean today (CustomUser.clean today (CustomUser.clean today u))
  = CustomUser.clean today (CustomUser.clean today u)
  /\ (CustomUser.clean today (CustomUser.clean today u) = CustomUser.clean today u
      <-> ~ (CustomUser.is_suspended u = true
             /\ CustomUser.is_suspended (CustomUser.clean today u) = false
             /\ (is_Some (CustomUser.suspension_start_date u)
                 \/ is_Some (CustomUser.suspension_end_date u)))).
Proof.
  destruct u as [n p a susp k s e]. unfold CustomUser.clean. simpl.
  destruct susp; simpl.
  - destruct s as [s|], e as [e|]; simpl.
    + destruct (CustomUser.within s today e) eqn:Hw; simpl; rewrite ?Hw; simpl.
      * split; [reflexivity|]. split; [intros _ (_ & H & _); discriminate H|].
        reflexivity.
      * split; [reflexivity|]. split.
        -- intros H. discriminate H.
        -- intros H. exfalso. apply H. repeat split. left. eexists; reflexivity.
    + split; [reflexivity|]. split.
      * intros H. discriminate H.
      * intros H. exfalso. apply H. repeat split. left. eexists; reflexivity.
    + split; [reflexivity|]. split.
      * intros H. discriminate H.
      * intros H. exfalso. apply H. repeat split. right. eexists; reflexivity.
    + split; [reflexivity|]. split; [|reflexivity].
      intros _ (_ & _ & [[x Hx]|[x Hx]]); discriminate.
  - split; [reflexivity|]. split; [|reflexivity].
    intros _ (H & _). discriminate H.
Qed.

(** Three saves of a user on one day store what two saves store: the second
    save clears the suspension dates that the first one left when it lifted
    the suspension, and nothing is left to do after it.  One save is enough
    exactly when the first did not lift a suspension with a date set. *)
Theorem second_save_settles_the_user (today : Date) (u : CustomUser.t)
    (us : gmap string CustomUser.t) :
  let s1 := CustomUser.save today u us in
  let s2 := CustomUser.save today s1.1 s1.2 in
  let s3 := CustomUser.save today s2.1 s2.2 in
  s3 = s2
  /\ (s2 = s1
      <-> ~ (CustomUser.is_suspended u = true
             /\ CustomUser.is_suspended s1.1 = false
             /\ (is_Some (CustomUser.suspension_start_date u)
                 \/ is_Some (CustomUser.suspension_end_date u)))).
Proof.
  cbv zeta. unfold CustomUser.save. cbn [fst snd].
  destruct (clean_twice today u) as [H3 H2].
  rewrite H3, !clean_username. split.
  - rewrite insert_insert_eq. reflexivity.
  - rewrite <- H2. split.
    + intros H. injection H as H _. exact H.
    + intros H. rewrite H, insert_insert_eq. reflexivity.
Qed.

(** ** Deactivation *)

Lemma deactivated_cases (req : account_request) (pk : nat) (d : db) :
  Activation.deactivated req pk d = d
  \/ exists a,
       accounts d !! pk = Some a /\ ChartOfAccounts.balance a <= 0
       /\ is_superuser req = true
       /\ Activation.deactivated req pk d
          = Activation.logged "deactivated" pk (Activation.switched false pk a d).
Proof.
  unfold Activation.deactivated, deactivate_account, get_object_or_404,
    mbind, M_bind.
  destruct (is_superuser req); simpl; [|left; reflexivity].
  destruct (accounts d !! pk) as [a|] eqn:Ha; [|left; reflexivity].
  destruct (Z.ltb_spec 0 (ChartOfAccounts.balance a)); [left; reflexivity|].
  right. exists a. repeat split. exact H.
Qed.

(** Deactivation and its guard, with no write refused.  An account with a
    balance greater than 0 is left as it is, with an error message.  An
    account with a balance of 0 or less is switched off and the event log
    gets a row for the deactivation; nothing else is changed.  Activating it
    again gives back the accounts, the groups, the journal and the ledger as
    they were when the account was active; the database is not the one
    before the two requests, because the event log keeps a row for each of
    them. *)
Theorem deactivation_is_guarded_and_undone_by_activation
    (req : account_request) (pk : nat) (d : db) (a : ChartOfAccounts.t) :
  is_superuser req = true ->
  accounts d !! pk = Some a ->
  (0 < ChartOfAccounts.balance a ->
   deactivate_account req pk (mk_world [] d [])
   = (ok (redirect "chart_of_accounts"),
      mk_world [] d
        [(error, "Accounts with a balance greater than 0 cannot be deactivated.")]))
  /\ (ChartOfAccounts.balance a <= 0 ->
      Activation.deactivated req pk d
      = Activation.logged "deactivated" pk (Activation.switched false pk a d)
      /\ (ChartOfAccounts.is_active a = true ->
          Activation.activated req pk (Activation.deactivated req pk d)
          = Activation.logged "activated" pk
              (Activation.logged "deactivated" pk d))).
Proof.
  intros Hsu Ha.
  unfold Activation.deactivated, Activation.activated, Activation.switched,
    Activation.logged, deactivate_account, activate_account,
    get_object_or_404, mbind, M_bind.
  rewrite Hsu. simpl. rewrite Ha. split.
  - intros Hpos. rewrite (proj2 (Z.ltb_lt _ _) Hpos). reflexivity.
  - intros Hle. rewrite (proj2 (Z.ltb_ge _ _) Hle). simpl.
    split; [reflexivity|]. intros Hact.
    rewrite list_lookup_insert_eq by (eapply lookup_lt_Some, Ha). simpl.
    destruct d as [accts g es l evs]. unfold set_event_log, set_accounts.
    simpl in *. f_equal.
    rewrite list_insert_insert_eq. apply list_insert_id.
    rewrite Ha. f_equal. destruct a. simpl in *. subst. reflexivity.
Qed.

(** The loan account of the sample books, switched off and on again: the
    four tables of the books are those of before, and the event log, empty
    before, holds the two rows. *)
Lemma deactivation_is_guarded_and_undone_by_activation_witness :
  let d := Activation.activated (Sample.admin None) 1
             (Activation.deactivated (Sample.admin None) 1 Sample.opened) in
  (ChartOfAccounts.is_active
     <$> accounts (Activation.deactivated (Sample.admin None) 1 Sample.opened)
         !! 1%nat) = Some false
  /\ accounts d = accounts Sample.opened
  /\ groups d = groups Sample.opened
  /\ entries d = entries Sample.opened
  /\ ledger d = ledger Sample.opened
  /\ event_log Sample.opened = []
  /\ event_log d
     = [CoAEventLog.mk "deactivated" 1; CoAEventLog.mk "activated" 1].
Proof.
  destruct (deactivation_is_guarded_and_undone_by_activation (Sample.admin None)
              1 Sample.opened Sample.loan_account eq_refl eq_refl) as [_ H].
  destruct H as [Hoff Hon]; [simpl; lia|].
  cbv zeta. rewrite (Hon eq_refl). rewrite Hoff.
  repeat split.
Defined.

Lemma names_switched (b : bool) (pk : nat) (a : ChartOfAccounts.t) (d : db) :
  accounts d !! pk = Some a ->
  ChartOfAccounts.account_name <$> accounts (Activation.switched b pk a d)
  = ChartOfAccounts.account_name <$> accounts d.
Proof.
  intros Ha. simpl. apply (fmap_insert_same _ _ _ a); [exact Ha | reflexivity].
Qed.

Lemma lookup_switched (b : bool) (pk : nat) (a : ChartOfAccounts.t) (d : db)
    (r : nat * ChartOfAccounts.t) :
  accounts d !! pk = Some a ->
  accounts d !! r.1 = Some r.2 ->
  accounts (Activation.switched b pk a d) !! (Activation.after b pk r).1
  = Some (Activation.after b pk r).2.
Proof.
  intros Ha Hr. unfold Activation.after. simpl.
  destruct (Nat.eqb_spec r.1 pk) as [Heq|Hne]; simpl.
  - rewrite Heq in Hr |- *. rewrite Ha in Hr. injection Hr as <-.
    apply list_lookup_insert_eq. eapply lookup_lt_Some, Ha.
  - rewrite list_lookup_insert_ne by congruence. exact Hr.
Qed.

Section StillOpen.

Variable Decimal : string -> option Qc.
Variable to_python : string -> option Date.
Variable quantize : Qc -> money.

Lemma add_journal_entry_pair (req : entry_request) (d : db)
    (msgs : list message) (amount : Qc) (a1 a2 : nat * ChartOfAccounts.t)
    (day1 day2 : Date) :
  entry_method req = "POST" ->
  Entry.checks_pass Decimal req d amount a1 a2 ->
  Entry.names_unique d ->
  date1 req ≫= to_python = Some day1 ->
  date2 req ≫= to_python = Some day2 ->
  add_journal_entry Decimal to_python quantize req (mk_world [] d msgs)
  = (ok (redirect "journal_entry_page"),
     mk_world []
       (set_entries
          (fun t => t ++ Entry.pair_of quantize d amount a1 a2 day1 day2)
          (set_groups S d))
       msgs).
Proof.
  intros Hm (Hd & Hc & Hdq & Hcq & Hpos & Ha1 & Hn1 & Ha2 & Hn2 & Hl & Hr)
    Hnd Hday1 Hday2.
  unfold add_journal_entry. rewrite Hm, Hd, Hc. simpl.
  unfold mbind at 1, M_bind at 1. rewrite (decimal_of_present _ _ _ _ Hdq).
  unfold mbind at 1, M_bind at 1. rewrite (decimal_of_present _ _ _ _ Hcq).
  rewrite (bool_decide_eq_false_2 (amount ≤ 0)%Qc)
    by (apply Qclt_not_le; exact Hpos).
  rewrite (bool_decide_eq_true_2 (amount = amount)) by reflexivity. simpl.
  unfold try_except.
  unfold mbind at 1, M_bind at 1.
  rewrite (get_account_by_name_unique _ a1) by assumption.
  unfold mbind at 1, M_bind at 1.
  rewrite (get_account_by_name_unique _ a2) by assumption.
  rewrite Hl, Hr. simpl.
  unfold create_group, create_entry, mbind, M_bind, read, write. simpl.
  destruct (date1 req) as [s1|]; [|discriminate]. simpl in Hday1. rewrite Hday1.
  destruct (date2 req) as [s2|]; [|discriminate]. simpl in Hday2. rewrite Hday2.
  simpl. unfold set_entries, Entry.pair_of. simpl. rewrite <- app_assoc.
  reflexivity.
Qed.

Lemma checks_pass_switched (b : bool) (pk : nat) (a : ChartOfAccounts.t)
    (req : entry_request) (d : db) (amount : Qc)
    (a1 a2 : nat * ChartOfAccounts.t) :
  accounts d !! pk = Some a ->
  Entry.checks_pass Decimal req d amount a1 a2 ->
  Entry.checks_pass Decimal req (Activation.switched b pk a d) amount
    (Activation.after b pk a1) (Activation.after b pk a2).
Proof.
  intros Ha (Hd & Hc & Hdq & Hcq & Hpos & Ha1 & Hn1 & Ha2 & Hn2 & Hl & Hr).
  unfold Entry.checks_pass.
  rewrite (lookup_switched b pk a d a1 Ha Ha1).
  rewrite (lookup_switched b pk a d a2 Ha Ha2).
  repeat split; try assumption;
    unfold Activation.after;
    repeat match goal with
    | |- context [Nat.eqb ?x ?y] => destruct (Nat.eqb x y)
    end; assumption.
Qed.

(** A deactivated account still takes journal entries: whatever a
    deactivation did to the chart, a submission that passed the checks
    before it passes them after it, and the same pair of Pending entries is
    created. *)
Theorem deactivated_account_still_takes_entries (areq : account_request)
    (pk : nat) (req : entry_request) (d : db) (msgs : list message)
    (amount : Qc) (a1 a2 : nat * ChartOfAccounts.t) (day1 day2 : Date) :
  entry_method req = "POST" ->
  Entry.checks_pass Decimal req d amount a1 a2 ->
  Entry.names_unique d ->
  date1 req ≫= to_python = Some day1 ->
  date2 req ≫= to_python = Some day2 ->
  let w := add_journal_entry Decimal to_python quantize req
             (mk_world [] (Activation.deactivated areq pk d) msgs) in
  w.1 = ok (redirect "journal_entry_page")
  /\ entries (store w.2)
     = entries d ++ Entry.pair_of quantize d amount a1 a2 day1 day2
  /\ accounts (store w.2) = accounts (Activation.deactivated areq pk d).
Proof.
  intros Hm Hpass Hnd Hday1 Hday2. cbv zeta.
  destruct (deactivated_cases areq pk d) as [->|(a & Ha & _ & _ & ->)].
  - rewrite (add_journal_entry_pair req d msgs amount a1 a2 day1 day2)
      by assumption.
    repeat split.
  - rewrite (add_journal_entry_pair req
               (Activation.logged "deactivated" pk
                  (Activation.switched false pk a d))
               msgs amount (Activation.after false pk a1)
               (Activation.after false pk a2) day1 day2); try assumption.
    + repeat split. simpl. f_equal. unfold Entry.pair_of, Activation.after.
      destruct (Nat.eqb a1.1 pk), (Nat.eqb a2.1 pk); reflexivity.
    + exact (checks_pass_switched false pk a req d amount a1 a2 Ha Hpass).
    + unfold Entry.names_unique.
      change (accounts (Activation.logged "deactivated" pk
                          (Activation.switched false pk a d)))
        with (accounts (Activation.switched false pk a d)).
      rewrite names_switched by exact Ha. exact Hnd.
Qed.

End StillOpen.

Lemma deactivated_account_still_takes_entries_witness :
  entries
    (store
       (add_journal_entry plain_decimal iso_date half_even_cents
          (Sample.submit (Some "2024-03-01"))
          (mk_world [] (Activation.deactivated (Sample.admin None) 0 Sample.opened)
             [])).2)
  = [Sample.entry1 "Pending"; Sample.entry2 "Pending"]
  /\ ChartOfAccounts.is_active
       <$> accounts (Activation.deactivated (Sample.admin None) 0 Sample.opened)
           !! 0%nat
     = Some false.
Proof.
  destruct (deactivated_account_still_takes_entries plain_decimal iso_date
              half_even_cents (Sample.admin None) 0
              (Sample.submit (Some "2024-03-01")) Sample.opened [] (Q2Qc 100)
              (0%nat, Sample.cash_account) (1%nat, Sample.loan_account)
              738946 738946 eq_refl (sample_checks_pass _) sample_names_unique
              eq_refl eq_refl)
    as (_ & He & _).
  split; [rewrite He; reflexivity | reflexivity].
Defined.

(** ** The figures of the ratios *)

Lemma not_named (name : string) :
  name <> "Cash" -> name <> "Operating Cash" -> name <> "Total Debt Service" ->
  name <> "Operating Income" -> name <> "Interest Expense" ->
  name <> "Net Sales" -> name <> "Cost of Goods Sold" ->
  name <> "Gross Profit" -> name <> "Net Income" -> name <> "Inventory" ->
  bool_decide (name ∈ Figures.named_accounts) = false.
Proof.
  intros. apply bool_decide_eq_false_2. unfold Figures.named_accounts.
  intros Hin.
  repeat (apply elem_of_cons in Hin as [Hin|Hin]; [contradiction|]).
  apply elem_of_nil in Hin. exact Hin.
Qed.

Lemma assign_totals (t : Ratios.figures) (a : ChartOfAccounts.t) :
  let add c := if Figures.summed c a then ChartOfAccounts.balance a else 0 in
  Ratios.total_assets (Ratios.assign t a) = Ratios.total_assets t + add "Assets"
  /\ Ratios.current_assets (Ratios.assign t a)
     = Ratios.current_assets t + add "Assets"
  /\ Ratios.total_liabilities (Ratios.assign t a)
     = Ratios.total_liabilities t + add "Liabilities"
  /\ Ratios.current_liabilities (Ratios.assign t a)
     = Ratios.current_liabilities t + add "Liabilities"
  /\ Ratios.shareholder_equity (Ratios.assign t a)
     = Ratios.shareholder_equity t + add "Equity".
Proof.
  cbv zeta. unfold Ratios.assign, Figures.summed.
  destruct a as [name number active side category initial debit credit balance].
  cbn [ChartOfAccounts.account_name ChartOfAccounts.account_category
       ChartOfAccounts.balance].
  repeat match goal with
  | |- context [String.eqb name ?s] =>
      destruct (String.eqb_spec name s) as [->|?];
        [rewrite bool_decide_eq_true_2
           by (unfold Figures.named_accounts;
               repeat first [apply list_elem_of_here | apply list_elem_of_further]);
         cbn; repeat split; lia|]
  end.
  rewrite not_named by assumption. cbn [negb andb].
  destruct (String.eqb_spec category "Assets") as [->|?];
    [cbn; repeat split; lia|].
  destruct (String.eqb_spec category "Liabilities") as [->|?];
    [cbn; repeat split; lia|].
  destruct (String.eqb_spec category "Equity") as [->|?];
    cbn; repeat split; lia.
Qed.

Lemma fold_assign_totals (accounts : list ChartOfAccounts.t) (t : Ratios.figures) :
  let t' := fold_left Ratios.assign accounts t in
  Ratios.total_assets t' = Ratios.total_assets t + Figures.total "Assets" accounts
  /\ Ratios.current_assets t'
     = Ratios.current_assets t + Figures.total "Assets" accounts
  /\ Ratios.total_liabilities t'
     = Ratios.total_liabilities t + Figures.total "Liabilities" accounts
  /\ Ratios.current_liabilities t'
     = Ratios.current_liabilities t + Figures.total "Liabilities" accounts
  /\ Ratios.shareholder_equity t'
     = Ratios.shareholder_equity t + Figures.total "Equity" accounts.
Proof.
  cbv zeta. unfold Figures.total, Reports.sum.
  revert t. induction accounts as [|a accounts IH]; intros t.
  - cbn. repeat split; lia.
  - cbn [fold_left List.filter].
    destruct (IH (Ratios.assign t a)) as (H1 & H2 & H3 & H4 & H5).
    destruct (assign_totals t a) as (A1 & A2 & A3 & A4 & A5). cbv zeta in *.
    rewrite H1, H2, H3, H4, H5, A1, A2, A3, A4, A5.
    destruct (Figures.summed "Assets" a), (Figures.summed "Liabilities" a),
             (Figures.summed "Equity" a); csimpl; repeat split; lia.
Qed.

(** What the loop of [calculate_ratios] adds up.  The total assets, and the
    current assets with them, are the balances of the accounts of category
    Assets other than those read by name (Cash, Inventory, ...); the same
    holds for the liabilities; the shareholder equity is the sum over the
    category Equity. *)
Theorem ratio_totals_leave_out_the_named_accounts
    (accounts : list ChartOfAccounts.t) :
  let t := fold_left Ratios.assign accounts Ratios.initial in
  Ratios.total_assets t = Figures.total "Assets" accounts
  /\ Ratios.current_assets t = Figures.total "Assets" accounts
  /\ Ratios.total_liabilities t = Figures.total "Liabilities" accounts
  /\ Ratios.current_liabilities t = Figures.total "Liabilities" accounts
  /\ Ratios.shareholder_equity t = Figures.total "Equity" accounts.
Proof.
  cbv zeta.
  destruct (fold_assign_totals accounts Ratios.initial) as (H1 & H2 & H3 & H4 & H5).
  cbv zeta in *. rewrite H1, H2, H3, H4, H5. cbn. repeat split; lia.
Qed.

(** ** The password reset *)

Section Reset.

Variable check_password : option string -> string -> bool.
Variable make_password : option string -> string.

(** [reset_password] changes the table of users only on a POST whose two
    passwords are equal, for the user named in the session, and when the new
    password does not check against the stored one; it then redirects to the
    login page. *)
Theorem reset_password_writes_only_a_new_password (today : Date)
    (req : Recovery.request) (st st' : Login.site) (resp : response) :
  Recovery.reset_password check_password make_password today req st
  = ok (st', resp) ->
  Login.users st' <> Login.users st ->
  Recovery.method req = "POST"
  /\ Recovery.password1 req = Recovery.password2 req
  /\ resp = redirect "login"
  /\ exists name user,
       Recovery.session_username req = Some name
       /\ Login.users st !! name = Some user
       /\ check_password (Recovery.password1 req) (CustomUser.password user)
          = false.
Proof.
  unfold Recovery.reset_password.
  destruct (String.eqb_spec (Recovery.method req) "POST") as [Hm|];
    [|intros H; injection H as <- _; intros Hne; contradiction Hne; reflexivity].
  case_bool_decide as Heq;
    [|intros H; injection H as <- _; intros Hne; contradiction Hne; reflexivity].
  destruct (Recovery.session_username req) as [name|];
    [|intros H; injection H as <- _; intros Hne; contradiction Hne; reflexivity].
  destruct (Login.users st !! name) as [user|] eqn:Hu; [|discriminate].
  destruct (check_password (Recovery.password1 req) (CustomUser.password user))
    eqn:Hck;
    [intros H; injection H as <- _; intros Hne; contradiction Hne; reflexivity|].
  destruct (CustomUser.save today _ _) as [u' us].
  intros H. injection H as <- <-. intros _.
  repeat split; try assumption. exists name, user. auto.
Qed.

(** A password that was just set cannot be set again: after a reset that
    went through, the same request is answered "That password has already
    been used" and stores nothing.  The stored password is the one made from
    the new password. *)
Theorem password_just_set_is_refused (today : Date) (req : Recovery.request)
    (st : Login.site) (name : string) (user : CustomUser.t) :
  Recovery.method req = "POST" ->
  Recovery.password1 req = Recovery.password2 req ->
  Recovery.session_username req = Some name ->
  Login.users st !! name = Some user ->
  CustomUser.username user = name ->
  check_password (Recovery.password1 req) (CustomUser.password user) = false ->
  check_password (Recovery.password1 req)
    (make_password (Recovery.password1 req)) = true ->
  exists st1,
    Recovery.reset_password check_password make_password today req st
    = ok (st1, redirect "login")
    /\ CustomUser.password <$> Login.users st1 !! name
       = Some (make_password (Recovery.password1 req))
    /\ Recovery.reset_password check_password make_password today req st1
       = ok (Recovery.say error "That password has already been used" st1,
             redirect "reset_password").
Proof.
  intros Hm Heq Hs Hu Hname Hold Hnew.
  unfold Recovery.reset_password at 1. rewrite Hm, Hs, Hu, Hold.
  rewrite (bool_decide_eq_true_2 _ Heq). cbn [String.eqb Ascii.eqb Bool.eqb].
  unfold CustomUser.save. rewrite clean_username. cbn [CustomUser.username
    Recovery.set_password]. rewrite Hname.
  eexists. split; [reflexivity|].
  assert (Hpw : forall u, CustomUser.password (CustomUser.clean today u)
                          = CustomUser.password u).
  { intros u. unfold CustomUser.clean.
    destruct (CustomUser.is_suspended u); simpl; [|reflexivity].
    destruct (CustomUser.suspension_start_date u),
             (CustomUser.suspension_end_date u); reflexivity. }
  split.
  - cbn [Login.users]. rewrite lookup_insert_eq. cbn [fmap option_fmap option_map].
    rewrite Hpw. reflexivity.
  - unfold Recovery.reset_password. rewrite Hm, Hs.
    rewrite (bool_decide_eq_true_2 _ Heq). cbn [String.eqb Ascii.eqb Bool.eqb].
    cbn [Login.users]. rewrite lookup_insert_eq, Hpw.
    cbn [CustomUser.password Recovery.set_password]. rewrite Hnew. reflexivity.
Qed.

End Reset.

Lemma reset_password_writes_only_a_new_password_witness :
  Recovery.method Cases.carol_reset = "POST"
  /\ Recovery.password1 Cases.carol_reset = Recovery.password2 Cases.carol_reset.
Proof.
  destruct (reset_password_writes_only_a_new_password Cases.plain_check
              Cases.plain_make 100 Cases.carol_reset Cases.carol_site
              _ _ eq_refl)
    as (H1 & H2 & _).
  - intros H.
    apply (f_equal (fun m : gmap string CustomUser.t =>
                      CustomUser.password <$> m !! "carol")) in H.
    vm_compute in H. discriminate H.
  - split; assumption.
Defined.

Lemma password_just_set_is_refused_witness :
  exists st1,
    Recovery.reset_password Cases.plain_check Cases.plain_make 100
      Cases.carol_reset Cases.carol_site
    = ok (st1, redirect "login")
    /\ CustomUser.password <$> Login.users st1 !! "carol" = Some "new pw"
    /\ Recovery.reset_password Cases.plain_check Cases.plain_make 100
         Cases.carol_reset st1
       = ok (Recovery.say error "That password has already been used" st1,
             redirect "reset_password").
Proof.
  apply (password_just_set_is_refused Cases.plain_check Cases.plain_make
           100 Cases.carol_reset Cases.carol_site "carol" Cases.carol);
    reflexivity.
Defined.
